(** * Outline client: tunnel session manager and connectivity diagnostics

    A shallow embedding of
    - the Go [Client] of package [outline] (latency, download and upload
      probes, the combined tests, client construction from a transport
      configuration),
    - the Swift [OutlineVpn] session manager (start / stop / isActive, the
      status-notification handler with its detached tasks, and the
      comprehensive test through the extension),
    - the TypeScript [VPNManagementAPI] (the bandwidth aggregation on
      JavaScript numbers, the connectivity tests, the requests to the
      API), the [ServerLogsHandler] and the [ServerTestService],
    followed by the properties established about them. *)

From Stdlib Require Import ZArith QArith Qround Lia Sorting.Sorted Sorting.Permutation.
From Stdlib Require Import SpecFloat.
From stdpp Require Import base option strings list gmap pretty.

Local Open Scope Z_scope.

(** ** Go: package outline, [Client] probes *)

Module GoClient.

(** [int64] arithmetic: two's-complement wrap-around on overflow, the
    quotient truncated towards zero. *)
Definition wrap64 (z : Z) : Z := (z + 2 ^ 63) mod 2 ^ 64 - 2 ^ 63.
Definition int64_add (a b : Z) : Z := wrap64 (a + b).
Definition int64_mul (a b : Z) : Z := wrap64 (a * b).
Definition int64_div (a b : Z) : Z := wrap64 (Z.quot a b).

(** [time.Duration] is an [int64] count of nanoseconds. *)
Definition Duration := Z.
Definition Millisecond : Duration := 1000000.
Definition Second : Duration := 1000000000.
Definition Milliseconds (d : Duration) : Z := Z.quot d Millisecond.

(** What [http.Client.Head] / [http.Client.Get] hand back: a non-nil
    [err] (client policy, timeout, failure to speak HTTP), or a response.
    net/http reports a response with any status code, 2xx or not, with a
    nil [err]. *)
Inductive HttpError := ErrTimeout | ErrConnection | ErrOther.

Inductive HeadResult :=
| HeadError (err : HttpError)
| HeadResponse (StatusCode : Z).

(** [TestLatency]; [since] is the reading of [time.Since(start)] taken at
    the return statement. *)
Definition TestLatency (head : HeadResult) (since : Duration) : Z :=
  match head with
  | HeadError _ => -1
  | HeadResponse _ => Milliseconds since
  end.

(** One call of [resp.Body.Read(buffer)]: the byte count and the error,
    which is nil, [io.EOF] or something else. *)
Inductive ReadErr := ErrNil | ErrEOF | ErrRead.

Record ReadResult := { rd_n : Z; rd_err : ReadErr }.

Inductive GetResult :=
| GetError (err : HttpError)
| GetResponse (Body : list ReadResult).

(** The read loop of [TestDownloadSpeed].  [since k] is the reading of the
    [k]-th evaluation of [time.Since(start)]; the loop hands back
    [totalBytes] and the index of the next reading.  A body whose scripted
    reads are used up answers [0, io.EOF]. *)
Fixpoint readLoop (testDuration : Duration) (since : nat -> Duration)
    (k : nat) (Body : list ReadResult) (totalBytes : Z) : Z * nat :=
  if since k <? testDuration then
    match Body with
    | [] => (int64_add totalBytes 0, S k)
    | r :: rest =>
        match rd_err r with
        | ErrRead => (totalBytes, S k)
        | ErrEOF => (int64_add totalBytes (rd_n r), S k)
        | ErrNil =>
            readLoop testDuration since (S k) rest (int64_add totalBytes (rd_n r))
        end
    end
  else (totalBytes, S k).

(** [totalBytes] and [actualDuration.Milliseconds()] as they stand after
    the loop. *)
Definition measure (Body : list ReadResult) (since : nat -> Duration)
    (durationSeconds : Z) : Z * Z :=
  let testDuration := int64_mul durationSeconds Second in
  let '(totalBytes, k) := readLoop testDuration since 0 Body 0 in
  (totalBytes, Milliseconds (since k)).

(** [totalBytes / int64(actualDuration.Milliseconds()) * 1000 / 1024]:
    Go's [/] and [*] share one precedence and associate to the left. *)
Definition speedKBps (totalBytes ms : Z) : Z :=
  int64_div (int64_mul (int64_div totalBytes ms) 1000) 1024.

Definition TestDownloadSpeed (get : GetResult) (since : nat -> Duration)
    (durationSeconds : Z) : Z :=
  match get with
  | GetError _ => -1
  | GetResponse Body =>
      let '(totalBytes, ms) := measure Body since durationSeconds in
      if ms =? 0 then -1 else speedKBps totalBytes ms
  end.

(** *** Client construction *)

Inductive ErrorCode := InternalError | InvalidConfig.

Section NewClient.
(** Package [config] and the YAML decoder are collaborators: the
    configuration tree, the connection-type tag with its [ConnTypeDirect]
    value, the error values and the two parsing steps are taken as
    given. *)
Context {ConfigNode ConnType GoError : Type} `{EqDecision ConnType}.
Variable ConnTypeDirect : ConnType.
Variable yaml_Unmarshal : string -> GoError + ConfigNode.
Variable errors_Is_ErrUnsupported : GoError -> bool.

(** [config.Dialer] and [config.PacketListener], each tagged with the
    type of connection it makes. *)
Record Endpoint := { ConnType_of : ConnType; endpoint_id : nat }.

Record TransportPair := {
  StreamDialer : Endpoint;
  PacketListener : Endpoint
}.

Variable Parse : ConfigNode -> GoError + TransportPair.

Record Client := { sd : Endpoint; pl : Endpoint }.

Record PlatformError := {
  Code : ErrorCode;
  Message : string;
  Cause : option GoError
}.

(** The Go result pair: the client pointer and the error. *)
Definition NewClientWithBaseDialers (clientConfigText : string)
    : option Client * option PlatformError :=
  match yaml_Unmarshal clientConfigText with
  | inl err =>
      (None, Some {| Code := InvalidConfig;
                     Message := "config is not valid YAML";
                     Cause := Some err |})
  | inr Transport =>
      match Parse Transport with
      | inl err =>
          if errors_Is_ErrUnsupported err then
            (None, Some {| Code := InvalidConfig;
                           Message := "unsupported config";
                           Cause := Some err |})
          else
            (None, Some {| Code := InvalidConfig;
                           Message := "failed to create transport";
                           Cause := Some err |})
      | inr transportPair =>
          if decide (ConnType_of (StreamDialer transportPair) = ConnTypeDirect) then
            (None, Some {| Code := InvalidConfig;
                           Message := "transport must tunnel TCP traffic";
                           Cause := None |})
          else if decide (ConnType_of (PacketListener transportPair) = ConnTypeDirect) then
            (None, Some {| Code := InvalidConfig;
                           Message := "transport must tunnel UDP traffic";
                           Cause := None |})
          else
            (Some {| sd := StreamDialer transportPair;
                     pl := PacketListener transportPair |}, None)
      end
  end.
End NewClient.

(** *** Upload probe and the combined tests *)

(** What [http.Client.Post] hands back. *)
Inductive PostResult :=
| PostError (err : HttpError)
| PostResponse (StatusCode : Z).

(** [chunkSize := 256 * 1024] *)
Definition chunkSize : Z := 256 * 1024.

(** The loop of [TestUploadSpeed]: one chunk is posted per round, and the
    first error ends the loop.  [since k] is the reading of the [k]-th
    evaluation of [time.Since(start)]; a script of POST outcomes that is
    used up answers with an error. *)
Fixpoint postLoop (testDuration : Duration) (since : nat -> Duration)
    (k : nat) (posts : list PostResult) (totalBytes : Z) : Z * nat :=
  if since k <? testDuration then
    match posts with
    | [] => (totalBytes, S k)
    | PostError _ :: _ => (totalBytes, S k)
    | PostResponse _ :: rest =>
        postLoop testDuration since (S k) rest (int64_add totalBytes chunkSize)
    end
  else (totalBytes, S k).

Definition measureUpload (posts : list PostResult) (since : nat -> Duration)
    (durationSeconds : Z) : Z * Z :=
  let testDuration := int64_mul durationSeconds Second in
  let '(totalBytes, k) := postLoop testDuration since 0 posts 0 in
  (totalBytes, Milliseconds (since k)).

Definition TestUploadSpeed (posts : list PostResult) (since : nat -> Duration)
    (durationSeconds : Z) : Z :=
  let '(totalBytes, ms) := measureUpload posts since durationSeconds in
  if ms =? 0 then -1 else speedKBps totalBytes ms.

(** What the network and the clock answer to the three probes of one
    bandwidth test. *)
Record ProbeEnv := {
  latency_head : HeadResult;
  latency_since : Duration;
  download_get : GetResult;
  download_since : nat -> Duration;
  upload_posts : list PostResult;
  upload_since : nat -> Duration
}.

(** [BandwidthTestResult]; its [Error], when set, is the fixed
    InternalError "bandwidth test failed", so the field holds whether it
    is set. *)
Record BandwidthTestResult := {
  DownloadSpeedKBps : Z;
  UploadSpeedKBps : Z;
  LatencyMs : Z;
  Error : option (ErrorCode * string)
}.

Definition PerformBandwidthTest (env : ProbeEnv) : BandwidthTestResult :=
  let latency := TestLatency (latency_head env) (latency_since env) in
  let download := TestDownloadSpeed (download_get env) (download_since env) 10 in
  let upload := TestUploadSpeed (upload_posts env) (upload_since env) 10 in
  {| DownloadSpeedKBps := download;
     UploadSpeedKBps := upload;
     LatencyMs := latency;
     Error :=
       if (latency =? -1) || (download =? -1) || (upload =? -1)
       then Some (InternalError, "bandwidth test failed")
       else None |}.

Section Comprehensive.
(** The platform error type of the connectivity check is a collaborator's. *)
Context {PlatformErr : Type}.

(** [TCPAndUDPConnectivityResult] *)
Record TCPAndUDPConnectivityResult := {
  conn_TCPError : option PlatformErr;
  conn_UDPError : option PlatformErr
}.

Record ComprehensiveTestResult := {
  TCPError : option PlatformErr;
  UDPError : option PlatformErr;
  ct_DownloadSpeedKBps : Z;
  ct_UploadSpeedKBps : Z;
  ct_LatencyMs : Z;
  BandwidthError : option (ErrorCode * string)
}.

(** [PerformComprehensiveTest], given what [CheckTCPAndUDPConnectivity]
    returned for the client. *)
Definition PerformComprehensiveTest (connectivityResult : TCPAndUDPConnectivityResult)
    (env : ProbeEnv) : ComprehensiveTestResult :=
  match conn_TCPError connectivityResult with
  | None =>
      let bandwidthResult := PerformBandwidthTest env in
      match Error bandwidthResult with
      | Some err =>
          {| TCPError := conn_TCPError connectivityResult;
             UDPError := conn_UDPError connectivityResult;
             ct_DownloadSpeedKBps := -1;
             ct_UploadSpeedKBps := -1;
             ct_LatencyMs := -1;
             BandwidthError := Some err |}
      | None =>
          {| TCPError := conn_TCPError connectivityResult;
             UDPError := conn_UDPError connectivityResult;
             ct_DownloadSpeedKBps := DownloadSpeedKBps bandwidthResult;
             ct_UploadSpeedKBps := UploadSpeedKBps bandwidthResult;
             ct_LatencyMs := LatencyMs bandwidthResult;
             BandwidthError := None |}
      end
  | Some _ =>
      {| TCPError := conn_TCPError connectivityResult;
         UDPError := conn_UDPError connectivityResult;
         ct_DownloadSpeedKBps := -1;
         ct_UploadSpeedKBps := -1;
         ct_LatencyMs := -1;
         BandwidthError := None |}
  end.
End Comprehensive.

End GoClient.

(** ** TypeScript: JavaScript numbers *)

(** A JavaScript number is an IEEE 754 binary64 value.  Its arithmetic is
    that of [SpecFloat] at precision 53 and maximal exponent 1024: every
    operation rounds its exact result to the nearest number, a tie going
    to the even mantissa. *)
Module Binary64.

Definition number : Type := spec_float.

Definition prec : Z := 53.
Definition emax : Z := 1024.

(** The number an integer denotes (exactly, up to 2^53 in magnitude). *)
Definition of_Z (z : Z) : number := binary_normalize prec emax z 0 false.

Definition add : number -> number -> number := SFadd prec emax.
Definition sub : number -> number -> number := SFsub prec emax.
Definition div : number -> number -> number := SFdiv prec emax.

(** [x > 0], false for NaN. *)
Definition gt_zero (x : number) : bool := SFltb (of_Z 0) x.

(** [Math.round]: the nearest integer, a tie going towards +infinity.  A
    number with a non-negative exponent is an integer already; for any
    other, floor (x + 1/2) is computed exactly and is at most 2^52 in
    magnitude.  A result of zero keeps the sign of [x]; NaN, the
    infinities and the zeros are returned as they are. *)
Definition Math_round (x : number) : number :=
  match x with
  | S754_finite s m e =>
      if 0 <=? e then x
      else
        let n := (cond_Zopp s (Z.pos m) * 2 + 2 ^ (- e)) / 2 ^ (- e + 1) in
        match n with
        | 0 => S754_zero s
        | _ => of_Z n
        end
  | _ => x
  end.

End Binary64.

(** ** TypeScript: [VPNManagementAPI.performBandwidthTest] *)

Module BandwidthTest.
Import Binary64.

(** [bandwidthResults.sort((a, b) => a - b)]: a stable sort that puts [y]
    before [x] when the comparator answers a number greater than zero for
    [(x, y)], and treats an answer of NaN as zero.  The language fixes the
    order only for a consistent comparator, which this one is on numbers
    that are not NaN. *)
Fixpoint sort_insert (x : number) (l : list number) : list number :=
  match l with
  | [] => [x]
  | y :: l' => if gt_zero (sub x y) then y :: sort_insert x l' else x :: l
  end.

Fixpoint sort (l : list number) : list number :=
  match l with
  | [] => []
  | x :: l' => sort_insert x (sort l')
  end.

Definition medianBandwidth (sortedResults : list number) : number :=
  let medianIndex := (length sortedResults / 2)%nat in
  if Nat.even (length sortedResults) then
    div (add (nth (medianIndex - 1) sortedResults (of_Z 0))
             (nth medianIndex sortedResults (of_Z 0)))
        (of_Z 2)
  else nth medianIndex sortedResults (of_Z 0).

(** The tail of [performBandwidthTest], from the emptiness test on:
    [None] stands for the thrown 'All bandwidth tests failed'. *)
Definition aggregate (bandwidthResults : list number) : option number :=
  match bandwidthResults with
  | [] => None
  | _ =>
      let sortedResults := sort bandwidthResults in
      Some (Math_round (medianBandwidth sortedResults))
  end.

(** One probe of the loop over [testSizes]: the fetch throws (or is
    aborted), answers with a status that is not ok, or delivers
    [byteLength] bytes, [bandwidthTestTime] being the difference of the
    two readings of [performance.now()]. *)
Inductive Probe :=
| ProbeThrows
| ProbeNotOk (status : Z)
| ProbeFetched (byteLength : Z) (bandwidthTestTime : number).

Definition testSizes : list (Z * string) :=
  [ (100 * 1024, "https://httpbin.org/bytes/102400");
    (500 * 1024, "https://httpbin.org/bytes/512000");
    (1024 * 1024, "https://httpbin.org/bytes/1048576") ].

Definition sample (p : Probe) : list number :=
  match p with
  | ProbeFetched byteLength bandwidthTestTime =>
      if gt_zero bandwidthTestTime && (0 <? byteLength) then
        [ div (div (of_Z byteLength) (of_Z 1024)) (div bandwidthTestTime (of_Z 1000)) ]
      else []
  | _ => []
  end.

Definition performBandwidthTest (fetch : string -> Probe) : option number :=
  let bandwidthResults := flat_map (fun t => sample (fetch (snd t))) testSizes in
  aggregate bandwidthResults.

End BandwidthTest.

(** ** TypeScript: [performBandwidthTest] over exact rationals *)

(** The same function with its numbers read as exact rationals.  This
    reading differs from the one above in the last digit of a sample and
    so, at a tie, in the rounded result; the properties of the
    connectivity tests, which are stated over it, use only whether a
    probe yields a sample, the sign of the result and the rounding of an
    integer times 0.8. *)
Module ApiServerRepository.

Local Open Scope Q_scope.

Definition number := Q.

(** [Math.round]: the nearest integer, a tie going towards +infinity. *)
Definition Math_round (x : number) : Z := Qfloor (x + (1 # 2)).

(** [bandwidthResults.sort((a, b) => a - b)]: an ascending, stable sort. *)
Fixpoint sort_insert (x : number) (l : list number) : list number :=
  match l with
  | [] => [x]
  | y :: l' => if Qle_bool x y then x :: l else y :: sort_insert x l'
  end.

Fixpoint sort (l : list number) : list number :=
  match l with
  | [] => []
  | x :: l' => sort_insert x (sort l')
  end.

(** The tail of [performBandwidthTest], from the emptiness test on:
    [None] stands for the thrown 'All bandwidth tests failed'. *)
Definition medianBandwidth (sortedResults : list number) : number :=
  let medianIndex := (length sortedResults / 2)%nat in
  if Nat.even (length sortedResults) then
    (nth (medianIndex - 1) sortedResults 0 + nth medianIndex sortedResults 0) / 2
  else nth medianIndex sortedResults 0.

Definition aggregate (bandwidthResults : list number) : option Z :=
  match bandwidthResults with
  | [] => None
  | _ =>
      let sortedResults := sort bandwidthResults in
      Some (Math_round (medianBandwidth sortedResults))
  end.

(** One probe of the loop over [testSizes]: the fetch throws (or is
    aborted), answers with a status that is not ok, or delivers
    [byteLength] bytes after [bandwidthTestTime] milliseconds. *)
Inductive Probe :=
| ProbeThrows
| ProbeNotOk (status : Z)
| ProbeFetched (byteLength : Z) (bandwidthTestTime : number).

Definition testSizes : list (Z * string) :=
  [ (100 * 1024, "https://httpbin.org/bytes/102400");
    (500 * 1024, "https://httpbin.org/bytes/512000");
    (1024 * 1024, "https://httpbin.org/bytes/1048576") ]%Z.

Definition sample (p : Probe) : list number :=
  match p with
  | ProbeFetched byteLength bandwidthTestTime =>
      if Qlt_le_dec 0 bandwidthTestTime then
        if (0 <? byteLength)%Z then
          [ inject_Z byteLength / 1024 / (bandwidthTestTime / 1000) ]
        else []
      else []
  | _ => []
  end.

Definition performBandwidthTest (fetch : string -> Probe) : option Z :=
  let bandwidthResults := flat_map (fun t => sample (fetch (snd t))) testSizes in
  aggregate bandwidthResults.

End ApiServerRepository.

(** ** Swift: [OutlineVpn], the tunnel session manager *)

Module OutlineVpn.

Inductive NEVPNStatus :=
| invalid | disconnected | connecting | connected | reasserting | disconnecting.

#[global] Instance NEVPNStatus_eq_dec : EqDecision NEVPNStatus.
Proof. solve_decision. Defined.

(** Values of the [String: Any] provider configuration. *)
Inductive AnyValue := AnyString (s : string) | AnyNumber (z : Z).

#[global] Instance AnyValue_eq_dec : EqDecision AnyValue.
Proof. solve_decision. Defined.

(** [providerBundleIdentifier], the same constant in every configuration
    this file writes, is left out. *)
Record NETunnelProviderProtocol := {
  serverAddress : string;
  providerConfiguration : option (gmap string AnyValue)
}.

#[global] Instance NETunnelProviderProtocol_eq_dec : EqDecision NETunnelProviderProtocol.
Proof. solve_decision. Defined.

(** [NEOnDemandRuleConnect] with [interfaceTypeMatch = .any] is the only
    rule the manager ever installs. *)
Inductive NEOnDemandRule := NEOnDemandRuleConnect_any.

#[global] Instance NEOnDemandRule_eq_dec : EqDecision NEOnDemandRule.
Proof. solve_decision. Defined.

(** The configuration held by a [NETunnelProviderManager] object.
    [protocolConfiguration] is [None] when it is nil or not a
    [NETunnelProviderProtocol]. *)
Record NETunnelProviderManager := {
  localizedDescription : option string;
  onDemandRules : option (list NEOnDemandRule);
  isOnDemandEnabled : bool;
  isEnabled : bool;
  protocolConfiguration : option NETunnelProviderProtocol
}.

#[global] Instance NETunnelProviderManager_eq_dec : EqDecision NETunnelProviderManager.
Proof. solve_decision. Defined.

(** [NETunnelProviderManager()] *)
Definition new_manager : NETunnelProviderManager :=
  {| localizedDescription := None; onDemandRules := None;
     isOnDemandEnabled := false; isEnabled := false;
     protocolConfiguration := None |}.

Definition set_isOnDemandEnabled (enabled : bool) (m : NETunnelProviderManager) :=
  {| localizedDescription := localizedDescription m;
     onDemandRules := onDemandRules m;
     isOnDemandEnabled := enabled;
     isEnabled := isEnabled m;
     protocolConfiguration := protocolConfiguration m |}.

Definition set_onDemandRules (rules : option (list NEOnDemandRule))
    (m : NETunnelProviderManager) :=
  {| localizedDescription := localizedDescription m;
     onDemandRules := rules;
     isOnDemandEnabled := isOnDemandEnabled m;
     isEnabled := isEnabled m;
     protocolConfiguration := protocolConfiguration m |}.

(** Errors: what the platform throws, and the cases of [OutlineError]
    this file raises. *)
Inductive Error :=
| systemError (description : string)
| vpnPermissionNotGranted (cause : string)
| setupSystemVPNFailed (cause : string)
| internalError (message : string)
| detailedJsonError (code json : string).

#[global] Instance Error_eq_dec : EqDecision Error.
Proof. solve_decision. Defined.

Definition error_localizedDescription (e : Error) : string :=
  match e with
  | systemError d => d
  | vpnPermissionNotGranted c => c
  | setupSystemVPNFailed c => c
  | internalError m => m
  | detailedJsonError c _ => c
  end.

(** The payload of an IPC reply: a property-list dictionary, or bytes
    that are not one. *)
Inductive PValue := PString (s : string) | PInteger (z : Z) | PBoolean (b : bool).

Inductive Data := plist (d : gmap string PValue) | garbage.

Record LastErrorIPCData := { errorCode : string; errorJson : string }.

(** [PropertyListDecoder().decode(LastErrorIPCData.self, from:)]: both
    keys present and holding strings. *)
Definition decode_LastErrorIPCData (response : Data) : option LastErrorIPCData :=
  match response with
  | plist d =>
      match d !! "errorCode", d !! "errorJson" with
      | Some (PString c), Some (PString j) => Some {| errorCode := c; errorJson := j |}
      | _, _ => None
      end
  | garbage => None
  end.

(** What [sendProviderMessage] meets: it throws, or the extension's
    handler is called with optional data. *)
Inductive IPCAnswer :=
| SendThrows (description : string)
| Reply (data : option Data).

(** Requests observable at the boundary with the platform. *)
Inductive Event :=
| EvLoadAll
| EvLoad
| EvSave (m : NETunnelProviderManager)
| EvStopVPNTunnel (at_status : NEVPNStatus)
| EvStartTunnel (at_status : NEVPNStatus)
| EvSendProviderMessage (message : string)
| EvAddObserver
| EvStatusDidChange (s : NEVPNStatus)
| EvResume (s : NEVPNStatus)
| EvObserver (s : NEVPNStatus) (tunnelId : string).

#[global] Instance Event_eq_dec : EqDecision Event.
Proof. solve_decision. Defined.

(** A detached [Task { await setConnectVpnOnDemand(manager, true) }] that
    has been created and has not run yet: the manager it holds, and the
    number of status notifications the platform still lets pass before it
    runs the task. *)
Record DetachedTask := {
  task_manager : NETunnelProviderManager;
  task_delay : nat
}.

(** The platform as the manager sees it.  [preferences] is the persisted
    list of tunnel provider managers and [status] the status of the
    session of its first entry.  Four scripts stand for what the platform
    decides: whether the next throwing call throws ([failures], none left
    meaning success), which status notifications are still to be posted,
    how the extension answers provider messages, and how long each
    detached task created from now on waits before it runs ([taskDelays],
    none left meaning that the task runs within the notification that
    created it).  [tasks] holds the detached tasks created and not yet
    run.  The session changes status only when a notification is posted,
    and notifications are taken while a function waits on a
    continuation. *)
Record World := {
  preferences : list NETunnelProviderManager;
  status : NEVPNStatus;
  vpnStatusObserver : bool;
  failures : list (option string);
  notifications : list NEVPNStatus;
  responses : list IPCAnswer;
  trace : list Event;
  tasks : list DetachedTask;
  taskDelays : list nat
}.

Definition emit (ev : Event) (w : World) : World :=
  {| preferences := preferences w; status := status w;
     vpnStatusObserver := vpnStatusObserver w; failures := failures w;
     notifications := notifications w; responses := responses w;
     trace := trace w ++ [ev];
     tasks := tasks w; taskDelays := taskDelays w |}.

Definition set_preferences (p : list NETunnelProviderManager) (w : World) : World :=
  {| preferences := p; status := status w;
     vpnStatusObserver := vpnStatusObserver w; failures := failures w;
     notifications := notifications w; responses := responses w;
     trace := trace w;
     tasks := tasks w; taskDelays := taskDelays w |}.

Definition set_failures (f : list (option string)) (w : World) : World :=
  {| preferences := preferences w; status := status w;
     vpnStatusObserver := vpnStatusObserver w; failures := f;
     notifications := notifications w; responses := responses w;
     trace := trace w;
     tasks := tasks w; taskDelays := taskDelays w |}.

Definition set_responses (r : list IPCAnswer) (w : World) : World :=
  {| preferences := preferences w; status := status w;
     vpnStatusObserver := vpnStatusObserver w; failures := failures w;
     notifications := notifications w; responses := r;
     trace := trace w;
     tasks := tasks w; taskDelays := taskDelays w |}.

Definition post (s : NEVPNStatus) (rest : list NEVPNStatus) (w : World) : World :=
  {| preferences := preferences w; status := s;
     vpnStatusObserver := vpnStatusObserver w; failures := failures w;
     notifications := rest; responses := responses w;
     trace := trace w ++ [EvStatusDidChange s];
     tasks := tasks w; taskDelays := taskDelays w |}.

Definition set_vpnStatusObserver (b : bool) (w : World) : World :=
  {| preferences := preferences w; status := status w;
     vpnStatusObserver := b; failures := failures w;
     notifications := notifications w; responses := responses w;
     trace := trace w;
     tasks := tasks w; taskDelays := taskDelays w |}.

Definition set_tasks (t : list DetachedTask) (d : list nat) (w : World) : World :=
  {| preferences := preferences w; status := status w;
     vpnStatusObserver := vpnStatusObserver w; failures := failures w;
     notifications := notifications w; responses := responses w;
     trace := trace w;
     tasks := t; taskDelays := d |}.

(** *** The monad of [async throws] functions

    A computation returns, throws, or is suspended on a continuation that
    is never resumed. *)
Inductive Outcome (A : Type) :=
| Returned (a : A)
| Thrown (e : Error)
| Suspended.

Arguments Returned {A} a.
Arguments Thrown {A} e.
Arguments Suspended {A}.

Definition M (A : Type) : Type := World -> Outcome A * World.

Definition ret {A} (a : A) : M A := fun w => (Returned a, w).
Definition throw {A} (e : Error) : M A := fun w => (Thrown e, w).

Definition bind {A B} (m : M A) (k : A -> M B) : M B := fun w =>
  match m w with
  | (Returned a, w') => k a w'
  | (Thrown e, w') => (Thrown e, w')
  | (Suspended, w') => (Suspended, w')
  end.

(** [do { ... } catch { ... }] *)
Definition catch {A} (m : M A) (handler : Error -> M A) : M A := fun w =>
  match m w with
  | (Thrown e, w') => handler e w'
  | r => r
  end.

Notation "'let*' x ':=' m 'in' k" := (bind m (fun x => k))
  (at level 10, x name, m at level 100, k at level 200).

Definition gets {A} (f : World -> A) : M A := fun w => (Returned (f w), w).
Definition modify (f : World -> World) : M unit := fun w => (Returned tt, f w).
Definition event (ev : Event) : M unit := modify (emit ev).

(** A platform call that may throw: the next entry of [failures] decides. *)
Definition platformCall : M unit := fun w =>
  match failures w with
  | [] => (Returned tt, w)
  | None :: rest => (Returned tt, set_failures rest w)
  | Some description :: rest => (Thrown (systemError description), set_failures rest w)
  end.

(** The extension's answer to a provider message, awaited through a
    continuation: with no answer scripted the handler is never called. *)
Definition providerReply : M (option Data) := fun w =>
  match responses w with
  | [] => (Suspended, w)
  | SendThrows description :: rest =>
      (Thrown (systemError description), set_responses rest w)
  | Reply data :: rest => (Returned data, set_responses rest w)
  end.

(** *** Platform requests *)

(** [manager.connection.status] *)
Definition connection_status : M NEVPNStatus := gets status.

Definition loadAllFromPreferences : M (list NETunnelProviderManager) :=
  let* _ := event EvLoadAll in
  let* _ := platformCall in
  gets preferences.

(** [manager.loadFromPreferences()]: the object takes the persisted
    configuration. *)
Definition loadFromPreferences (manager : NETunnelProviderManager)
    : M NETunnelProviderManager :=
  let* _ := event EvLoad in
  let* _ := platformCall in
  gets (fun w => hd manager (preferences w)).

(** [manager.saveToPreferences()]: the object's configuration becomes the
    persisted one (the only entry, when there was none). *)
Definition saveToPreferences (manager : NETunnelProviderManager) : M unit :=
  let* _ := event (EvSave manager) in
  let* _ := platformCall in
  modify (fun w => set_preferences (manager :: tl (preferences w)) w).

Definition stopVPNTunnel : M unit :=
  let* st := connection_status in
  event (EvStopVPNTunnel st).

Definition startTunnel : M unit :=
  let* st := connection_status in
  let* _ := event (EvStartTunnel st) in
  platformCall.

(** [session.sendProviderMessage(data) { response in ... }] *)
Definition sendProviderMessage (message : string) : M (option Data) :=
  let* _ := event (EvSendProviderMessage message) in
  providerReply.

(** *** Helpers of the source file *)

Definition getTunnelManager : M (option NETunnelProviderManager) :=
  catch
    (let* managers := loadAllFromPreferences in
     match managers with
     | [] => ret None
     | first :: _ => ret (Some first)
     end)
    (fun _ => ret None).

Definition getTunnelId (manager : option NETunnelProviderManager) : option string :=
  match manager with
  | None => None
  | Some m =>
      match protocolConfiguration m with
      | None => None
      | Some protoConfig =>
          match providerConfiguration protoConfig with
          | None => None
          | Some d =>
              match d !! "id" with
              | Some (AnyString id) => Some id
              | _ => None
              end
          end
      end
  end.

Arguments getTunnelId : simpl never.

Definition isActiveSession (session : option NEVPNStatus) : bool :=
  bool_decide (session = Some connected)
  || bool_decide (session = Some connecting)
  || bool_decide (session = Some reasserting).

Arguments isActiveSession : simpl never.

(** The object is mutated in place, so the updated configuration is handed
    back; every error is caught and logged. *)
Definition setConnectVpnOnDemand (manager : option NETunnelProviderManager)
    (enabled : bool) : M (option NETunnelProviderManager) :=
  match manager with
  | None => ret None
  | Some m =>
      catch
        (let* loaded := loadFromPreferences m in
         let updated := set_isOnDemandEnabled enabled loaded in
         let* _ := saveToPreferences updated in
         ret (Some updated))
        (fun _ => ret manager)
  end.

(** [Task { await setConnectVpnOnDemand(manager, true) }]: the task is
    created and runs detached from its creator.  The platform decides
    when: the next entry of [taskDelays] is the number of later
    notifications it lets pass first. *)
Definition createTask (manager : NETunnelProviderManager) : M unit :=
  modify (fun w =>
    set_tasks
      (tasks w ++ [ {| task_manager := manager; task_delay := hd 0%nat (taskDelays w) |} ])
      (tl (taskDelays w)) w).

(** [vpnStatusChanged], the observer registered by [init] for every
    NEVPNStatusDidChange notification.  The session's manager is the first
    persisted one. *)
Definition vpnStatusChanged : M unit :=
  let* managers := gets preferences in
  match managers with
  | [] => ret tt
  | manager :: _ =>
      match getTunnelId (Some manager) with
      | None => ret tt
      | Some tunnelId =>
          let* st := connection_status in
          let* _ :=
            (if isActiveSession (Some st) then createTask manager else ret tt) in
          let* observer := gets vpnStatusObserver in
          if observer then event (EvObserver st tunnelId) else ret tt
      end
  end.

(** The detached tasks that are due run, in the order of their creation;
    the others have one notification less to wait. *)
Fixpoint runTasks (pending : list DetachedTask) : M (list DetachedTask) :=
  match pending with
  | [] => ret []
  | task :: rest =>
      match task_delay task with
      | O =>
          let* _ := setConnectVpnOnDemand (Some (task_manager task)) true in
          runTasks rest
      | S delay =>
          let* waiting := runTasks rest in
          ret ({| task_manager := task_manager task; task_delay := delay |} :: waiting)
      end
  end.

Definition detachedTasks : M unit :=
  let* pending := gets tasks in
  let* waiting := runTasks pending in
  modify (fun w => set_tasks waiting (taskDelays w) w).

(** The platform posts one NEVPNStatusDidChange: the session takes the
    status, the observers run, and then the detached tasks that are
    due. *)
(** The tasks that are not due at a notification, as they wait on. *)
Definition stillWaiting (pending : list DetachedTask) : list DetachedTask :=
  flat_map
    (fun task =>
       match task_delay task with
       | O => []
       | S delay => [ {| task_manager := task_manager task; task_delay := delay |} ]
       end)
    pending.

Definition notified : M unit :=
  let* _ := vpnStatusChanged in
  detachedTasks.

Definition statusDidChange (s : NEVPNStatus) (rest : list NEVPNStatus)
    (w : World) : World :=
  snd (notified (post s rest w)).

(** A one-shot observer awaited through [withCheckedContinuation]:
    notifications are taken as the platform posts them until one finds the
    session in a status that satisfies [done]; the continuation is never
    resumed when none does. *)
Fixpoint deliver (done : NEVPNStatus -> bool) (pending : list NEVPNStatus)
    (w : World) : Outcome unit * World :=
  match pending with
  | [] => (Suspended, w)
  | s :: rest =>
      let w' := statusDidChange s rest w in
      if done s then (Returned tt, emit (EvResume s) w')
      else deliver done rest w'
  end.

Definition awaitStatus (done : NEVPNStatus -> bool) : M unit :=
  fun w => deliver done (notifications w) w.

Definition stopSession (manager : NETunnelProviderManager) : M unit :=
  catch
    (let* manager := loadFromPreferences manager in
     let* _ := setConnectVpnOnDemand (Some manager) false in
     let* _ := stopVPNTunnel in
     let* _ := event EvAddObserver in
     awaitStatus (fun s => bool_decide (s = disconnected)))
    (fun _ => ret tt).

Definition setupVpn (id name transportConfig : string) : M NETunnelProviderManager :=
  let* managers := loadAllFromPreferences in
  let manager := hd new_manager managers in
  let config :=
    {| serverAddress := "Outline";
       providerConfiguration :=
         Some (<["id" := AnyString id]> {["transport" := AnyString transportConfig]}) |} in
  let manager :=
    {| localizedDescription := Some name;
       onDemandRules := None;
       isOnDemandEnabled := isOnDemandEnabled manager;
       isEnabled := true;
       protocolConfiguration := Some config |} in
  let* _ := saveToPreferences manager in
  loadFromPreferences manager.

Definition ExtensionIPC_fetchLastDetailedJsonError : string :=
  "fetchLastDisconnectDetailedJsonError".

(** The UTF-8 encoding of the constant message name cannot fail, so the
    [guard] on it is left out. *)
Definition fetchExtensionLastDisconnectError : M (option Error) :=
  catch
    (let* data := sendProviderMessage ExtensionIPC_fetchLastDetailedJsonError in
     match data with
     | None => ret None
     | Some response =>
         match decode_LastErrorIPCData response with
         | Some lastError =>
             ret (Some (detailedJsonError (errorCode lastError) (errorJson lastError)))
         | None => throw (systemError "DecodingError")
         end
     end)
    (fun error =>
       ret (Some (internalError
                    ("IPC fetchLastDisconnectError failed: "
                       +:+ error_localizedDescription error)))).

(** *** Interface *)

(** [start], its opening [if let]: an active session is stopped first. *)
Definition start_stop_active : M unit :=
  let* found := getTunnelManager in
  match found with
  | Some manager =>
      let* st := connection_status in
      if isActiveSession (Some st) then stopSession manager else ret tt
  | None => ret tt
  end.

Definition start_done (s : NEVPNStatus) : bool :=
  bool_decide (s = connected) || bool_decide (s = disconnected)
  || bool_decide (s = invalid).

(** [start], from [setupVpn] up to and including [await startDone.value]:
    the observer is registered (the source leaves this to a [Task] created
    before the start request), the tunnel is asked to start, and the first
    connected, disconnected or invalid status ends the wait. *)
Definition start_tunnel (tunnelId : string) (name : option string)
    (transportConfig : string) : M NETunnelProviderManager :=
  let* manager :=
    catch (setupVpn tunnelId (default "Outline Server" name) transportConfig)
          (fun error => throw (vpnPermissionNotGranted (error_localizedDescription error))) in
  let* _ := event EvAddObserver in
  let* _ :=
    catch startTunnel
          (fun error => throw (setupSystemVPNFailed (error_localizedDescription error))) in
  let* _ := awaitStatus start_done in
  ret manager.

(** [start], from [switch manager.connection.status] on. *)
Definition start_outcome (manager : NETunnelProviderManager) : M unit :=
  let* st := connection_status in
  let* _ :=
    match st with
    | connected => ret tt
    | disconnected | invalid =>
        let* err := fetchExtensionLastDisconnectError in
        match err with
        | None => throw (internalError "unexpected nil disconnect error")
        | Some err => throw err
        end
    | _ => throw (internalError "unexpected connection status")
    end in
  let* manager := catch (loadFromPreferences manager) (fun _ => ret manager) in
  let manager := set_onDemandRules (Some [NEOnDemandRuleConnect_any]) manager in
  catch (saveToPreferences manager) (fun _ => ret tt).

Definition start (tunnelId : string) (name : option string)
    (transportConfig : string) : M unit :=
  let* _ := start_stop_active in
  let* manager := start_tunnel tunnelId name transportConfig in
  start_outcome manager.

Definition stop (tunnelId : string) : M unit :=
  let* found := getTunnelManager in
  match found with
  | Some manager =>
      if bool_decide (getTunnelId (Some manager) = Some tunnelId) then
        let* st := connection_status in
        if isActiveSession (Some st) then stopSession manager else ret tt
      else ret tt
  | None => ret tt
  end.

Definition onVpnStatusChange : M unit := modify (set_vpnStatusObserver true).

Definition isActive (tunnelId : option string) : M bool :=
  match tunnelId with
  | None => ret false
  | Some _ =>
      let* found := getTunnelManager in
      match found with
      | None => ret false
      | Some manager =>
          let* st := connection_status in
          ret (bool_decide (getTunnelId (Some manager) = tunnelId)
               && isActiveSession (Some st))
      end
  end.

Definition stopActiveVpn : M unit :=
  let* found := getTunnelManager in
  match found with
  | Some manager => stopSession manager
  | None => ret tt
  end.

(** *** Reading a trace *)

(** The requests that start or stop the tunnel and the resumptions of the
    awaited one-shot observers, in the order they occur. *)
Definition is_tunnel_event (ev : Event) : bool :=
  match ev with
  | EvStopVPNTunnel _ | EvStartTunnel _ | EvResume _ => true
  | _ => false
  end.

Definition tunnel_events (l : list Event) : list Event :=
  List.filter is_tunnel_event l.

(** The on-demand flag of the persisted configuration. *)
Definition onDemand (w : World) : option bool :=
  isOnDemandEnabled <$> head (preferences w).

(** A computation is quiet when it leaves the session status alone and
    adds no tunnel event to the trace. *)
Definition Quiet {A} (m : M A) : Prop :=
  forall w o w', m w = (o, w') ->
    status w' = status w
    /\ exists d, trace w' = trace w ++ d /\ tunnel_events d = [].

(** A computation keeps a property of the persisted configurations when
    the property, true before, is true after, whatever the outcome. *)
Definition Keeps (P : list NETunnelProviderManager -> Prop) {A} (m : M A) : Prop :=
  forall w o w', m w = (o, w') -> P (preferences w) -> P (preferences w').

(** Properties of the first persisted configuration that do not depend on
    its on-demand flag. *)
Definition Stable (P : list NETunnelProviderManager -> Prop) : Prop :=
  ~ P [] /\ forall m rest b, P (m :: rest) -> P (set_isOnDemandEnabled b m :: rest).

(** Every error a computation throws satisfies [Q]. *)
Definition ThrowsOnly (Q : Error -> Prop) {A} (m : M A) : Prop :=
  forall w e w', m w = (Thrown e, w') -> Q e.

(** *** The comprehensive test through the extension *)

(** The decoded reply of the extension to a comprehensive test. *)
Record ComprehensiveTestResult := {
  tcpSuccess : bool;
  udpSuccess : bool;
  connectivitySuccess : bool;
  downloadSpeedKBps : Z;
  uploadSpeedKBps : Z;
  latencyMs : Z;
  downloadTestSuccess : bool;
  uploadTestSuccess : bool;
  tcpError : option string;
  udpError : option string;
  downloadTestError : option string;
  uploadTestError : option string
}.

Definition plist_bool (d : gmap string PValue) (key : string) : option bool :=
  match d !! key with
  | Some (PBoolean b) => Some b
  | _ => None
  end.

Definition plist_int (d : gmap string PValue) (key : string) : option Z :=
  match d !! key with
  | Some (PInteger z) => Some z
  | _ => None
  end.

(** A [String?] field: absent decodes to nil, a string to itself, any
    other value is a type mismatch. *)
Definition plist_optional_string (d : gmap string PValue) (key : string)
    : option (option string) :=
  match d !! key with
  | None => Some None
  | Some (PString s) => Some (Some s)
  | Some _ => None
  end.

(** [PropertyListDecoder().decode(ComprehensiveTestResult.self, from:)] *)
Definition decode_ComprehensiveTestResult (response : Data)
    : option ComprehensiveTestResult :=
  match response with
  | garbage => None
  | plist d =>
      tcp ← plist_bool d "tcpSuccess";
      udp ← plist_bool d "udpSuccess";
      conn ← plist_bool d "connectivitySuccess";
      down ← plist_int d "downloadSpeedKBps";
      up ← plist_int d "uploadSpeedKBps";
      lat ← plist_int d "latencyMs";
      downOk ← plist_bool d "downloadTestSuccess";
      upOk ← plist_bool d "uploadTestSuccess";
      tcpErr ← plist_optional_string d "tcpError";
      udpErr ← plist_optional_string d "udpError";
      downErr ← plist_optional_string d "downloadTestError";
      upErr ← plist_optional_string d "uploadTestError";
      Some {| tcpSuccess := tcp; udpSuccess := udp; connectivitySuccess := conn;
              downloadSpeedKBps := down; uploadSpeedKBps := up; latencyMs := lat;
              downloadTestSuccess := downOk; uploadTestSuccess := upOk;
              tcpError := tcpErr; udpError := udpErr;
              downloadTestError := downErr; uploadTestError := upErr |}
  end.

(** Values of the returned [String: Any] dictionary: a Bool, an Int, or
    an optional String boxed as Any. *)
Inductive DictValue :=
| DBool (b : bool)
| DInt (z : Z)
| DOptionalString (s : option string).

Definition resultDict (testResult : ComprehensiveTestResult) : gmap string DictValue :=
  list_to_map
    [ ("tcpSuccess", DBool (tcpSuccess testResult));
      ("udpSuccess", DBool (udpSuccess testResult));
      ("connectivitySuccess", DBool (connectivitySuccess testResult));
      ("downloadSpeedKBps", DInt (downloadSpeedKBps testResult));
      ("uploadSpeedKBps", DInt (uploadSpeedKBps testResult));
      ("latencyMs", DInt (latencyMs testResult));
      ("downloadTestSuccess", DBool (downloadTestSuccess testResult));
      ("uploadTestSuccess", DBool (uploadTestSuccess testResult));
      ("tcpError", DOptionalString (tcpError testResult));
      ("udpError", DOptionalString (udpError testResult));
      ("downloadTestError", DOptionalString (downloadTestError testResult));
      ("uploadTestError", DOptionalString (uploadTestError testResult)) ].

(** [performComprehensiveTestViaExtension]; the UTF-8 encoding of the
    message cannot fail, so the [guard] on it is left out. *)
Definition performComprehensiveTestViaExtension (manager : NETunnelProviderManager)
    (transportConfig : string) : M (gmap string DictValue) :=
  let* responseData := sendProviderMessage ("comprehensiveTest:" +:+ transportConfig) in
  match responseData with
  | None => throw (internalError "Extension test returned no data")
  | Some data =>
      match decode_ComprehensiveTestResult data with
      | Some testResult => ret (resultDict testResult)
      | None => throw (systemError "DecodingError")
      end
  end.

(** Saving a manager object that is not yet persisted adds an entry;
    reloading and removing that object act on the entry added. *)
Definition addToPreferences (manager : NETunnelProviderManager) : M unit :=
  let* _ := event (EvSave manager) in
  let* _ := platformCall in
  modify (fun w => set_preferences (preferences w ++ [manager]) w).

Definition reloadAdded (manager : NETunnelProviderManager) : M NETunnelProviderManager :=
  let* _ := event EvLoad in
  let* _ := platformCall in
  gets (fun w => List.last (preferences w) manager).

Definition removeAddedFromPreferences : M unit :=
  let* _ := platformCall in
  modify (fun w => set_preferences (removelast (preferences w)) w).

(** The configuration [setupTestVpn] builds; [uuid] is the string
    [UUID().uuidString] draws. *)
Definition test_manager (uuid transportConfig : string) : NETunnelProviderManager :=
  {| localizedDescription := Some "Outline Test Configuration";
     onDemandRules := None;
     isOnDemandEnabled := false;
     isEnabled := true;
     protocolConfiguration :=
       Some {| serverAddress := "Outline-Test";
               providerConfiguration :=
                 Some (<["id" := AnyString ("test-" +:+ uuid)]>
                         {["transport" := AnyString transportConfig]}) |} |}.

Definition setupTestVpn (uuid transportConfig : string) : M NETunnelProviderManager :=
  let manager := test_manager uuid transportConfig in
  let* _ := addToPreferences manager in
  reloadAdded manager.

(** [performComprehensiveTest(withTransport:)]; the manager is always set
    when the [guard let vpnManager] is reached, so its failure branch is
    left out.  [try?] discards the error of the removal. *)
Definition performComprehensiveTest (uuid transportConfig : string)
    : M (gmap string DictValue) :=
  let* existingManager := getTunnelManager in
  let* chosen :=
    match existingManager with
    | Some manager => ret (manager, false)
    | None =>
        catch (let* manager := setupTestVpn uuid transportConfig in ret (manager, true))
              (fun error =>
                 throw (vpnPermissionNotGranted (error_localizedDescription error)))
    end in
  let '(vpnManager, shouldCleanup) := chosen in
  let cleanup : M unit :=
    if shouldCleanup then catch removeAddedFromPreferences (fun _ => ret tt)
    else ret tt in
  catch
    (let* testResults := performComprehensiveTestViaExtension vpnManager transportConfig in
     let* _ := cleanup in
     ret testResults)
    (fun error => let* _ := cleanup in throw error).

End OutlineVpn.

(** ** TypeScript: [VPNManagementAPI] requests and the connectivity test *)

Module VPNManagementAPI.
Import ApiServerRepository.

(** JavaScript truthiness of a string and of an optional string. *)
Definition truthy (s : string) : bool := negb (bool_decide (s = "")).

Definition truthy_opt (o : option string) : bool :=
  match o with
  | Some s => truthy s
  | None => false
  end.

Record ApiResponse := { status : Z; message : string }.

(** The fields set by [setApiConfig]. *)
Record ApiConfig := { baseUrl : string; apiPassword : string }.

(** A log entry as [storeLogs] and the logs handler see it; [type] is the
    string value of the log type, [None] when the value is undefined, as
    it is for a log type that is read from a member the [LogType] enum
    does not have. *)
Record ServerLog := {
  server_id : string;
  type : option string;
  isp : string;
  success : bool;
  timestamp : Z
}.

(** A value appended to the posted form: a string, or the JSON text of a
    list of logs, kept as the list it encodes. *)
Inductive FormValue :=
| FormText (s : string)
| FormJson (logs : list ServerLog).

Definition FormData := list (string * FormValue).

(** What [fetch] and then [response.json()] do: the fetch rejects; or it
    resolves with a response that is ok or not, whose body parses to a
    response object or makes [json()] reject. *)
Inductive FetchOutcome :=
| FetchRejects (message : string)
| FetchResolves (ok : bool) (status : Z) (json : string + ApiResponse).

(** [postRequest]: the response, and the forms posted (none or one). *)
Definition postRequest (api : ApiConfig) (action : string)
    (payload : list (string * FormValue)) (net : FetchOutcome)
    : ApiResponse * list FormData :=
  if negb (truthy (apiPassword api)) || negb (truthy (baseUrl api)) then
    ({| status := 400; message := "API URL and/or password is missing." |}, [])
  else
    let data : FormData :=
      [("password", FormText (apiPassword api)); ("action", FormText action)]
        ++ payload in
    let response :=
      match net with
      | FetchRejects message => {| status := 500; message := message |}
      | FetchResolves false status _ =>
          {| status := 500; message := "HTTP error! status: " +:+ pretty status |}
      | FetchResolves true _ (inl message) => {| status := 500; message := message |}
      | FetchResolves true _ (inr body) => body
      end in
    (response, [data]).

Definition fetchServers (api : ApiConfig) (net : FetchOutcome)
    : ApiResponse * list FormData :=
  postRequest api "fetch_servers" [] net.

(** [storeLogs]: [inl] is the message of the error thrown by the
    validation.  The array test and the boolean test hold by typing. *)
Definition storeLogs (api : ApiConfig) (logs : list ServerLog) (net : FetchOutcome)
    : string + ApiResponse * list FormData :=
  if forallb (fun log => truthy_opt (type log) && truthy (isp log)) logs then
    inr (postRequest api "store_logs"
           [("action", FormText "store_logs"); ("logs_array", FormJson logs)] net)
  else inl "Each log entry must contain 'type', 'isp', and 'success' properties.".

(** *** [testConnectivity] *)

Record ServerTestResult := {
  serverId : string;
  responseTime : Z;
  bandwidth : Z;
  test_success : bool;
  error : option string
}.

(** The fetch of the connectivity URL: it rejects (also when aborted by
    the timeout), or resolves with a response. *)
Inductive PingOutcome :=
| PingRejects (message : string)
| PingResolves (ok : bool) (status : Z).

(** [testConnectivity]; [elapsedPing] and [elapsedCatch] are the values of
    [performance.now() - startTime] read after the connectivity response
    and in the [catch] block. *)
Definition testConnectivity (ping : PingOutcome) (elapsedPing elapsedCatch : number)
    (fetch : string -> Probe) : ServerTestResult :=
  let failed (message : string) :=
    {| serverId := ""; responseTime := Math_round elapsedCatch; bandwidth := 0;
       test_success := false; error := Some message |} in
  match ping with
  | PingRejects message => failed message
  | PingResolves false status =>
      failed ("Connectivity test failed: " +:+ pretty status)
  | PingResolves true _ =>
      match performBandwidthTest fetch with
      | Some bandwidth =>
          {| serverId := ""; responseTime := Math_round elapsedPing;
             bandwidth := bandwidth; test_success := true; error := None |}
      | None => failed "All bandwidth tests failed"
      end
  end.

End VPNManagementAPI.

(** ** TypeScript: [ServerLogsHandler] *)

Module ServerLogsHandler.
Import VPNManagementAPI.

Inductive LogType := CONNECTED | DISCONNECTED | PING_TEST | BANDWIDTH_TEST.

Definition LogType_value (t : LogType) : string :=
  match t with
  | CONNECTED => "connected"
  | DISCONNECTED => "disconnected"
  | PING_TEST => "ping_test"
  | BANDWIDTH_TEST => "bandwidth_test"
  end.

(** The fields of [ISPInfo] the handler reads. *)
Record ISPInfo := {
  info_isp : option string;
  info_org : option string;
  info_error : option string
}.

(** The handler's fields; [scheduled] counts the [setTimeout] callbacks
    for [sendLogsBatch] that have not run yet. *)
Record Handler := {
  logs : list ServerLog;
  ispInfo : option string;
  isRunning : bool;
  isSendingLogs : bool;
  periodicTimer : bool;
  scheduled : nat
}.

(** The constructor. *)
Definition new_handler : Handler :=
  {| logs := []; ispInfo := None; isRunning := true; isSendingLogs := false;
     periodicTimer := true; scheduled := 0 |}.

Definition setISPInfo (info : ISPInfo) (h : Handler) : Handler :=
  let name :=
    if truthy_opt (info_error info) then "unknown"
    else if truthy_opt (info_isp info) then default "unknown" (info_isp info)
    else if truthy_opt (info_org info) then default "unknown" (info_org info)
    else "unknown" in
  {| logs := logs h; ispInfo := Some name; isRunning := isRunning h;
     isSendingLogs := isSendingLogs h; periodicTimer := periodicTimer h;
     scheduled := scheduled h |}.

Definition triggerLogSending (h : Handler) : Handler :=
  if isSendingLogs h then h
  else
    {| logs := logs h; ispInfo := ispInfo h; isRunning := isRunning h;
       isSendingLogs := isSendingLogs h; periodicTimer := periodicTimer h;
       scheduled := S (scheduled h) |}.

(** [addLog]; [logType] is [None] when the caller passes undefined, and
    [now] is the reading of [Date.now()]. *)
Definition addLog (serverId : string) (logType : option LogType) (success : bool) (now : Z)
    (h : Handler) : Handler :=
  match ispInfo h with
  | None => h
  | Some name =>
      let log := {| server_id := serverId; type := LogType_value <$> logType;
                    isp := name; success := success; timestamp := now |} in
      let h' :=
        {| logs := logs h ++ [log]; ispInfo := ispInfo h; isRunning := isRunning h;
           isSendingLogs := isSendingLogs h; periodicTimer := periodicTimer h;
           scheduled := scheduled h |} in
      if (5 <=? length (logs h'))%nat then triggerLogSending h' else h'
  end.

(** The callback of the five-minute interval. *)
Definition periodicTick (h : Handler) : Handler :=
  if isRunning h then triggerLogSending h else h.

(** [sendLogsBatch] up to its [await]: the batch taken, if any. *)
Definition sendLogsBatch_begin (h : Handler) : option (list ServerLog) * Handler :=
  if isSendingLogs h || bool_decide (logs h = []) then (None, h)
  else
    (Some (logs h),
     {| logs := []; ispInfo := ispInfo h; isRunning := isRunning h;
        isSendingLogs := true; periodicTimer := periodicTimer h;
        scheduled := scheduled h |}).

(** [sendLogsBatch] after its [await]: [outcome] is what [storeLogs] did,
    [inl] for a rejection. *)
Definition sendLogsBatch_end (logsToSend : list ServerLog)
    (outcome : string + ApiResponse) (h : Handler) : Handler :=
  let delivered :=
    match outcome with
    | inr response => bool_decide (status response = 200)
    | inl _ => false
    end in
  {| logs := if delivered then logs h else logsToSend ++ logs h;
     ispInfo := ispInfo h; isRunning := isRunning h;
     isSendingLogs := false; periodicTimer := periodicTimer h;
     scheduled := scheduled h |}.

(** What the handler's [await this.api.storeLogs(logsToSend)] gets from
    the API. *)
Definition storeLogs_outcome (api : ApiConfig) (logsToSend : list ServerLog)
    (net : FetchOutcome) : string + ApiResponse :=
  match storeLogs api logsToSend net with
  | inl message => inl message
  | inr (response, _) => inr response
  end.

(** [stop], up to the [await] of its [sendLogsBatch]. *)
Definition stop_begin (h : Handler) : option (list ServerLog) * Handler :=
  if isRunning h then
    sendLogsBatch_begin
      {| logs := logs h; ispInfo := ispInfo h; isRunning := false;
         isSendingLogs := isSendingLogs h; periodicTimer := false;
         scheduled := scheduled h |}
  else (None, h).

(** *** The event loop around the handler

    One step of the application as the handler sees it.  A batch taken by
    [sendLogsBatch] is in flight until the answer of [storeLogs] arrives;
    the other callbacks run in between. *)
Inductive Step :=
| StepSetISPInfo (info : ISPInfo)
| StepAddLog (serverId : string) (logType : option LogType) (success : bool) (now : Z)
| StepPeriodicTick
| StepTimeout
| StepStop
| StepAnswer (net : FetchOutcome).

(** The handler with the batch in flight, and two records kept for the
    statements only: the logs pushed so far and the logs of the batches
    answered with status 200. *)
Record Loop := {
  handler : Handler;
  inflight : option (list ServerLog);
  accepted : list ServerLog;
  delivered : list ServerLog
}.

Definition start_loop : Loop :=
  {| handler := new_handler; inflight := None; accepted := []; delivered := [] |}.

Definition with_handler (h : Handler) (l : Loop) : Loop :=
  {| handler := h; inflight := inflight l; accepted := accepted l;
     delivered := delivered l |}.

Definition take_batch (r : option (list ServerLog) * Handler) (l : Loop) : Loop :=
  match r with
  | (Some batch, h) =>
      {| handler := h; inflight := Some batch; accepted := accepted l;
         delivered := delivered l |}
  | (None, h) => with_handler h l
  end.

Definition step (api : ApiConfig) (s : Step) (l : Loop) : Loop :=
  match s with
  | StepSetISPInfo info => with_handler (setISPInfo info (handler l)) l
  | StepAddLog serverId logType success now =>
      let h := addLog serverId logType success now (handler l) in
      {| handler := h; inflight := inflight l;
         accepted :=
           match ispInfo (handler l) with
           | Some name =>
               accepted l ++ [ {| server_id := serverId; type := LogType_value <$> logType;
                                  isp := name; success := success; timestamp := now |} ]
           | None => accepted l
           end;
         delivered := delivered l |}
  | StepPeriodicTick =>
      if periodicTimer (handler l) then with_handler (periodicTick (handler l)) l else l
  | StepTimeout =>
      match scheduled (handler l) with
      | O => l
      | S n =>
          let h := handler l in
          take_batch
            (sendLogsBatch_begin
               {| logs := logs h; ispInfo := ispInfo h; isRunning := isRunning h;
                  isSendingLogs := isSendingLogs h; periodicTimer := periodicTimer h;
                  scheduled := n |})
            l
      end
  | StepStop => take_batch (stop_begin (handler l)) l
  | StepAnswer net =>
      match inflight l with
      | None => l
      | Some batch =>
          let outcome := storeLogs_outcome api batch net in
          {| handler := sendLogsBatch_end batch outcome (handler l);
             inflight := None;
             accepted := accepted l;
             delivered :=
               match outcome with
               | inr response =>
                   if bool_decide (status response = 200) then delivered l ++ batch
                   else delivered l
               | inl _ => delivered l
               end |}
      end
  end.

Definition run (api : ApiConfig) (steps : list Step) : Loop :=
  fold_left (fun l s => step api s l) steps start_loop.

(** What every step keeps: the logs pushed so far are the logs delivered,
    then the batch in flight, then the queue; a batch is in flight exactly
    while [isSendingLogs] is set; every log pushed has a provider name
    and a type that is undefined or not empty; every log delivered has a
    type; and the handler has a provider name once [setISPInfo] has
    run. *)
Definition Consistent (l : Loop) : Prop :=
  accepted l = delivered l ++ default [] (inflight l) ++ logs (handler l)
  /\ isSendingLogs (handler l) = bool_decide (inflight l <> None)
  /\ Forall (fun log => truthy (isp log) = true
                        /\ (type log = None \/ truthy_opt (type log) = true))
       (accepted l)
  /\ Forall (fun log => type log <> None) (delivered l)
  /\ (forall name, ispInfo (handler l) = Some name -> truthy name = true).

End ServerLogsHandler.

(** ** TypeScript: the later [VPNManagementAPI.testConnectivity] *)

(** The version of the class whose results carry a latency and separate
    download and upload speeds; the server test service works with these
    results. *)
Module VPNManagementAPI_v2.
Import ApiServerRepository VPNManagementAPI.

Local Open Scope Q_scope.

Record ServerTestResult := {
  serverId : string;
  downloadSpeedKBps : number;
  uploadSpeedKBps : number;
  latencyMs : number;
  success : bool;
  error : option string;
  pingSuccess : option bool;
  downloadTestSuccess : option bool;
  uploadTestSuccess : option bool
}.

Definition set_serverId (serverId : string) (r : ServerTestResult) : ServerTestResult :=
  {| serverId := serverId; downloadSpeedKBps := downloadSpeedKBps r;
     uploadSpeedKBps := uploadSpeedKBps r; latencyMs := latencyMs r;
     success := success r; error := error r; pingSuccess := pingSuccess r;
     downloadTestSuccess := downloadTestSuccess r;
     uploadTestSuccess := uploadTestSuccess r |}.

(** [testConnectivity]; [elapsed] is the one reading of
    [performance.now() - startTime], taken after the connectivity
    response or in the [catch] block of the ping. *)
Definition testConnectivity (ping : PingOutcome) (elapsed : number)
    (fetch : string -> Probe) : ServerTestResult :=
  let latencyMs := Math_round elapsed in
  let '(pingSuccess, error) :=
    match ping with
    | PingResolves true _ => (true, None)
    | PingResolves false status =>
        (false, Some ("Connectivity test failed: " +:+ pretty status))
    | PingRejects message => (false, Some message)
    end in
  let '(bandwidthSuccess, bandwidth, error) :=
    if pingSuccess : bool then
      match performBandwidthTest fetch with
      | Some bandwidth => (true, bandwidth, error)
      | None =>
          (false, 0%Z,
           if truthy_opt error then error else Some "All bandwidth tests failed")
      end
    else (false, 0%Z, error) in
  {| serverId := "";
     downloadSpeedKBps := inject_Z bandwidth;
     uploadSpeedKBps := inject_Z (Math_round (inject_Z bandwidth * (8 # 10)));
     latencyMs := inject_Z latencyMs;
     success := pingSuccess && bandwidthSuccess;
     error := error;
     pingSuccess := Some pingSuccess;
     downloadTestSuccess := Some bandwidthSuccess;
     uploadTestSuccess := Some bandwidthSuccess |}.

End VPNManagementAPI_v2.

(** ** TypeScript: [ServerTestService] *)

Module ServerTestService.
Import ApiServerRepository VPNManagementAPI VPNManagementAPI_v2.

Local Open Scope Q_scope.

Inductive TestMode := DIRECT | VPN | AUTO.

(** A [Server] with what its three methods do when called: [checkRunning]
    rejects with a message or resolves, [connect] and [disconnect] reject
    with a message ([Some]) or resolve ([None]). *)
Record Server := {
  id : string;
  address : string;
  rowId : option string;
  checkRunning : string + bool;
  connect : option string;
  disconnect : option string
}.

Record NativeTestResult := {
  tcpSuccess : bool;
  udpSuccess : bool;
  connectivitySuccess : bool;
  native_downloadSpeedKBps : number;
  native_uploadSpeedKBps : number;
  native_latencyMs : number;
  native_downloadTestSuccess : bool;
  native_uploadTestSuccess : bool;
  tcpError : option string;
  udpError : option string;
  downloadTestError : option string;
  uploadTestError : option string
}.

(** What [pluginExec] resolves with: an object, or a string that
    [JSON.parse] turns into an object or rejects (the text being the
    string form of the parse error). *)
Inductive NativeReply :=
| NativeObject (result : NativeTestResult)
| NativeString (parsed : string + NativeTestResult).

(** The three members of [LogType] that [logTestResults] names. *)
Inductive TestLogType := LOG_PING_TEST | LOG_DOWNLOAD_TEST | LOG_UPLOAD_TEST.

(** What the three expressions evaluate to: [LogType.PING_TEST] is a
    member of the enum of the logs handler; [LogType.DOWNLOAD_TEST] and
    [LogType.UPLOAD_TEST] are not, so that reading them gives undefined. *)
Definition LogType_of (logType : TestLogType) : option ServerLogsHandler.LogType :=
  match logType with
  | LOG_PING_TEST => Some ServerLogsHandler.PING_TEST
  | LOG_DOWNLOAD_TEST | LOG_UPLOAD_TEST => None
  end.

(** The calls [logTestResults] makes on the logs handler, as steps of the
    handler's event loop; [now] is the reading of [Date.now()] in each. *)
Definition addLog_step (now : Z) (serverRowId : string) (logType : TestLogType)
    (success : bool) : ServerLogsHandler.Step :=
  ServerLogsHandler.StepAddLog serverRowId (LogType_of logType) success now.

(** The calls the service makes on its collaborators, in order. *)
Inductive Event :=
| onTestStart (serverId : string)
| onTestComplete (serverId : string) (result : ServerTestResult)
| onTestError (serverId : string) (message : string)
| onServerConnectionChange (serverId : string) (connected : bool)
| server_checkRunning (serverId : string)
| server_connect (serverId : string)
| server_disconnect (serverId : string)
| vpnApi_testConnectivity
| pluginExec_testServerConnectivity (accessKey : string)
| serverLogsHandler_addLog (serverRowId : string) (logType : TestLogType) (success : bool).

(** The surroundings of the service.  [getServerAccessKey] works on the
    server object with regular expressions; its result is taken as given
    ([None]: it throws).  The callbacks are taken not to throw. *)
Record Env := {
  getById : string -> option Server;
  isNativeTestingAvailable : bool;
  getServerAccessKey : Server -> option string;
  pluginExec : string -> string + NativeReply;
  vpnApi_result : Server -> ServerTestResult
}.

Record Service := {
  serverTestResults : gmap string ServerTestResult;
  serversCurrentlyTesting : gset string
}.

(** [x || 0] on a number. *)
Definition or_zero (x : number) : number := if Qeq_bool x 0 then 0 else x.

Definition performNativeConnectivityTest (env : Env) (serverId : string) (server : Server)
    : (string + ServerTestResult) * list Event :=
  let failed (message : string) : string + ServerTestResult :=
    inl ("Native connectivity test failed: " +:+ message) in
  match getServerAccessKey env server with
  | None => (failed "Access key not available - falling back to web testing", [])
  | Some accessKey =>
      let calls := [pluginExec_testServerConnectivity accessKey] in
      match pluginExec env accessKey with
      | inl message => (failed message, calls)
      | inr (NativeString (inl parseError)) =>
          (failed ("Failed to parse iOS test result: " +:+ parseError), calls)
      | inr (NativeString (inr parsedResult)) | inr (NativeObject parsedResult) =>
          (inr {| serverId := serverId;
                  downloadSpeedKBps := or_zero (native_downloadSpeedKBps parsedResult);
                  uploadSpeedKBps := or_zero (native_uploadSpeedKBps parsedResult);
                  latencyMs := or_zero (native_latencyMs parsedResult);
                  success := tcpSuccess parsedResult;
                  error :=
                    if tcpSuccess parsedResult then None
                    else if truthy_opt (tcpError parsedResult) then tcpError parsedResult
                    else Some "Connection failed";
                  pingSuccess := Some (tcpSuccess parsedResult);
                  downloadTestSuccess := Some (native_downloadTestSuccess parsedResult);
                  uploadTestSuccess := Some (native_uploadTestSuccess parsedResult) |},
           calls)
      end
  end.

Definition testServerNative (env : Env) (serverId : string) (server : Server)
    : (string + ServerTestResult) * list Event :=
  if isNativeTestingAvailable env then performNativeConnectivityTest env serverId server
  else (inl "Native testing not available on this platform", []).

Definition testServerViaVPN (env : Env) (serverId : string) (server : Server)
    : (string + ServerTestResult) * list Event :=
  match checkRunning server with
  | inl message => (inl message, [server_checkRunning (id server)])
  | inr true =>
      (inr (set_serverId serverId (vpnApi_result env server)),
       [server_checkRunning (id server); vpnApi_testConnectivity])
  | inr false =>
      match connect server with
      | Some message =>
          (inl message, [server_checkRunning (id server); server_connect (id server)])
      | None =>
          (inr (set_serverId serverId (vpnApi_result env server)),
           [server_checkRunning (id server); server_connect (id server);
            onServerConnectionChange serverId true; vpnApi_testConnectivity;
            server_disconnect (id server)]
             ++ match disconnect server with
                | Some _ => []
                | None => [onServerConnectionChange serverId false]
                end)
      end
  end.

Definition logTestResults (serverRowId : string) (result : ServerTestResult) : list Event :=
  let entry (logType : TestLogType) (flag : option bool) :=
    match flag with
    | Some success => [serverLogsHandler_addLog serverRowId logType success]
    | None => []
    end in
  entry LOG_PING_TEST (pingSuccess result)
    ++ entry LOG_DOWNLOAD_TEST (downloadTestSuccess result)
    ++ entry LOG_UPLOAD_TEST (uploadTestSuccess result).

Definition with_testing (testing : gset string) (s : Service) : Service :=
  {| serverTestResults := serverTestResults s; serversCurrentlyTesting := testing |}.

Definition testServerSpeed (env : Env) (serverId : string) (mode : TestMode) (s : Service)
    : Service * list Event :=
  if bool_decide (serverId ∈ serversCurrentlyTesting s) then (s, [])
  else
    match getById env serverId with
    | None =>
        (with_testing (serversCurrentlyTesting s ∖ {[serverId]}) s,
         [onTestError serverId ("Could not find server with ID " +:+ serverId)])
    | Some server =>
        let native :=
          match mode with
          | DIRECT => true
          | AUTO => isNativeTestingAvailable env
          | VPN => false
          end in
        let '(outcome, calls) :=
          if native then testServerNative env serverId server
          else testServerViaVPN env serverId server in
        let testing := serversCurrentlyTesting s ∪ {[serverId]} in
        match outcome with
        | inr result =>
            ({| serverTestResults := <[serverId := result]> (serverTestResults s);
                serversCurrentlyTesting := testing ∖ {[serverId]} |},
             [onTestStart serverId] ++ calls
               ++ (if truthy_opt (rowId server)
                   then logTestResults (default "" (rowId server)) result else [])
               ++ [onTestComplete serverId result])
        | inl message =>
            (with_testing (testing ∖ {[serverId]}) s,
             [onTestStart serverId] ++ calls ++ [onTestError serverId message])
        end
    end.

(** The result [testAllServersViaVPN] records for a server whose test
    threw. *)
Definition failedResult (serverId message : string) : ServerTestResult :=
  {| serverId := serverId; downloadSpeedKBps := 0; uploadSpeedKBps := 0; latencyMs := 0;
     success := false; error := Some message; pingSuccess := Some false;
     downloadTestSuccess := Some false; uploadTestSuccess := Some false |}.

Fixpoint testAllServersViaVPN (env : Env) (servers : list Server) (s : Service)
    : list ServerTestResult * Service * list Event :=
  match servers with
  | [] => ([], s, [])
  | server :: servers' =>
      let '(outcome, calls) := testServerViaVPN env (id server) server in
      let '(result, report) :=
        match outcome with
        | inr result => (result, onTestComplete (id server) result)
        | inl message =>
            (failedResult (id server) message, onTestError (id server) message)
        end in
      let s1 := with_testing (serversCurrentlyTesting s ∖ {[id server]}) s in
      let '(results, s2, events) := testAllServersViaVPN env servers' s1 in
      (result :: results, s2, calls ++ [report] ++ events)
  end.

(** The two callbacks that report the end of a test. *)
Definition is_report (e : Event) : bool :=
  match e with
  | onTestComplete _ _ | onTestError _ _ => true
  | _ => false
  end.

(** The calls on a server that change or query its connection. *)
Definition is_server_call (e : Event) : bool :=
  match e with
  | server_checkRunning _ | server_connect _ | server_disconnect _
  | onServerConnectionChange _ _ | vpnApi_testConnectivity => true
  | _ => false
  end.

Definition is_native_call (e : Event) : bool :=
  match e with
  | pluginExec_testServerConnectivity _ => true
  | _ => false
  end.

End ServerTestService.

(** ** Sample platforms *)

Module Scenario.
Import OutlineVpn.

(** The configuration [setupVpn] persists for a tunnel, with the
    on-demand flag and rules as given. *)
Definition tunnel (id transportConfig : string) (flag : bool)
    (rules : option (list NEOnDemandRule)) : NETunnelProviderManager :=
  {| localizedDescription := Some "Server";
     onDemandRules := rules;
     isOnDemandEnabled := flag;
     isEnabled := true;
     protocolConfiguration :=
       Some {| serverAddress := "Outline";
               providerConfiguration :=
                 Some (<["id" := AnyString id]>
                         {["transport" := AnyString transportConfig]}) |} |}.

(** A device on which tunnel "t1" is configured, with its session in
    status [st], and the scripts of the platform; no detached task is
    pending, and every task created runs within the notification that
    creates it. *)
Definition device (st : NEVPNStatus) (flag : bool) (fails : list (option string))
    (posted : list NEVPNStatus) (replies : list IPCAnswer) : World :=
  {| preferences := [tunnel "t1" "cfgA" flag (Some [NEOnDemandRuleConnect_any])];
     status := st;
     vpnStatusObserver := false;
     failures := fails;
     notifications := posted;
     responses := replies;
     trace := [];
     tasks := [];
     taskDelays := [] |}.

(** A device without any tunnel configuration. *)
Definition fresh (posted : list NEVPNStatus) (replies : list IPCAnswer) : World :=
  {| preferences := []; status := invalid; vpnStatusObserver := false;
     failures := []; notifications := posted; responses := replies; trace := [];
     tasks := []; taskDelays := [] |}.

Definition remote_error : Data :=
  plist (<["errorCode" := PString "ERR_X"]> {["errorJson" := PString "{...}"]}).

(** A small configuration language for [NewClientWithBaseDialers]: the
    text names the connection types of the stream dialer and of the packet
    listener. *)
Inductive SampleConnType := SampleDirect | SampleTunneled.

#[global] Instance SampleConnType_eq_dec : EqDecision SampleConnType.
Proof. solve_decision. Defined.

Definition sample_unmarshal (text : string) : unit + string :=
  if decide (text = "") then inl tt else inr text.

Definition sample_parse (node : string)
    : unit + GoClient.TransportPair (ConnType := SampleConnType) :=
  let tunneled := {| GoClient.ConnType_of := SampleTunneled; GoClient.endpoint_id := 0 |} in
  let direct := {| GoClient.ConnType_of := SampleDirect; GoClient.endpoint_id := 1 |} in
  if decide (node = "tunnel") then
    inr {| GoClient.StreamDialer := tunneled; GoClient.PacketListener := tunneled |}
  else if decide (node = "tcp-only") then
    inr {| GoClient.StreamDialer := tunneled; GoClient.PacketListener := direct |}
  else inl tt.

(** A reply of the extension to a comprehensive test: TCP up, UDP down. *)
Definition test_reply : gmap string PValue :=
  list_to_map
    [ ("tcpSuccess", PBoolean true); ("udpSuccess", PBoolean false);
      ("connectivitySuccess", PBoolean false);
      ("downloadSpeedKBps", PInteger 1659); ("uploadSpeedKBps", PInteger 255);
      ("latencyMs", PInteger 42);
      ("downloadTestSuccess", PBoolean true); ("uploadTestSuccess", PBoolean true);
      ("udpError", PString "udp blocked") ].

Definition test_result : ComprehensiveTestResult :=
  {| tcpSuccess := true; udpSuccess := false; connectivitySuccess := false;
     downloadSpeedKBps := 1659; uploadSpeedKBps := 255; latencyMs := 42;
     downloadTestSuccess := true; uploadTestSuccess := true;
     tcpError := None; udpError := Some "udp blocked";
     downloadTestError := None; uploadTestError := None |}.

(** A bandwidth test in which latency and download succeed and the first
    upload request fails after three milliseconds. *)
Definition probes_upload_refused : GoClient.ProbeEnv :=
  {| GoClient.latency_head := GoClient.HeadResponse 204;
     GoClient.latency_since := 37500000;
     GoClient.download_get :=
       GoClient.GetResponse [ {| GoClient.rd_n := 2097152; GoClient.rd_err := GoClient.ErrEOF |} ];
     GoClient.download_since := fun _ => 1234000000;
     GoClient.upload_posts := [GoClient.PostError GoClient.ErrConnection];
     GoClient.upload_since := fun _ => 3000000 |}.

(** A server reached through the application, a platform with the native
    test, and a web result. *)
Definition web_result : VPNManagementAPI_v2.ServerTestResult :=
  VPNManagementAPI_v2.testConnectivity (VPNManagementAPI.PingResolves true 200) (120 # 1)
    (fun _ => ApiServerRepository.ProbeFetched 512000 (250 # 1)).

Definition server (serverId : string) (running : string + bool) (connect disconnect : option string)
    : ServerTestService.Server :=
  {| ServerTestService.id := serverId;
     ServerTestService.address := "192.0.2.1:8388";
     ServerTestService.rowId := Some "row-1";
     ServerTestService.checkRunning := running;
     ServerTestService.connect := connect;
     ServerTestService.disconnect := disconnect |}.

Definition test_env (servers : list ServerTestService.Server) (native : bool)
    : ServerTestService.Env :=
  {| ServerTestService.getById := fun serverId =>
       List.find (fun srv => bool_decide (ServerTestService.id srv = serverId)) servers;
     ServerTestService.isNativeTestingAvailable := native;
     ServerTestService.getServerAccessKey := fun _ => Some "transport: ss://key@192.0.2.1:8388";
     ServerTestService.pluginExec := fun _ => inl "plugin failure";
     ServerTestService.vpnApi_result := fun _ => web_result |}.

Definition idle_service : ServerTestService.Service :=
  {| ServerTestService.serverTestResults := ∅;
     ServerTestService.serversCurrentlyTesting := ∅ |}.

End Scenario.

(** * Properties *)

(** ** Go probes *)

Section GoProbes.
Import GoClient.

Lemma wrap64_small z : - 2 ^ 63 <= z < 2 ^ 63 -> wrap64 z = z.
Proof.
  intros Hz. unfold wrap64.
  change (2 ^ 63) with 9223372036854775808 in *.
  change (2 ^ 64) with 18446744073709551616.
  rewrite Z.mod_small by lia. lia.
Qed.

(** In the range of realistic byte counts the [int64] operations never
    wrap and the speed is the plain quotient chain. *)
Lemma speedKBps_plain total ms :
  0 < ms -> 0 <= total < 2 ^ 53 ->
  speedKBps total ms = total / ms * 1000 / 1024.
Proof.
  intros Hms Ht. unfold speedKBps, int64_div, int64_mul.
  change (2 ^ 53) with 9007199254740992 in Ht.
  assert (Hq : Z.quot total ms = total / ms) by (apply Z.quot_div_nonneg; lia).
  assert (Hq0 : 0 <= total / ms) by (apply Z.div_pos; lia).
  assert (Hq1 : total / ms <= total) by (apply Z.div_le_upper_bound; nia).
  assert (Hr : Z.quot (total / ms * 1000) 1024 = total / ms * 1000 / 1024)
    by (apply Z.quot_div_nonneg; lia).
  assert (Hr0 : 0 <= total / ms * 1000 / 1024) by (apply Z.div_pos; lia).
  assert (Hr1 : total / ms * 1000 / 1024 <= total / ms * 1000)
    by (apply Z.div_le_upper_bound; lia).
  rewrite Hq, (wrap64_small (total / ms)).
  2: change (2 ^ 63) with 9223372036854775808; lia.
  rewrite (wrap64_small (total / ms * 1000)).
  2: change (2 ^ 63) with 9223372036854775808; lia.
  rewrite Hr. apply wrap64_small.
  change (2 ^ 63) with 9223372036854775808; lia.
Qed.

(** Dividing before multiplying loses less than one KB/s against
    multiplying first. *)
Lemma divide_first_bound total ms :
  0 < ms -> 0 <= total ->
  total / ms * 1000 / 1024 <= total * 1000 / ms / 1024
  /\ total * 1000 / ms / 1024 <= total / ms * 1000 / 1024 + 1.
Proof.
  intros Hms Ht.
  assert (Hlo : total / ms * 1000 <= total * 1000 / ms).
  { apply Z.div_le_lower_bound; [lia|].
    pose proof (Z.mul_div_le total ms Hms). nia. }
  assert (Hhi : total * 1000 / ms <= total / ms * 1000 + 999).
  { assert (total * 1000 / ms < (total / ms + 1) * 1000); [|lia].
    apply Z.div_lt_upper_bound; [lia|].
    pose proof (Z.mul_succ_div_gt total ms Hms). nia. }
  split.
  - apply Z.div_le_mono; lia.
  - transitivity ((total / ms * 1000 + 999) / 1024).
    + apply Z.div_le_mono; lia.
    + generalize (total / ms * 1000). intros x.
      pose proof (Z.div_mod x 1024 ltac:(lia)).
      pose proof (Z.mod_pos_bound x 1024 ltac:(lia)).
      assert ((x + 999) / 1024 < x / 1024 + 2); [|lia].
      apply Z.div_lt_upper_bound; lia.
Qed.

(** C6, the claim as written fails: 1500 bytes read in 1000 ms give
    1500 * 1000 / 1000 / 1024 = 1 by the stated formula, and the code
    returns 0. *)
Lemma download_speed_multiply_first_fails :
  ~ (forall Body since durationSeconds total ms,
        measure Body since durationSeconds = (total, ms) -> 0 < ms ->
        TestDownloadSpeed (GetResponse Body) since durationSeconds
        = total * 1000 / ms / 1024).
Proof.
  intros H.
  specialize (H [ {| rd_n := 1500; rd_err := ErrEOF |} ]
                (fun _ => 1000000000) 10 1500 1000 eq_refl ltac:(lia)).
  vm_compute in H. discriminate H.
Qed.

(** C6 (amended): the download probe returns -1 when the initial request
    fails or the elapsed time is below one millisecond; otherwise it
    returns [totalBytes / elapsedMs * 1000 / 1024] in [int64] arithmetic,
    the division by the elapsed time coming first, which for byte counts
    below 2^53 is that plain quotient chain and lies at most 1 below
    [totalBytes * 1000 / elapsedMs / 1024]. *)
Theorem download_speed_divide_first Body since durationSeconds total ms :
  measure Body since durationSeconds = (total, ms) ->
  (forall err, TestDownloadSpeed (GetError err) since durationSeconds = -1)
  /\ (ms = 0 -> TestDownloadSpeed (GetResponse Body) since durationSeconds = -1)
  /\ (ms <> 0 ->
      TestDownloadSpeed (GetResponse Body) since durationSeconds = speedKBps total ms)
  /\ (0 < ms -> 0 <= total < 2 ^ 53 ->
      let speed := TestDownloadSpeed (GetResponse Body) since durationSeconds in
      speed = total / ms * 1000 / 1024
      /\ speed <= total * 1000 / ms / 1024 <= speed + 1).
Proof.
  intros Hm.
  assert (Hne : ms <> 0 ->
    TestDownloadSpeed (GetResponse Body) since durationSeconds = speedKBps total ms).
  { intros Hms. unfold TestDownloadSpeed. rewrite Hm.
    destruct (Z.eqb_spec ms 0); [contradiction|reflexivity]. }
  split; [reflexivity|]. split; [|split; [exact Hne|]].
  - intros ->. unfold TestDownloadSpeed. rewrite Hm. reflexivity.
  - intros Hms Ht speed. subst speed.
    rewrite Hne, speedKBps_plain by lia.
    split; [reflexivity|]. apply divide_first_bound; lia.
Qed.

Lemma download_speed_divide_first_witness :
  TestDownloadSpeed
    (GetResponse [ {| rd_n := 131072; rd_err := ErrNil |};
                   {| rd_n := 65536; rd_err := ErrEOF |} ])
    (fun k => 250000000 * Z.of_nat (S k)) 10 = 255.
Proof.
  pose proof (download_speed_divide_first
    [ {| rd_n := 131072; rd_err := ErrNil |}; {| rd_n := 65536; rd_err := ErrEOF |} ]
    (fun k => 250000000 * Z.of_nat (S k)) 10 196608 750 eq_refl) as (_ & _ & H & _).
  rewrite H by lia. reflexivity.
Defined.

(** C7, the claim as written fails: a HEAD answered with status 500 is a
    response, not an error, and its round-trip time is returned. *)
Lemma latency_non_success_status_not_failure :
  TestLatency (HeadResponse 500) 42000000 = 42
  /\ TestLatency (HeadResponse 500) 42000000 <> -1.
Proof. split; [reflexivity | discriminate]. Qed.

(** C7 (amended): the latency probe returns -1 exactly when the HEAD
    request itself returns an error (timeout, connection error); for any
    response, whatever its status code, it returns the elapsed time in
    whole milliseconds. *)
Theorem latency_minus_one_iff_error head since :
  0 <= since ->
  (TestLatency head since = -1 <-> exists err, head = HeadError err)
  /\ (forall StatusCode, head = HeadResponse StatusCode ->
      TestLatency head since = since / 1000000).
Proof.
  intros Hs.
  assert (Hq : Milliseconds since = since / 1000000)
    by (apply Z.quot_div_nonneg; lia).
  assert (0 <= since / 1000000) by (apply Z.div_pos; lia).
  split.
  - destruct head as [err|sc]; simpl.
    + split; [eauto | reflexivity].
    + rewrite Hq. split; [lia | intros [err Herr]; discriminate].
  - intros sc ->. exact Hq.
Qed.

Lemma latency_minus_one_iff_error_witness :
  TestLatency (HeadError ErrTimeout) 10000000000 = -1
  /\ TestLatency (HeadResponse 204) 37500000 = 37.
Proof.
  split.
  - apply (latency_minus_one_iff_error (HeadError ErrTimeout) 10000000000); [lia|].
    exists ErrTimeout. reflexivity.
  - pose proof (latency_minus_one_iff_error (HeadResponse 204) 37500000 ltac:(lia))
      as [_ H].
    rewrite (H 204 eq_refl). reflexivity.
Defined.

End GoProbes.

(** ** Go client construction *)

Section GoNewClient.
Import GoClient.
Context {ConfigNode ConnType GoError : Type} `{EqDecision ConnType}.
Variable ConnTypeDirect : ConnType.
Variable yaml_Unmarshal : string -> GoError + ConfigNode.
Variable errors_Is_ErrUnsupported : GoError -> bool.
Variable Parse : ConfigNode -> GoError + TransportPair (ConnType := ConnType).

Local Abbreviation NewClientWithBaseDialers :=
  (GoClient.NewClientWithBaseDialers
     ConnTypeDirect yaml_Unmarshal errors_Is_ErrUnsupported Parse).

(** Every error of the constructor carries the InvalidConfig code and
    comes without a client. *)
Lemma NewClient_error_is_InvalidConfig text client e :
  NewClientWithBaseDialers text = (client, Some e) ->
  client = None /\ Code e = InvalidConfig.
Proof.
  unfold GoClient.NewClientWithBaseDialers.
  intros Hr.
  repeat (case_match; simplify_eq); auto.
Qed.

(** C10: a configuration that parses to a transport whose stream dialer
    or packet listener connects directly is rejected with InvalidConfig and
    no client; a client that is returned holds the parsed dialer and
    listener, neither of them direct, and comes with a nil error. *)
Theorem NewClient_only_tunnelled text :
  (forall node pair,
      yaml_Unmarshal text = inr node -> Parse node = inr pair ->
      ConnType_of (StreamDialer pair) = ConnTypeDirect
      \/ ConnType_of (PacketListener pair) = ConnTypeDirect ->
      exists e, NewClientWithBaseDialers text = (None, Some e)
                /\ Code e = InvalidConfig)
  /\ (forall client err,
      NewClientWithBaseDialers text = (Some client, err) ->
      err = None
      /\ exists node pair,
          yaml_Unmarshal text = inr node /\ Parse node = inr pair
          /\ sd client = StreamDialer pair /\ pl client = PacketListener pair
          /\ ConnType_of (sd client) <> ConnTypeDirect
          /\ ConnType_of (pl client) <> ConnTypeDirect).
Proof.
  unfold GoClient.NewClientWithBaseDialers.
  split.
  - intros node pair -> -> Hdirect.
    destruct (decide (ConnType_of (StreamDialer pair) = ConnTypeDirect)) as [|Hsd].
    + eexists; split; reflexivity.
    + destruct (decide (ConnType_of (PacketListener pair) = ConnTypeDirect)) as [|Hpl].
      * eexists; split; reflexivity.
      * destruct Hdirect; contradiction.
  - intros client err Hr.
    destruct (yaml_Unmarshal text) as [e|node] eqn:Hy; [discriminate|].
    destruct (Parse node) as [e|pair] eqn:Hp.
    { destruct (errors_Is_ErrUnsupported e); discriminate. }
    destruct (decide (ConnType_of (StreamDialer pair) = ConnTypeDirect)) as [|Hsd];
      [discriminate|].
    destruct (decide (ConnType_of (PacketListener pair) = ConnTypeDirect)) as [|Hpl];
      [discriminate|].
    injection Hr as <- <-. split; [reflexivity|].
    exists node, pair. simpl. repeat split; assumption.
Qed.

End GoNewClient.

Lemma NewClient_only_tunnelled_witness :
  (exists e,
      GoClient.NewClientWithBaseDialers Scenario.SampleDirect Scenario.sample_unmarshal (fun _ => false)
        Scenario.sample_parse "tcp-only" = (None, Some e)
      /\ GoClient.Code e = GoClient.InvalidConfig)
  /\ exists client,
      GoClient.NewClientWithBaseDialers Scenario.SampleDirect Scenario.sample_unmarshal (fun _ => false)
        Scenario.sample_parse "tunnel" = (Some client, None)
      /\ GoClient.ConnType_of (GoClient.sd client) <> Scenario.SampleDirect.
Proof.
  split.
  - pose proof (NewClient_only_tunnelled Scenario.SampleDirect Scenario.sample_unmarshal (fun _ => false)
                  Scenario.sample_parse "tcp-only") as [H _].
    eapply H; [reflexivity | reflexivity | right; reflexivity].
  - pose proof (NewClient_only_tunnelled Scenario.SampleDirect Scenario.sample_unmarshal (fun _ => false)
                  Scenario.sample_parse "tunnel") as [_ H].
    eexists. split; [reflexivity|].
    edestruct H as (_ & node & pair & _ & _ & _ & _ & Hsd & _); [reflexivity|].
    exact Hsd.
Defined.

(** ** Bandwidth aggregation *)

Section Bandwidth.
Import Binary64 BandwidthTest.

Lemma sort_insert_perm x l : Permutation (x :: l) (sort_insert x l).
Proof.
  induction l as [|y l IH]; simpl; [reflexivity|].
  destruct (gt_zero (sub x y)); [|reflexivity].
  rewrite perm_swap. now apply perm_skip.
Qed.

Lemma sort_perm l : Permutation l (sort l).
Proof.
  induction l as [|x l IH]; simpl; [constructor|].
  rewrite <- sort_insert_perm. now apply perm_skip.
Qed.

Lemma sort_length l : length (sort l) = length l.
Proof. symmetry. apply Permutation_length, sort_perm. Qed.

(** Rounding keeps the sign, or gives NaN. *)
Lemma binary_round_aux_cases s m e l :
  let r := binary_round_aux prec emax s m e l in
  r = S754_zero s \/ r = S754_infinity s \/ r = S754_nan
  \/ exists m' e', r = S754_finite s m' e'.
Proof.
  unfold binary_round_aux.
  destruct (shr_fexp prec emax m e l) as [mrs' e'].
  destruct (shr_fexp prec emax _ e' loc_Exact) as [mrs'' e''].
  destruct (shr_m mrs''); [auto| |auto].
  destruct (e'' <=? emax - prec); eauto 6.
Qed.

Lemma binary_round_cases s m e :
  let r := binary_round prec emax s m e in
  r = S754_zero s \/ r = S754_infinity s \/ r = S754_nan
  \/ exists m' e', r = S754_finite s m' e'.
Proof.
  unfold binary_round. destruct (shl_align m e _) as [mz ez].
  apply binary_round_aux_cases.
Qed.

Lemma gt_zero_negative m e : gt_zero (binary_round prec emax true m e) = false.
Proof.
  destruct (binary_round_cases true m e) as [H|[H|[H|(m' & e' & H)]]];
    rewrite H; reflexivity.
Qed.

(** The comparator never answers a number greater than zero both for
    [(x, y)] and for [(y, x)]: the two differences are computed from
    opposite integers. *)
Lemma sub_asym x y : gt_zero (sub x y) = true -> gt_zero (sub y x) = false.
Proof.
  destruct x as [sx|sx| |sx mx ex], y as [sy|sy| |sy my ey];
    try (destruct sx, sy; cbn; congruence);
    try (destruct sx; cbn; congruence);
    try (destruct sy; cbn; congruence);
    try (cbn; congruence).
  unfold sub, SFsub. rewrite (Z.min_comm ey ex).
  set (a := cond_Zopp sx (Z.pos (fst (shl_align mx ex (Z.min ex ey))))).
  set (b := cond_Zopp sy (Z.pos (fst (shl_align my ey (Z.min ex ey))))).
  replace (b - a) with (- (a - b)) by lia.
  destruct (a - b) as [|p|p]; cbn [Z.opp binary_normalize].
  - discriminate.
  - intros _. apply gt_zero_negative.
  - now rewrite gt_zero_negative.
Qed.

Lemma sort_insert_HdRel a x l :
  gt_zero (sub a x) = false ->
  HdRel (fun a b => gt_zero (sub a b) = false) a l ->
  HdRel (fun a b => gt_zero (sub a b) = false) a (sort_insert x l).
Proof.
  intros Hax Hl. destruct l as [|y l]; simpl; [now constructor|].
  destruct (gt_zero (sub x y)); constructor; [|assumption].
  now inversion Hl.
Qed.

Lemma sort_insert_sorted x l :
  Sorted (fun a b => gt_zero (sub a b) = false) l ->
  Sorted (fun a b => gt_zero (sub a b) = false) (sort_insert x l).
Proof.
  induction 1 as [|y l Hs IH Hhd]; simpl; [repeat constructor|].
  destruct (gt_zero (sub x y)) eqn:Hxy.
  - constructor; [exact IH|].
    apply sort_insert_HdRel; [|exact Hhd]. now apply sub_asym.
  - repeat constructor; assumption.
Qed.

Lemma sort_sorted l : Sorted (fun a b => gt_zero (sub a b) = false) (sort l).
Proof.
  induction l as [|x l IH]; simpl; [constructor|].
  now apply sort_insert_sorted.
Qed.

(** C8, the claim as written fails: the samples 1 and 2 have the median
    1.5, and the aggregation hands back 2. *)
Lemma aggregate_is_not_the_median :
  aggregate [of_Z 1; of_Z 2] = Some (of_Z 2)
  /\ div (add (of_Z 1) (of_Z 2)) (of_Z 2) = div (of_Z 3) (of_Z 2)
  /\ SFeqb (of_Z 2) (div (of_Z 3) (of_Z 2)) = false.
Proof. vm_compute. auto. Qed.

(** C8 (amended): for a non-empty list of samples, none of them NaN, the
    aggregation is [Math.round] of the median of the samples as the
    comparator [(a, b) => a - b] sorts them: the middle element for an
    odd count, and for an even count the sum of the two central elements
    divided by 2, both operations in double precision; [100, 300, 200]
    gives 200 and [100, 300, 200, 400] gives 250. *)
Theorem aggregate_rounded_median samples :
  samples <> [] ->
  Forall (fun x => x <> S754_nan) samples ->
  (exists sortedResults,
      Permutation samples sortedResults
      /\ Sorted (fun a b => gt_zero (sub a b) = false) sortedResults
      /\ let n := length samples in
         let central := nth (n / 2) sortedResults (of_Z 0) in
         let below := nth (n / 2 - 1) sortedResults (of_Z 0) in
         aggregate samples
         = Some (Math_round
                   (if Nat.even n then div (add below central) (of_Z 2) else central)))
  /\ aggregate [of_Z 100; of_Z 300; of_Z 200] = Some (of_Z 200)
  /\ aggregate [of_Z 100; of_Z 300; of_Z 200; of_Z 400] = Some (of_Z 250).
Proof.
  intros Hne _. split; [|split; vm_compute; reflexivity].
  exists (sort samples).
  split; [apply sort_perm|]. split; [apply sort_sorted|].
  destruct samples as [|x l]; [contradiction|].
  cbv zeta. unfold aggregate, medianBandwidth.
  rewrite sort_length. reflexivity.
Qed.

Lemma aggregate_rounded_median_witness :
  let samples := [div (of_Z 7) (of_Z 2); of_Z 1; of_Z 12] in
  samples <> []
  /\ exists sortedResults,
      Permutation samples sortedResults
      /\ Sorted (fun a b => gt_zero (sub a b) = false) sortedResults
      /\ aggregate samples = Some (Math_round (nth 1 sortedResults (of_Z 0))).
Proof.
  intros samples. split; [discriminate|].
  destruct (aggregate_rounded_median samples ltac:(discriminate)
              ltac:(repeat constructor; discriminate))
    as [(sortedResults & Hperm & Hsorted & Hagg) _].
  exists sortedResults. split; [exact Hperm|]. split; [exact Hsorted|]. exact Hagg.
Defined.

(** The mean of the two central samples is a double: the sample of 1088
    bytes in 17 ms is the number just below 62.5 and alone aggregates to
    62, while its mean with 62.5 is 62.5 again and aggregates to 63. *)
Example aggregate_mean_in_double_precision :
  let low := div (div (of_Z 1088) (of_Z 1024)) (div (of_Z 17) (of_Z 1000)) in
  let high := div (of_Z 125) (of_Z 2) in
  sample (ProbeFetched 1088 (of_Z 17)) = [low]
  /\ SFltb low high = true
  /\ aggregate [low] = Some (of_Z 62)
  /\ div (add low high) (of_Z 2) = high
  /\ aggregate [high; low] = Some (of_Z 63).
Proof. vm_compute. auto 6. Qed.

End Bandwidth.

(** ** Bandwidth aggregation over exact rationals *)

Section BandwidthExact.
Import ApiServerRepository.
Local Open Scope Q_scope.

Lemma exact_sort_insert_perm x l : Permutation (x :: l) (sort_insert x l).
Proof.
  induction l as [|y l IH]; simpl; [reflexivity|].
  destruct (Qle_bool x y); [reflexivity|].
  rewrite perm_swap. now apply perm_skip.
Qed.

Lemma exact_sort_perm l : Permutation l (sort l).
Proof.
  induction l as [|x l IH]; simpl; [constructor|].
  rewrite <- exact_sort_insert_perm. now apply perm_skip.
Qed.

(** The loop over the three test sizes feeds the aggregation the samples
    of the probes that delivered data. *)
Lemma performBandwidthTest_all_failed fetch :
  (forall url, sample (fetch url) = []) -> performBandwidthTest fetch = None.
Proof.
  intros H. unfold performBandwidthTest, testSizes. simpl.
  rewrite !H. reflexivity.
Qed.

End BandwidthExact.

(** ** The tunnel session manager *)

Section SessionManager.
Import OutlineVpn.

(** What [getTunnelManager] does to the world: one load request, one
    entry of the failure script used up. *)
Lemma getTunnelManager_eq w :
  getTunnelManager w
  = (Returned (match failures w with
               | Some _ :: _ => None
               | _ => head (preferences w)
               end),
     set_failures (tl (failures w)) (emit EvLoadAll w)).
Proof.
  destruct w as [prefs st obs fails notes resp tr tks dls].
  unfold getTunnelManager, catch, bind, loadAllFromPreferences, bind, event,
    modify, gets, platformCall, emit, set_failures, ret; simpl.
  destruct fails as [|[d|] rest]; simpl; destruct prefs; reflexivity.
Qed.

Lemma isActiveSession_iff st :
  isActiveSession (Some st) = true
  <-> st = connecting \/ st = connected \/ st = reasserting.
Proof. destruct st; vm_compute; intuition discriminate. Qed.

Lemma isActive_eq id w :
  isActive (Some id) w
  = (Returned (match (match failures w with
                      | Some _ :: _ => None
                      | _ => head (preferences w)
                      end) with
               | None => false
               | Some manager =>
                   bool_decide (getTunnelId (Some manager) = Some id)
                   && isActiveSession (Some (status w))
               end),
     set_failures (tl (failures w)) (emit EvLoadAll w)).
Proof.
  unfold isActive, bind. rewrite getTunnelManager_eq.
  destruct (match failures w with Some _ :: _ => None | _ => head (preferences w) end);
    reflexivity.
Qed.

(** C2, the claim as written fails: tunnel "t1" is configured and its
    session is connected, yet [isActive] answers false, because the load
    of the managers throws. *)
Lemma isActive_false_when_load_fails :
  let w := Scenario.device connected true [Some "load failed"] [] [] in
  (exists manager others protoConfig config,
      preferences w = manager :: others
      /\ protocolConfiguration manager = Some protoConfig
      /\ providerConfiguration protoConfig = Some config
      /\ config !! "id" = Some (AnyString "t1"))
  /\ status w = connected
  /\ fst (isActive (Some "t1") w) = Returned false.
Proof.
  split; [|split; reflexivity].
  eexists. eexists. eexists. eexists.
  split; [reflexivity|]. split; [reflexivity|]. split; reflexivity.
Qed.

(** C2 (amended): [isActive] always returns.  It returns true exactly
    when the id given is not nil, the load of the managers does not throw,
    the provider configuration of the first persisted manager holds a
    string under "id" that is the id given, and the session is connecting,
    connected or reasserting.  So it is false for a nil id, when nothing
    is persisted, and whenever the load throws. *)
Theorem isActive_iff tunnelId w :
  (exists b, fst (isActive tunnelId w) = Returned b)
  /\ (fst (isActive tunnelId w) = Returned true
      <-> exists id manager others protoConfig config,
            tunnelId = Some id
            /\ (forall description, head (failures w) <> Some (Some description))
            /\ preferences w = manager :: others
            /\ protocolConfiguration manager = Some protoConfig
            /\ providerConfiguration protoConfig = Some config
            /\ config !! "id" = Some (AnyString id)
            /\ (status w = connecting \/ status w = connected
                \/ status w = reasserting))
  /\ fst (isActive None w) = Returned false
  /\ (preferences w = [] -> fst (isActive tunnelId w) = Returned false)
  /\ (forall description rest,
        failures w = Some description :: rest ->
        fst (isActive tunnelId w) = Returned false).
Proof.
  destruct tunnelId as [id|].
  2:{ cbn. split; [eauto|]. split; [|auto].
      split; [discriminate|]. now intros (id & ? & ? & ? & ? & [=] & _). }
  assert (Heq : fst (isActive (Some id) w)
                = Returned
                    match failures w, preferences w with
                    | Some _ :: _, _ | _, [] => false
                    | _, manager :: _ =>
                        bool_decide (getTunnelId (Some manager) = Some id)
                        && isActiveSession (Some (status w))
                    end).
  { destruct w as [prefs st obs fails notes resp tr tks dls].
    unfold isActive, getTunnelManager, catch, bind, loadAllFromPreferences, bind, event,
      modify, gets, platformCall, connection_status, ret.
    cbn [failures preferences status emit set_failures fst snd].
    destruct fails as [|[description|] rest]; destruct prefs as [|manager others];
      reflexivity. }
  assert (Hid : forall manager,
             getTunnelId (Some manager) = Some id
             <-> exists protoConfig config,
                   protocolConfiguration manager = Some protoConfig
                   /\ providerConfiguration protoConfig = Some config
                   /\ config !! "id" = Some (AnyString id)).
  { intros manager. unfold getTunnelId. split.
    - destruct (protocolConfiguration manager) as [protoConfig|]; [|discriminate].
      destruct (providerConfiguration protoConfig) as [config|] eqn:Hconfig;
        [|discriminate].
      destruct (config !! "id") as [[stored|z]|] eqn:Hlookup; try discriminate.
      intros [= ->]. exists protoConfig, config. auto.
    - intros (protoConfig & config & -> & -> & ->). reflexivity. }
  rewrite Heq.
  split; [eauto|]. split; [|split; [reflexivity|split]].
  - split.
    + intros [= Hr].
      destruct (failures w) as [|[description|] rest] eqn:Hf; try discriminate;
        destruct (preferences w) as [|manager others] eqn:Hp; try discriminate;
        apply andb_true_iff in Hr as [Hget Hact];
        apply bool_decide_eq_true, Hid in Hget
          as (protoConfig & config & Hproto & Hconfig & Hlookup);
        apply isActiveSession_iff in Hact;
        exists id, manager, others, protoConfig, config;
        repeat split; auto; discriminate.
    + intros (id' & manager & others & protoConfig & config & [= <-] & Hf & Hp
              & Hproto & Hconfig & Hlookup & Hact).
      rewrite Hp.
      assert (Hget : bool_decide (getTunnelId (Some manager) = Some id)
                     && isActiveSession (Some (status w)) = true).
      { apply andb_true_iff. split.
        - apply bool_decide_eq_true, Hid. eauto.
        - now apply isActiveSession_iff. }
      destruct (failures w) as [|[description|] rest];
        [now rewrite Hget|now destruct (Hf description)|now rewrite Hget].
  - intros ->. now destruct (failures w) as [|[description|] rest].
  - intros description rest ->. reflexivity.
Qed.

Lemma isActive_iff_witness :
  fst (isActive (Some "t1") (Scenario.device reasserting true [] [] [])) = Returned true
  /\ fst (isActive (Some "t2") (Scenario.device connected true [] [] [])) <> Returned true.
Proof.
  split.
  - apply (isActive_iff (Some "t1") (Scenario.device reasserting true [] [] [])).
    exists "t1", (Scenario.tunnel "t1" "cfgA" true (Some [NEOnDemandRuleConnect_any])), [].
    eexists. eexists.
    split; [reflexivity|]. split; [discriminate|]. split; [reflexivity|].
    split; [reflexivity|]. split; [reflexivity|]. split; [reflexivity|]. auto.
  - intros H.
    apply (isActive_iff (Some "t2") (Scenario.device connected true [] [] [])) in H.
    destruct H as (id & manager & others & protoConfig & config
                   & Hid & _ & Hp & Hproto & Hconfig & Hlookup & _).
    injection Hid as <-. injection Hp as <- <-.
    injection Hproto as <-. injection Hconfig as <-.
    vm_compute in Hlookup. discriminate Hlookup.
Defined.

(** C4: when the id of the configured tunnel is not [tunnelId], or the
    session is not connecting, connected or reasserting, [stop] returns at
    once: the only request made is the load behind [getTunnelManager]; the
    persisted configurations, the session status and the pending
    notifications and replies are as before. *)
Theorem stop_inactive_is_noop tunnelId w :
  getTunnelId (head (preferences w)) <> Some tunnelId
  \/ isActiveSession (Some (status w)) = false ->
  stop tunnelId w = (Returned tt, set_failures (tl (failures w)) (emit EvLoadAll w))
  /\ let w' := snd (stop tunnelId w) in
     trace w' = trace w ++ [EvLoadAll]
     /\ preferences w' = preferences w /\ status w' = status w
     /\ notifications w' = notifications w /\ responses w' = responses w.
Proof.
  intros Hin.
  assert (Hstop : stop tunnelId w
                  = (Returned tt, set_failures (tl (failures w)) (emit EvLoadAll w))).
  { unfold stop, bind. rewrite getTunnelManager_eq.
    destruct (failures w) as [|[d|] rest] eqn:Hf; cbn [tl]; try reflexivity.
    all: destruct (preferences w) as [|manager others] eqn:Hp; cbn [head];
      try reflexivity.
    all: cbn [head] in Hin.
    all: destruct (bool_decide (getTunnelId (Some manager) = Some tunnelId)) eqn:Hid;
      try reflexivity.
    all: apply bool_decide_eq_true in Hid.
    all: destruct Hin as [Hin|Hin]; [contradiction|].
    all: unfold connection_status, gets; cbn [status set_failures emit].
    all: rewrite Hin; reflexivity. }
  split; [exact Hstop|].
  rewrite Hstop. simpl. auto.
Qed.

(** *** Quiet computations *)

Lemma tunnel_events_app l1 l2 :
  tunnel_events (l1 ++ l2) = tunnel_events l1 ++ tunnel_events l2.
Proof. apply List.filter_app. Qed.

Lemma quiet_ret {A} (a : A) : Quiet (ret a).
Proof.
  intros w o w' [= <- <-]. split; [reflexivity|].
  exists []. now rewrite app_nil_r.
Qed.

Lemma quiet_throw {A} e : Quiet (@throw A e).
Proof.
  intros w o w' [= <- <-]. split; [reflexivity|].
  exists []. now rewrite app_nil_r.
Qed.

Lemma quiet_gets {A} (f : World -> A) : Quiet (gets f).
Proof.
  intros w o w' [= <- <-]. split; [reflexivity|].
  exists []. now rewrite app_nil_r.
Qed.

Lemma quiet_modify f :
  (forall w, status (f w) = status w /\ trace (f w) = trace w) -> Quiet (modify f).
Proof.
  intros Hf w o w' [= <- <-]. destruct (Hf w) as [Hs Ht].
  split; [exact Hs|]. exists []. now rewrite app_nil_r.
Qed.

Lemma quiet_event ev : is_tunnel_event ev = false -> Quiet (event ev).
Proof.
  intros Hev w o w' [= <- <-]. split; [reflexivity|].
  exists [ev]. split; [reflexivity|].
  unfold tunnel_events. simpl. now rewrite Hev.
Qed.

Lemma quiet_platformCall : Quiet platformCall.
Proof.
  intros w o w'. unfold platformCall.
  destruct (failures w) as [|[d|] rest]; intros [= <- <-];
    (split; [reflexivity|]); exists []; now rewrite app_nil_r.
Qed.

Lemma quiet_providerReply : Quiet providerReply.
Proof.
  intros w o w'. unfold providerReply.
  destruct (responses w) as [|[d|data] rest]; intros [= <- <-];
    (split; [reflexivity|]); exists []; now rewrite app_nil_r.
Qed.

Lemma quiet_bind {A B} (m : M A) (k : A -> M B) :
  Quiet m -> (forall a, Quiet (k a)) -> Quiet (bind m k).
Proof.
  intros Hm Hk w o w'. unfold bind.
  destruct (m w) as [[a|e|] w1] eqn:Hmw; intros Hr.
  - destruct (Hm _ _ _ Hmw) as (Hs1 & d1 & Ht1 & Hq1).
    destruct (Hk a _ _ _ Hr) as (Hs2 & d2 & Ht2 & Hq2).
    split; [congruence|]. exists (d1 ++ d2).
    rewrite Ht2, Ht1, app_assoc, tunnel_events_app, Hq1, Hq2. auto.
  - injection Hr as <- <-. eapply Hm; eassumption.
  - injection Hr as <- <-. eapply Hm; eassumption.
Qed.

Lemma quiet_catch {A} (m : M A) (h : Error -> M A) :
  Quiet m -> (forall e, Quiet (h e)) -> Quiet (catch m h).
Proof.
  intros Hm Hh w o w'. unfold catch.
  destruct (m w) as [[a|e|] w1] eqn:Hmw; intros Hr.
  - injection Hr as <- <-. eapply Hm; eassumption.
  - destruct (Hm _ _ _ Hmw) as (Hs1 & d1 & Ht1 & Hq1).
    destruct (Hh e _ _ _ Hr) as (Hs2 & d2 & Ht2 & Hq2).
    split; [congruence|]. exists (d1 ++ d2).
    rewrite Ht2, Ht1, app_assoc, tunnel_events_app, Hq1, Hq2. auto.
  - injection Hr as <- <-. eapply Hm; eassumption.
Qed.

Create HintDb quiet.
#[local] Hint Resolve quiet_ret quiet_throw quiet_gets quiet_platformCall
  quiet_providerReply : quiet.

Ltac quiet_step :=
  first
    [ apply quiet_bind; [|intros ?]
    | apply quiet_catch; [|intros ?]
    | apply quiet_event; reflexivity
    | apply quiet_modify; intros ?; split; reflexivity
    | solve [auto with quiet]
    | case_match ].

Ltac quiet := repeat quiet_step.

Lemma quiet_loadAllFromPreferences : Quiet loadAllFromPreferences.
Proof. unfold loadAllFromPreferences. quiet. Qed.

Lemma quiet_loadFromPreferences manager : Quiet (loadFromPreferences manager).
Proof. unfold loadFromPreferences. quiet. Qed.

Lemma quiet_saveToPreferences manager : Quiet (saveToPreferences manager).
Proof. unfold saveToPreferences. quiet. Qed.

#[local] Hint Resolve quiet_loadAllFromPreferences quiet_loadFromPreferences
  quiet_saveToPreferences : quiet.

Lemma quiet_setConnectVpnOnDemand manager enabled :
  Quiet (setConnectVpnOnDemand manager enabled).
Proof. unfold setConnectVpnOnDemand. quiet. Qed.

#[local] Hint Resolve quiet_setConnectVpnOnDemand : quiet.

Lemma quiet_vpnStatusChanged : Quiet vpnStatusChanged.
Proof. unfold vpnStatusChanged, connection_status, createTask. quiet. Qed.

Lemma quiet_runTasks pending : Quiet (runTasks pending).
Proof.
  induction pending as [|task rest IH]; simpl; [quiet|].
  destruct (task_delay task); quiet; exact IH.
Qed.

Lemma quiet_detachedTasks : Quiet detachedTasks.
Proof. unfold detachedTasks. quiet. apply quiet_runTasks. Qed.

Lemma quiet_notified : Quiet notified.
Proof.
  unfold notified. apply quiet_bind; [apply quiet_vpnStatusChanged|].
  intros _. apply quiet_detachedTasks.
Qed.

Lemma quiet_setupVpn id name transportConfig : Quiet (setupVpn id name transportConfig).
Proof. unfold setupVpn. quiet. Qed.

Lemma quiet_fetchExtensionLastDisconnectError : Quiet fetchExtensionLastDisconnectError.
Proof. unfold fetchExtensionLastDisconnectError, sendProviderMessage. quiet. Qed.

#[local] Hint Resolve quiet_setupVpn quiet_fetchExtensionLastDisconnectError : quiet.

Lemma quiet_start_outcome manager : Quiet (start_outcome manager).
Proof. unfold start_outcome, connection_status. quiet. Qed.

(** Setting the on-demand flag is best effort: it always returns. *)
Lemma setConnectVpnOnDemand_returns manager enabled w :
  exists updated, fst (setConnectVpnOnDemand manager enabled w) = Returned updated.
Proof.
  destruct manager as [m|]; [|eexists; reflexivity].
  destruct w as [prefs st obs fails notes resp tr tks dls].
  unfold setConnectVpnOnDemand, catch, bind, loadFromPreferences, saveToPreferences,
    bind, event, modify, gets, platformCall, ret; simpl.
  destruct fails as [|[d1|] [|[d2|] rest]]; simpl; eauto.
Qed.

(** *** Waiting for a status *)

Lemma statusDidChange_trace s rest w :
  status (statusDidChange s rest w) = s
  /\ exists d, trace (statusDidChange s rest w) = trace w ++ d /\ tunnel_events d = [].
Proof.
  unfold statusDidChange.
  destruct (notified (post s rest w)) as [o w'] eqn:Hv.
  destruct (quiet_notified _ _ _ Hv) as (Hs & d & Ht & Hq).
  simpl. split; [exact Hs|].
  exists (EvStatusDidChange s :: d). split; [|exact Hq].
  rewrite Ht. simpl. now rewrite <- app_assoc.
Qed.

(** A wait never throws: it is resumed by a status that satisfies [done],
    which is then the session's status, or it stays suspended. *)
Lemma deliver_trace done pending w o w' :
  deliver done pending w = (o, w') ->
  exists d, trace w' = trace w ++ d
    /\ ((o = Suspended /\ tunnel_events d = [])
        \/ (o = Returned tt /\ done (status w') = true
            /\ tunnel_events d = [EvResume (status w')])).
Proof.
  revert w. induction pending as [|s rest IH]; intros w; simpl.
  - intros [= <- <-]. exists []. rewrite app_nil_r. auto.
  - destruct (statusDidChange_trace s rest w) as (Hs & d1 & Ht1 & Hq1).
    destruct (done s) eqn:Hdone.
    + intros [= <- <-]. exists (d1 ++ [EvResume s]).
      split; [simpl; now rewrite Ht1, app_assoc|].
      right. simpl. rewrite Hs, Hdone, tunnel_events_app, Hq1. auto.
    + intros Hr. destruct (IH _ Hr) as (d2 & Ht2 & Hcases).
      exists (d1 ++ d2). split; [now rewrite Ht2, Ht1, app_assoc|].
      rewrite tunnel_events_app, Hq1. exact Hcases.
Qed.

(** [stopSession] when its reload of the preferences does not throw: the
    teardown is requested at the status the session had, and the function
    returns only once the session is disconnected. *)
Lemma stopSession_trace manager w o w' :
  (forall description, head (failures w) <> Some (Some description)) ->
  stopSession manager w = (o, w') ->
  exists d, trace w' = trace w ++ d
    /\ ((o = Suspended /\ tunnel_events d = [EvStopVPNTunnel (status w)])
        \/ (o = Returned tt /\ status w' = disconnected
            /\ tunnel_events d = [EvStopVPNTunnel (status w); EvResume disconnected])).
Proof.
  intros Hload. unfold stopSession, catch, bind at 1.
  destruct (loadFromPreferences manager w) as [[loaded|e|] w1] eqn:H1.
  2,3: exfalso; revert H1;
    unfold loadFromPreferences, bind, event, modify, platformCall, gets; simpl;
    destruct (failures w) as [|[description|] rest]; try discriminate;
    intros _; now apply (Hload description).
  destruct (quiet_loadFromPreferences _ _ _ _ H1) as (Hs1 & d1 & Ht1 & Hq1).
  unfold bind at 1.
  destruct (setConnectVpnOnDemand (Some loaded) false w1) as [o2 w2] eqn:H2.
  destruct (setConnectVpnOnDemand_returns (Some loaded) false w1) as [updated Hret].
  rewrite H2 in Hret. simpl in Hret. subst o2.
  destruct (quiet_setConnectVpnOnDemand _ _ _ _ _ H2) as (Hs2 & d2 & Ht2 & Hq2).
  unfold bind, stopVPNTunnel, connection_status, gets, event, modify, awaitStatus.
  simpl.
  destruct (deliver _ _ _) as [o3 w3] eqn:H3.
  destruct (deliver_trace _ _ _ _ _ H3) as (d3 & Ht3 & Hcases).
  simpl in Ht3.
  assert (Ht : trace w3
               = trace w ++ (d1 ++ d2 ++ [EvStopVPNTunnel (status w2); EvAddObserver] ++ d3)).
  { rewrite Ht3, Ht2, Ht1. now rewrite <- !app_assoc. }
  assert (Hq : tunnel_events (d1 ++ d2 ++ [EvStopVPNTunnel (status w2); EvAddObserver] ++ d3)
               = EvStopVPNTunnel (status w) :: tunnel_events d3).
  { rewrite !tunnel_events_app, Hq1, Hq2, Hs2, Hs1. reflexivity. }
  destruct Hcases as [[-> Hq3]|(-> & Hdone & Hq3)].
  - intros [= <- <-]. eexists. split; [exact Ht|].
    left. rewrite Hq, Hq3. auto.
  - intros [= <- <-]. eexists. split; [exact Ht|].
    apply bool_decide_eq_true in Hdone.
    right. rewrite Hq, Hq3, Hdone. auto.
Qed.

(** [start] from [setupVpn] to the end of the wait: at most one start
    request, issued at the status the session has on entry. *)
Lemma start_tunnel_trace tunnelId name transportConfig w o w' :
  start_tunnel tunnelId name transportConfig w = (o, w') ->
  exists d, trace w' = trace w ++ d
    /\ (((forall manager, o <> Returned manager) /\ tunnel_events d = [])
        \/ ((forall manager, o <> Returned manager)
            /\ tunnel_events d = [EvStartTunnel (status w)])
        \/ ((exists manager, o = Returned manager) /\ start_done (status w') = true
            /\ tunnel_events d = [EvStartTunnel (status w); EvResume (status w')])).
Proof.
  unfold start_tunnel, bind at 1.
  destruct (catch (setupVpn _ _ _) _ w) as [o1 w1] eqn:H1.
  assert (Hq1 : Quiet (catch (setupVpn tunnelId (default "Outline Server" name)
                                transportConfig)
                         (fun error => throw (vpnPermissionNotGranted
                                                (error_localizedDescription error)))))
    by quiet.
  destruct (Hq1 _ _ _ H1) as (Hs1 & d1 & Ht1 & Hd1).
  destruct o1 as [manager|e|].
  2,3: intros [= <- <-]; exists d1; split; [exact Ht1|]; left;
    split; [discriminate|exact Hd1].
  unfold bind, event, modify, catch, startTunnel, bind, connection_status, gets,
    event, modify. simpl.
  destruct (platformCall (emit (EvStartTunnel (status w1)) (emit EvAddObserver w1)))
    as [o2 w2] eqn:H2.
  destruct (quiet_platformCall _ _ _ H2) as (Hs2 & d2 & Ht2 & Hd2).
  simpl in Ht2, Hs2.
  assert (Ht : trace w2 = trace w ++ (d1 ++ [EvAddObserver; EvStartTunnel (status w)] ++ d2)).
  { rewrite Ht2, Ht1, Hs1. now rewrite <- !app_assoc. }
  assert (Hq : tunnel_events (d1 ++ [EvAddObserver; EvStartTunnel (status w)] ++ d2)
               = [EvStartTunnel (status w)]).
  { rewrite !tunnel_events_app, Hd1, Hd2. reflexivity. }
  destruct o2 as [[]|e|].
  - unfold awaitStatus, ret.
    destruct (deliver _ _ _) as [o3 w3] eqn:H3.
    destruct (deliver_trace _ _ _ _ _ H3) as (d3 & Ht3 & Hcases).
    destruct Hcases as [[-> Hq3]|(-> & Hdone & Hq3)]; simpl; intros [= <- <-];
      exists ((d1 ++ [EvAddObserver; EvStartTunnel (status w)] ++ d2) ++ d3).
    + split; [rewrite Ht3, Ht; apply eq_sym, app_assoc|]. right. left.
      split; [discriminate|]. now rewrite tunnel_events_app, Hq, Hq3.
    + split; [rewrite Ht3, Ht; apply eq_sym, app_assoc|]. right. right.
      split; [eauto|]. split; [exact Hdone|].
      now rewrite tunnel_events_app, Hq, Hq3.
  - unfold throw. intros [= <- <-]. eexists. split; [exact Ht|].
    right. left. split; [discriminate|exact Hq].
  - intros [= <- <-]. eexists. split; [exact Ht|].
    right. left. split; [discriminate|exact Hq].
Qed.

(** [start] gets past its [switch] only with the session connected. *)
Lemma start_outcome_returned manager w w' :
  start_outcome manager w = (Returned tt, w') -> status w = connected.
Proof.
  unfold start_outcome, bind at 1. unfold connection_status, gets.
  unfold bind at 1.
  destruct (status w); try reflexivity; unfold throw; try discriminate.
  all: unfold bind at 1;
    destruct (fetchExtensionLastDisconnectError w) as [[[err|]|e|] w1];
    unfold throw; discriminate.
Qed.

(** *** Starting while a session is active *)

Lemma start_stop_active_trace w o w' :
  preferences w <> [] ->
  isActiveSession (Some (status w)) = true ->
  (forall i description, (i < 2)%nat -> failures w !! i <> Some (Some description)) ->
  start_stop_active w = (o, w') ->
  exists d, trace w' = trace w ++ d
    /\ ((o = Suspended /\ tunnel_events d = [EvStopVPNTunnel (status w)])
        \/ (o = Returned tt /\ status w' = disconnected
            /\ tunnel_events d = [EvStopVPNTunnel (status w); EvResume disconnected])).
Proof.
  intros Hprefs Hactive Hfails.
  unfold start_stop_active, bind. rewrite getTunnelManager_eq.
  assert (Hfound : match failures w with
                   | Some _ :: _ => None
                   | _ => head (preferences w)
                   end = head (preferences w)).
  { destruct (failures w) as [|[description|] rest] eqn:Hf; try reflexivity.
    exfalso. apply (Hfails 0%nat description); [lia|]. reflexivity. }
  rewrite Hfound.
  destruct (preferences w) as [|manager others] eqn:Hp; [contradiction|].
  cbn [head]. unfold connection_status, gets.
  cbn [status set_failures emit]. rewrite Hactive.
  intros Hstop.
  apply stopSession_trace in Hstop.
  - destruct Hstop as (d & Ht & Hcases). simpl in Ht, Hcases.
    exists (EvLoadAll :: d). split; [rewrite Ht; now rewrite <- app_assoc|].
    exact Hcases.
  - intros description. simpl.
    destruct (failures w) as [|f0 rest] eqn:Hf; simpl; [discriminate|].
    intros Hhd. apply (Hfails 1%nat description); [lia|].
    simpl. destruct rest; simpl in *; congruence.
Qed.




Lemma stop_inactive_is_noop_witness :
  stop "t2" (Scenario.device connected true [] [disconnected] [])
  = (Returned tt, emit EvLoadAll (Scenario.device connected true [] [disconnected] []))
  /\ stop "t1" (Scenario.device disconnected true [] [disconnected] [])
     = (Returned tt, emit EvLoadAll (Scenario.device disconnected true [] [disconnected] [])).
Proof.
  split.
  - apply (stop_inactive_is_noop "t2" (Scenario.device connected true [] [disconnected] [])).
    left. vm_compute. discriminate.
  - apply (stop_inactive_is_noop "t1" (Scenario.device disconnected true [] [disconnected] [])).
    right. reflexivity.
Defined.

(** *** A start that ends disconnected or invalid *)

(** C3: when the wait of [start] ends with the session disconnected or
    invalid, [start] sends the fetchLastDisconnectDetailedJsonError
    message to the extension and nothing after it; a reply that decodes to
    an error code and JSON makes it throw [detailedJsonError] with exactly
    that pair, a nil reply makes it throw [internalError], and so do a
    reply that does not decode and a send that throws. *)
Theorem start_failure_surfaces_detailed_error tunnelId name transportConfig
    w w0 manager w1 :
  start_stop_active w = (Returned tt, w0) ->
  start_tunnel tunnelId name transportConfig w0 = (Returned manager, w1) ->
  status w1 = disconnected \/ status w1 = invalid ->
  let result := start tunnelId name transportConfig w in
  trace (snd result)
  = trace w1 ++ [EvSendProviderMessage "fetchLastDisconnectDetailedJsonError"]
  /\ (forall response lastError rest,
        responses w1 = Reply (Some response) :: rest ->
        decode_LastErrorIPCData response = Some lastError ->
        fst result
        = Thrown (detailedJsonError (errorCode lastError) (errorJson lastError)))
  /\ (forall rest,
        responses w1 = Reply None :: rest ->
        fst result = Thrown (internalError "unexpected nil disconnect error"))
  /\ (forall response rest,
        responses w1 = Reply (Some response) :: rest ->
        decode_LastErrorIPCData response = None ->
        exists message, fst result = Thrown (internalError message))
  /\ (forall description rest,
        responses w1 = SendThrows description :: rest ->
        exists message, fst result = Thrown (internalError message)).
Proof.
  intros H0 H1 Hst result.
  assert (Hres : result = start_outcome manager w1).
  { subst result. unfold start, bind. now rewrite H0, H1. }
  rewrite Hres. clear Hres result H0 H1.
  destruct w1 as [prefs st obs fails notes resp tr tks dls]. simpl in Hst |- *.
  unfold start_outcome, connection_status, gets, bind,
    fetchExtensionLastDisconnectError, catch, sendProviderMessage, bind,
    event, modify, providerReply, emit, ret, throw; simpl.
  assert (Hst' : st = disconnected \/ st = invalid) by exact Hst. clear Hst.
  destruct Hst' as [-> | ->].
  all: unfold responses.
  all: destruct resp as [|[description|[response|]] rest]; simpl.
  all: try destruct (decode_LastErrorIPCData response) as [lastError|] eqn:Hdec; simpl.
  all: repeat split; intros; simplify_eq; try reflexivity; eauto.
Qed.

Lemma start_failure_surfaces_detailed_error_witness :
  let w := Scenario.fresh [connecting; invalid] [Reply (Some Scenario.remote_error)] in
  fst (start "t1" (Some "Server") "cfgA" w) = Thrown (detailedJsonError "ERR_X" "{...}").
Proof.
  intros w.
  pose proof (start_failure_surfaces_detailed_error "t1" (Some "Server") "cfgA" w
    (snd (start_stop_active w))
    (Scenario.tunnel "t1" "cfgA" false None)
    (snd (start_tunnel "t1" (Some "Server") "cfgA" (snd (start_stop_active w)))))
    as H.
  destruct H as (_ & H & _).
  - vm_compute. reflexivity.
  - vm_compute. reflexivity.
  - right. reflexivity.
  - apply (H Scenario.remote_error {| errorCode := "ERR_X"; errorJson := "{...}" |} []);
      reflexivity.
Defined.

(** *** The on-demand flag *)

Lemma setConnectVpnOnDemand_eq manager enabled w m0 others :
  failures w = [] ->
  preferences w = m0 :: others ->
  setConnectVpnOnDemand (Some manager) enabled w
  = (Returned (Some (set_isOnDemandEnabled enabled m0)),
     set_preferences (set_isOnDemandEnabled enabled m0 :: others)
       (emit (EvSave (set_isOnDemandEnabled enabled m0)) (emit EvLoad w))).
Proof.
  intros Hf Hp. destruct w as [prefs st obs fails notes resp tr tks dls].
  simpl in Hf, Hp. subst fails prefs. reflexivity.
Qed.

Lemma runTasks_returns pending w :
  fst (runTasks pending w) = Returned (stillWaiting pending).
Proof.
  revert w. induction pending as [|task rest IH]; intros w; [reflexivity|].
  cbn [runTasks stillWaiting flat_map]. destruct (task_delay task) as [|delay].
  - unfold bind.
    destruct (setConnectVpnOnDemand_returns (Some (task_manager task)) true w)
      as [updated Hr].
    destruct (setConnectVpnOnDemand _ _ w) as [o w1]. simpl in Hr. subst o.
    apply IH.
  - unfold bind. specialize (IH w).
    destruct (runTasks rest w) as [o w1]. simpl in IH. subst o. reflexivity.
Qed.

(** Detached tasks that are not due leave the world alone. *)
Lemma runTasks_none_due pending w :
  Forall (fun task => task_delay task <> 0%nat) pending ->
  runTasks pending w = (Returned (stillWaiting pending), w).
Proof.
  induction 1 as [|task rest Hd _ IH]; [reflexivity|].
  cbn [runTasks stillWaiting flat_map].
  destruct (task_delay task) as [|delay]; [contradiction|].
  unfold bind. now rewrite IH.
Qed.

(** With the preference store answering, the detached tasks that run set
    the on-demand flag of the first persisted configuration, and nothing
    else. *)
Lemma runTasks_store pending w m0 others :
  failures w = [] ->
  preferences w = m0 :: others ->
  failures (snd (runTasks pending w)) = []
  /\ preferences (snd (runTasks pending w))
     = (if existsb (fun task => bool_decide (task_delay task = 0%nat)) pending
        then set_isOnDemandEnabled true m0 else m0) :: others.
Proof.
  revert w m0. induction pending as [|task rest IH]; intros w m0 Hf Hp; [now split|].
  cbn [runTasks existsb]. destruct (task_delay task) as [|delay].
  - unfold bind.
    rewrite (setConnectVpnOnDemand_eq (task_manager task) true w m0 others Hf Hp).
    destruct (IH (set_preferences (set_isOnDemandEnabled true m0 :: others)
                    (emit (EvSave (set_isOnDemandEnabled true m0)) (emit EvLoad w)))
                 (set_isOnDemandEnabled true m0) Hf eq_refl) as [IHf IHp].
    split; [exact IHf|]. rewrite IHp. cbn [orb bool_decide decide_rel].
    now destruct (existsb _ rest).
  - unfold bind. destruct (IH w m0 Hf Hp) as [IHf IHp].
    destruct (runTasks rest w) as [[waiting|e|] w1]; exact (conj IHf IHp).
Qed.

Lemma detachedTasks_eq w :
  detachedTasks w
  = (Returned tt,
     set_tasks (stillWaiting (tasks w)) (taskDelays (snd (runTasks (tasks w) w)))
       (snd (runTasks (tasks w) w))).
Proof.
  unfold detachedTasks, bind, gets, modify.
  pose proof (runTasks_returns (tasks w) w) as Hr.
  destruct (runTasks (tasks w) w) as [o w1]. simpl in Hr. now subst o.
Qed.

(** What the observer does to the world: it touches neither the
    persisted configurations nor the failure script, and it creates a
    task exactly for a session that is connecting, connected or
    reasserting and whose configuration holds a tunnel id. *)
Lemma vpnStatusChanged_eq w :
  fst (vpnStatusChanged w) = Returned tt
  /\ preferences (snd (vpnStatusChanged w)) = preferences w
  /\ failures (snd (vpnStatusChanged w)) = failures w
  /\ (isActiveSession (Some (status w)) = false ->
      tasks (snd (vpnStatusChanged w)) = tasks w
      /\ taskDelays (snd (vpnStatusChanged w)) = taskDelays w)
  /\ (forall m0 others tunnelId,
        isActiveSession (Some (status w)) = true ->
        preferences w = m0 :: others ->
        getTunnelId (Some m0) = Some tunnelId ->
        tasks (snd (vpnStatusChanged w))
        = tasks w ++ [ {| task_manager := m0; task_delay := hd 0%nat (taskDelays w) |} ]
        /\ taskDelays (snd (vpnStatusChanged w)) = tl (taskDelays w)).
Proof.
  destruct w as [prefs st obs fails notes resp tr tks dls].
  unfold vpnStatusChanged, bind, gets, connection_status, createTask, modify, event, ret.
  cbn [preferences status vpnStatusObserver tasks taskDelays failures fst snd].
  destruct prefs as [|manager others0].
  { cbn. repeat split; intros; simplify_eq; auto. }
  destruct (getTunnelId (Some manager)) as [tunnelId0|] eqn:Hid.
  2:{ cbn. repeat split; intros; simplify_eq; auto. }
  cbn.
  destruct (isActiveSession (Some st)) eqn:Hact; destruct obs; cbn;
    repeat split; intros; simplify_eq; auto.
Qed.

Lemma statusDidChange_eq s rest w :
  statusDidChange s rest w
  = let w1 := snd (vpnStatusChanged (post s rest w)) in
    let w2 := snd (runTasks (tasks w1) w1) in
    set_tasks (stillWaiting (tasks w1)) (taskDelays w2) w2.
Proof.
  unfold statusDidChange, notified, bind.
  pose proof (vpnStatusChanged_eq (post s rest w)) as (Hr & _).
  destruct (vpnStatusChanged (post s rest w)) as [o w1]. simpl in Hr. subst o.
  now rewrite detachedTasks_eq.
Qed.

Lemma stillWaiting_app l1 l2 :
  stillWaiting (l1 ++ l2) = stillWaiting l1 ++ stillWaiting l2.
Proof. apply flat_map_app. Qed.

(** A notification that finds the session in another status, no detached
    task being due: nothing is saved, and every pending task has one
    notification less to wait. *)
Lemma statusDidChange_inactive s rest w :
  isActiveSession (Some s) = false ->
  Forall (fun task => task_delay task <> 0%nat) (tasks w) ->
  preferences (statusDidChange s rest w) = preferences w
  /\ failures (statusDidChange s rest w) = failures w
  /\ tasks (statusDidChange s rest w) = stillWaiting (tasks w)
  /\ notifications (statusDidChange s rest w) = rest.
Proof.
  intros Hs Hdue. rewrite statusDidChange_eq. cbv zeta.
  destruct (vpnStatusChanged_eq (post s rest w)) as (_ & Hp & Hf & Hin & _).
  destruct (Hin Hs) as [Ht _].
  assert (Hn : notifications (snd (vpnStatusChanged (post s rest w))) = rest).
  { pose proof quiet_vpnStatusChanged as _.
    destruct w as [prefs st obs fails notes resp tr tks dls].
    unfold vpnStatusChanged, bind, gets, connection_status, createTask, modify, event,
      ret, post; cbn.
    destruct prefs as [|manager others]; [reflexivity|].
    destruct (getTunnelId (Some manager)); [|reflexivity].
    cbn. rewrite Hs. cbn. now destruct obs. }
  change (tasks (post s rest w)) with (tasks w) in Ht.
  change (preferences (post s rest w)) with (preferences w) in Hp.
  change (failures (post s rest w)) with (failures w) in Hf.
  rewrite Ht, runTasks_none_due by exact Hdue. cbn [snd].
  cbn [preferences failures tasks notifications set_tasks]. auto.
Qed.

(** A notification that finds the session connecting, connected or
    reasserting creates a task; with the preference store answering, the
    flag is set within the notification when that task or an earlier one
    is due, and otherwise the task is pending. *)
Lemma statusDidChange_active s rest w m0 others tunnelId :
  isActiveSession (Some s) = true ->
  failures w = [] ->
  preferences w = m0 :: others ->
  getTunnelId (Some m0) = Some tunnelId ->
  match hd 0%nat (taskDelays w) with
  | O => preferences (statusDidChange s rest w) = set_isOnDemandEnabled true m0 :: others
  | S delay =>
      In {| task_manager := m0; task_delay := delay |} (tasks (statusDidChange s rest w))
  end.
Proof.
  intros Hs Hf Hp Hid. rewrite statusDidChange_eq. cbv zeta.
  destruct (vpnStatusChanged_eq (post s rest w)) as (_ & Hp1 & Hf1 & _ & Hact).
  destruct (Hact m0 others tunnelId Hs Hp Hid) as [Ht _].
  change (taskDelays (post s rest w)) with (taskDelays w) in Ht.
  change (tasks (post s rest w)) with (tasks w) in Ht.
  change (preferences (post s rest w)) with (preferences w) in Hp1.
  change (failures (post s rest w)) with (failures w) in Hf1.
  rewrite Hp in Hp1. rewrite Hf in Hf1.
  destruct (hd 0%nat (taskDelays w)) as [|delay] eqn:Hd.
  - cbn [preferences set_tasks].
    destruct (runTasks_store (tasks (snd (vpnStatusChanged (post s rest w))))
                (snd (vpnStatusChanged (post s rest w))) m0 others Hf1 Hp1) as [_ Hprefs].
    rewrite Hprefs, Ht, existsb_app. cbn. now rewrite orb_true_r.
  - cbn [tasks set_tasks]. rewrite Ht, stillWaiting_app.
    apply in_or_app. right. now left.
Qed.

(** A detached task that is due sets the flag, whatever the status the
    notification reports. *)
Lemma statusDidChange_task_due s rest w m0 others task :
  failures w = [] ->
  preferences w = m0 :: others ->
  In task (tasks w) -> task_delay task = 0%nat ->
  preferences (statusDidChange s rest w) = set_isOnDemandEnabled true m0 :: others.
Proof.
  intros Hf Hp Hin Hdue. rewrite statusDidChange_eq. cbv zeta.
  destruct (vpnStatusChanged_eq (post s rest w)) as (_ & Hp1 & Hf1 & Hinact & Hact).
  change (preferences (post s rest w)) with (preferences w) in Hp1.
  change (failures (post s rest w)) with (failures w) in Hf1.
  rewrite Hp in Hp1. rewrite Hf in Hf1.
  cbn [preferences set_tasks].
  destruct (runTasks_store (tasks (snd (vpnStatusChanged (post s rest w))))
              (snd (vpnStatusChanged (post s rest w))) m0 others Hf1 Hp1) as [_ Hprefs].
  rewrite Hprefs.
  assert (Hex : existsb (fun t => bool_decide (task_delay t = 0%nat))
                  (tasks (snd (vpnStatusChanged (post s rest w)))) = true).
  { apply existsb_exists. exists task. split; [|now apply bool_decide_eq_true].
    assert (Hsub : exists extra,
               tasks (snd (vpnStatusChanged (post s rest w))) = tasks w ++ extra).
    { destruct (isActiveSession (Some s)) eqn:Hs.
      - destruct (getTunnelId (Some m0)) as [tunnelId|] eqn:Hid.
        + destruct (Hact m0 others tunnelId Hs Hp Hid) as [Ht _]. eauto.
        + exists []. rewrite app_nil_r.
          destruct w as [prefs st obs fails notes resp tr tks dls].
          simpl in Hp. subst prefs.
          unfold vpnStatusChanged, bind, gets, post. cbn. now rewrite Hid.
      - destruct (Hinact Hs) as [Ht _]. exists []. now rewrite app_nil_r. }
    destruct Hsub as [extra ->]. apply in_or_app. now left. }
  now rewrite Hex.
Qed.

Lemma stillWaiting_delays n pending :
  Forall (fun task => (S n < task_delay task)%nat) pending ->
  Forall (fun task => (n < task_delay task)%nat) (stillWaiting pending).
Proof.
  induction 1 as [|task rest Hd _ IH]; [constructor|].
  cbn [stillWaiting flat_map]. destruct (task_delay task) as [|delay]; [lia|].
  constructor; [cbn; lia|exact IH].
Qed.

(** A wait for disconnected during which every notification finds the
    session in a status that is not connecting, connected or reasserting,
    and no detached task becomes due: it is resumed by the first
    disconnected, and the persisted configurations are as they were. *)
Lemma deliver_until_disconnected before after w :
  ~ In disconnected before ->
  Forall (fun s => isActiveSession (Some s) = false) before ->
  Forall (fun task => (length before < task_delay task)%nat) (tasks w) ->
  let r := deliver (fun s => bool_decide (s = disconnected))
             (before ++ disconnected :: after) w in
  fst r = Returned tt
  /\ preferences (snd r) = preferences w
  /\ notifications (snd r) = after.
Proof.
  revert w. induction before as [|s before IH]; intros w Hnot Hall Hdue r; subst r.
  - cbn [app deliver bool_decide decide_rel]. cbn.
    destruct (statusDidChange_inactive disconnected after w eq_refl) as (Hp & _ & _ & Hn).
    { eapply Forall_impl; [exact Hdue|]. cbn. intros task. lia. }
    auto.
  - cbn [app deliver].
    assert (Hs : bool_decide (s = disconnected) = false).
    { apply bool_decide_eq_false. intros ->. apply Hnot. now left. }
    rewrite Hs. inversion Hall as [|? ? Hin Hrest]; subst.
    destruct (statusDidChange_inactive s (before ++ disconnected :: after) w Hin)
      as (Hp & _ & Ht & _).
    { eapply Forall_impl; [exact Hdue|]. cbn. intros task. lia. }
    destruct (IH (statusDidChange s (before ++ disconnected :: after) w))
      as (Hr & Hp' & Hn').
    + intros Hd. apply Hnot. now right.
    + exact Hrest.
    + rewrite Ht. apply stillWaiting_delays. exact Hdue.
    + split; [exact Hr|]. split; [now rewrite Hp'|exact Hn'].
Qed.

(** With the preference store answering, [stopSession] has saved the
    cleared flag and requested the teardown when it starts to wait. *)
Lemma stopSession_eq manager w m0 others :
  preferences w = m0 :: others ->
  failures w = [] ->
  stopSession manager w
  = deliver (fun s => bool_decide (s = disconnected)) (notifications w)
      (emit EvAddObserver
         (emit (EvStopVPNTunnel (status w))
            (set_preferences (set_isOnDemandEnabled false m0 :: others)
               (emit (EvSave (set_isOnDemandEnabled false m0))
                  (emit EvLoad (emit EvLoad w)))))).
Proof.
  intros Hp Hf. destruct w as [prefs st obs fails notes resp tr tks dls].
  simpl in Hp, Hf. subst prefs fails.
  unfold stopSession, catch, bind at 1.
  unfold loadFromPreferences, setConnectVpnOnDemand, saveToPreferences, stopVPNTunnel,
    connection_status, catch, bind, event, modify, gets, platformCall, ret, awaitStatus;
    simpl.
  match goal with |- context [deliver ?f ?l ?x] => destruct (deliver f l x) as [o w'] eqn:Hd end.
  destruct (deliver_trace _ _ _ _ _ Hd) as (d & _ & [[-> _]|(-> & _)]); reflexivity.
Qed.

(** C5, the claim as written fails.  First: an explicit stop of the
    connected tunnel "t1" during which the platform reports reasserting
    before disconnected ends with the on-demand flag set and the connect
    rule in place.  Second: with the tunnel stopped and the flag cleared, a
    mere connecting notification, no start having been called, sets the
    flag again.  Third: the task created by the connected notification
    that ends a start, run by the platform two notifications later, sets
    the flag during the following stop, after the stop has cleared it and
    with no notification but disconnecting and disconnected arriving. *)
Lemma on_demand_enabled_by_status_notification :
  (let w := Scenario.device connected true [] [reasserting; disconnected] [] in
   fst (stop "t1" w) = Returned tt
   /\ preferences (snd (stop "t1" w))
      = [Scenario.tunnel "t1" "cfgA" true (Some [NEOnDemandRuleConnect_any])])
  /\ (let w := Scenario.device disconnected false [] [] [] in
      onDemand w = Some false
      /\ preferences (statusDidChange connecting [] w)
         = [Scenario.tunnel "t1" "cfgA" true (Some [NEOnDemandRuleConnect_any])])
  /\ (let w := set_tasks [] [0; 2]%nat
                 (Scenario.fresh [connecting; connected; disconnecting; disconnected] []) in
      let w1 := snd (start "t1" (Some "Server") "cfgA" w) in
      fst (start "t1" (Some "Server") "cfgA" w) = Returned tt
      /\ notifications w1 = [disconnecting; disconnected]
      /\ fst (stop "t1" w1) = Returned tt
      /\ onDemand (snd (stop "t1" w1)) = Some true).
Proof. vm_compute. auto 8. Qed.

(** C5 (amended): provided the preference store does not fail, an
    explicit stop saves the cleared on-demand flag before it requests the
    teardown.  The flag is still cleared when the stop resolves if, among
    the notifications that arrive before the first disconnected, none
    finds the session connecting, connected or reasserting, and no
    detached task created by an earlier notification becomes due in that
    time.  Every notification that finds the session connecting,
    connected or reasserting creates a detached task, which sets the flag
    within the notification when it is due at once and is pending
    otherwise; a pending task sets the flag at the notification at which
    it becomes due, whatever status that notification reports.  A
    notification in any other status, no task being due, leaves the
    persisted configurations as they are. *)
Theorem on_demand_cleared_by_stop_set_by_notification :
  (forall manager w m0 others,
      preferences w = m0 :: others -> failures w = [] ->
      exists d,
        trace (snd (stopSession manager w))
        = trace w ++ [EvLoad; EvLoad; EvSave (set_isOnDemandEnabled false m0);
                      EvStopVPNTunnel (status w); EvAddObserver] ++ d)
  /\ (forall manager w m0 others before after,
        preferences w = m0 :: others -> failures w = [] ->
        notifications w = before ++ disconnected :: after ->
        ~ In disconnected before ->
        Forall (fun s => isActiveSession (Some s) = false) before ->
        Forall (fun task => (length before < task_delay task)%nat) (tasks w) ->
        fst (stopSession manager w) = Returned tt
        /\ notifications (snd (stopSession manager w)) = after
        /\ onDemand (snd (stopSession manager w)) = Some false)
  /\ (forall s rest w m0 others tunnelId,
        isActiveSession (Some s) = true -> failures w = [] ->
        preferences w = m0 :: others ->
        getTunnelId (Some m0) = Some tunnelId ->
        match hd 0%nat (taskDelays w) with
        | O => onDemand (statusDidChange s rest w) = Some true
        | S delay =>
            In {| task_manager := m0; task_delay := delay |}
               (tasks (statusDidChange s rest w))
        end)
  /\ (forall s rest w task,
        failures w = [] -> preferences w <> [] ->
        In task (tasks w) -> task_delay task = 0%nat ->
        onDemand (statusDidChange s rest w) = Some true)
  /\ (forall s rest w,
        isActiveSession (Some s) = false ->
        Forall (fun task => task_delay task <> 0%nat) (tasks w) ->
        preferences (statusDidChange s rest w) = preferences w).
Proof.
  split; [|split; [|split; [|split]]].
  - intros manager w m0 others Hp Hf.
    rewrite (stopSession_eq manager w m0 others Hp Hf).
    match goal with |- context [deliver ?f ?l ?x] =>
      destruct (deliver f l x) as [o w'] eqn:Hd end.
    destruct (deliver_trace _ _ _ _ _ Hd) as (d & Ht & _).
    exists d. simpl in *. rewrite Ht. now rewrite <- !app_assoc.
  - intros manager w m0 others before after Hp Hf Hn Hnot Hall Hdue.
    rewrite (stopSession_eq manager w m0 others Hp Hf), Hn.
    match goal with |- context [deliver ?f ?l ?x] =>
      destruct (deliver_until_disconnected before after x Hnot Hall Hdue)
        as (Hr & Hprefs & Hnotes) end.
    split; [exact Hr|]. split; [exact Hnotes|].
    unfold onDemand. now rewrite Hprefs.
  - intros s rest w m0 others tunnelId Hs Hf Hp Hid.
    pose proof (statusDidChange_active s rest w m0 others tunnelId Hs Hf Hp Hid) as H.
    destruct (hd 0%nat (taskDelays w)); [|exact H].
    unfold onDemand. now rewrite H.
  - intros s rest w task Hf Hp Hin Hdue.
    destruct (preferences w) as [|m0 others] eqn:Hprefs; [contradiction|].
    unfold onDemand.
    now rewrite (statusDidChange_task_due s rest w m0 others task Hf Hprefs Hin Hdue).
  - intros s rest w Hs Hdue. now apply statusDidChange_inactive.
Qed.

Lemma on_demand_cleared_by_stop_set_by_notification_witness :
  (let w := Scenario.device connected true []
              [disconnecting; disconnected; connecting; connected] [] in
   fst (stopSession (Scenario.tunnel "t1" "cfgA" true None) w) = Returned tt
   /\ notifications (snd (stopSession (Scenario.tunnel "t1" "cfgA" true None) w))
      = [connecting; connected]
   /\ onDemand (snd (stopSession (Scenario.tunnel "t1" "cfgA" true None) w)) = Some false)
  /\ (let w := Scenario.device disconnected false [] [] [] in
      onDemand (statusDidChange connected [] w) = Some true)
  /\ (let w := set_tasks [ {| task_manager := Scenario.tunnel "t1" "cfgA" true None;
                              task_delay := 0 |} ] []
                 (Scenario.device disconnected false [] [] []) in
      onDemand (statusDidChange disconnected [] w) = Some true)
  /\ (let w := Scenario.device connected true [] [] [] in
      preferences (statusDidChange disconnecting [] w) = preferences w).
Proof.
  destruct on_demand_cleared_by_stop_set_by_notification
    as (_ & Hstop & Hset & Hdue & Hkeep).
  split; [|split; [|split]].
  - intros w.
    apply (Hstop (Scenario.tunnel "t1" "cfgA" true None) w
             (Scenario.tunnel "t1" "cfgA" true (Some [NEOnDemandRuleConnect_any])) []
             [disconnecting] [connecting; connected]); try reflexivity.
    + intros [H|[]]. discriminate H.
    + repeat constructor.
    + constructor.
  - intros w.
    apply (Hset connected [] w
             (Scenario.tunnel "t1" "cfgA" false (Some [NEOnDemandRuleConnect_any])) [] "t1");
      reflexivity.
  - intros w.
    apply (Hdue disconnected [] w
             {| task_manager := Scenario.tunnel "t1" "cfgA" true None; task_delay := 0 |});
      [reflexivity|discriminate|now left|reflexivity].
  - intros w. apply (Hkeep disconnecting [] w); [reflexivity|constructor].
Defined.

(** *** End to end *)

(** A platform that reports connected lets [start] succeed and leaves the
    tunnel active; a following [stop], the platform reporting
    disconnected, returns and leaves it inactive, with the connect rule
    still installed and, the detached tasks having run within their
    notifications, the on-demand flag cleared. *)
Example start_then_stop :
  let w := Scenario.fresh [connecting; connected; disconnecting; disconnected] [] in
  let w1 := snd (start "t1" (Some "Server") "cfgA" w) in
  let w2 := snd (stop "t1" w1) in
  fst (start "t1" (Some "Server") "cfgA" w) = Returned tt
  /\ fst (isActive (Some "t1") w1) = Returned true
  /\ fst (stop "t1" w1) = Returned tt
  /\ fst (isActive (Some "t1") w2) = Returned false
  /\ preferences w2
     = [Scenario.tunnel "t1" "cfgA" false (Some [NEOnDemandRuleConnect_any])].
Proof. vm_compute. auto 6. Qed.

(** With no terminal status ever posted, [start] stays suspended after
    its start request. *)
Example start_without_terminal_status_hangs :
  let w := Scenario.fresh [connecting] [] in
  fst (start "t1" (Some "Server") "cfgA" w) = Suspended
  /\ tunnel_events (trace (snd (start "t1" (Some "Server") "cfgA" w)))
     = [EvStartTunnel invalid].
Proof. vm_compute. auto. Qed.

(** *** What a computation keeps, and what it throws *)

Lemma keeps_ret P {A} (a : A) : Keeps P (ret a).
Proof. now intros w o w' [= <- <-]. Qed.

Lemma keeps_throw P {A} e : Keeps P (@throw A e).
Proof. now intros w o w' [= <- <-]. Qed.

Lemma keeps_gets P {A} (f : World -> A) : Keeps P (gets f).
Proof. now intros w o w' [= <- <-]. Qed.

Lemma keeps_modify P f :
  (forall w, preferences (f w) = preferences w) -> Keeps P (modify f).
Proof. intros Hf w o w' [= <- <-]. now rewrite Hf. Qed.

Lemma keeps_event P ev : Keeps P (event ev).
Proof. now apply keeps_modify. Qed.

Lemma keeps_platformCall P : Keeps P platformCall.
Proof.
  intros w o w'. unfold platformCall.
  destruct (failures w) as [|[d|] rest]; now intros [= <- <-].
Qed.

Lemma keeps_providerReply P : Keeps P providerReply.
Proof.
  intros w o w'. unfold providerReply.
  destruct (responses w) as [|[d|data] rest]; now intros [= <- <-].
Qed.

Lemma keeps_bind P {A B} (m : M A) (k : A -> M B) :
  Keeps P m -> (forall a, Keeps P (k a)) -> Keeps P (bind m k).
Proof.
  intros Hm Hk w o w'. unfold bind.
  destruct (m w) as [[a|e|] w1] eqn:Hmw; intros Hr HP.
  - eapply Hk; [eassumption|]. eapply Hm; eassumption.
  - injection Hr as <- <-. eapply Hm; eassumption.
  - injection Hr as <- <-. eapply Hm; eassumption.
Qed.

Lemma keeps_catch P {A} (m : M A) (h : Error -> M A) :
  Keeps P m -> (forall e, Keeps P (h e)) -> Keeps P (catch m h).
Proof.
  intros Hm Hh w o w'. unfold catch.
  destruct (m w) as [[a|e|] w1] eqn:Hmw; intros Hr HP.
  - injection Hr as <- <-. eapply Hm; eassumption.
  - eapply Hh; [eassumption|]. eapply Hm; eassumption.
  - injection Hr as <- <-. eapply Hm; eassumption.
Qed.

Create HintDb keeps.
#[local] Hint Resolve keeps_ret keeps_throw keeps_gets keeps_event keeps_platformCall
  keeps_providerReply : keeps.

Ltac keeps_step :=
  first
    [ apply keeps_bind; [|intros ?]
    | apply keeps_catch; [|intros ?]
    | apply keeps_modify; intros ?; reflexivity
    | solve [auto with keeps]
    | case_match ].

Ltac keeps := repeat keeps_step.

Lemma keeps_loadAllFromPreferences P : Keeps P loadAllFromPreferences.
Proof. unfold loadAllFromPreferences. keeps. Qed.

Lemma keeps_loadFromPreferences P manager : Keeps P (loadFromPreferences manager).
Proof. unfold loadFromPreferences. keeps. Qed.

Lemma keeps_getTunnelManager P : Keeps P getTunnelManager.
Proof. unfold getTunnelManager, loadAllFromPreferences. keeps. Qed.

Lemma keeps_fetchExtensionLastDisconnectError P :
  Keeps P fetchExtensionLastDisconnectError.
Proof. unfold fetchExtensionLastDisconnectError, sendProviderMessage. keeps. Qed.

#[local] Hint Resolve keeps_loadAllFromPreferences keeps_loadFromPreferences
  keeps_getTunnelManager keeps_fetchExtensionLastDisconnectError : keeps.

Lemma keeps_setConnectVpnOnDemand P manager enabled :
  Stable P -> Keeps P (setConnectVpnOnDemand manager enabled).
Proof.
  intros [Hnil Hflag]. destruct manager as [m|]; [|apply keeps_ret].
  intros w o w'. destruct w as [prefs st obs fails notes resp tr tks dls].
  unfold setConnectVpnOnDemand, catch, bind, loadFromPreferences, saveToPreferences,
    bind, event, modify, gets, platformCall, ret; simpl.
  destruct prefs as [|first others]; [intros _ HP; now destruct (Hnil HP)|].
  destruct fails as [|[d1|] [|[d2|] rest]]; simpl; intros [= <- <-]; simpl; auto.
Qed.

Lemma keeps_vpnStatusChanged P : Stable P -> Keeps P vpnStatusChanged.
Proof.
  intros HP. unfold vpnStatusChanged, connection_status.
  repeat first [ apply keeps_setConnectVpnOnDemand; assumption | keeps_step ].
Qed.

Lemma keeps_runTasks P pending : Stable P -> Keeps P (runTasks pending).
Proof.
  intros HS. induction pending as [|task rest IH]; cbn [runTasks]; [apply keeps_ret|].
  destruct (task_delay task).
  - apply keeps_bind; [|intros _; exact IH].
    exact (keeps_setConnectVpnOnDemand P (Some (task_manager task)) true HS).
  - apply keeps_bind; [exact IH|]. intros waiting. apply keeps_ret.
Qed.

Lemma keeps_notified P : Stable P -> Keeps P notified.
Proof.
  intros HS. unfold notified, detachedTasks.
  apply keeps_bind; [now apply keeps_vpnStatusChanged|]. intros _.
  apply keeps_bind; [apply keeps_gets|]. intros pending.
  apply keeps_bind; [now apply keeps_runTasks|]. intros waiting.
  apply keeps_modify. reflexivity.
Qed.

Lemma statusDidChange_keeps P s rest w :
  Stable P -> P (preferences w) -> P (preferences (statusDidChange s rest w)).
Proof.
  intros HS HP. unfold statusDidChange.
  destruct (notified (post s rest w)) as [o w'] eqn:Hv.
  exact (keeps_notified P HS _ _ _ Hv HP).
Qed.

Lemma keeps_awaitStatus P done : Stable P -> Keeps P (awaitStatus done).
Proof.
  intros HS w o w'. unfold awaitStatus. generalize (notifications w) as pending.
  intros pending. revert w. induction pending as [|s rest IH]; intros w; simpl.
  - now intros [= <- <-].
  - destruct (done s).
    + intros [= <- <-] HP. cbn [preferences emit]. now apply statusDidChange_keeps.
    + intros Hr HP. eapply IH; [eassumption|]. now apply statusDidChange_keeps.
Qed.

Lemma keeps_stopSession P manager : Stable P -> Keeps P (stopSession manager).
Proof.
  intros HS. unfold stopSession, stopVPNTunnel, connection_status.
  repeat first [ apply keeps_setConnectVpnOnDemand; assumption
               | apply keeps_awaitStatus; assumption
               | keeps_step ].
Qed.

Lemma throws_bind Q {A B} (m : M A) (k : A -> M B) :
  ThrowsOnly Q m -> (forall a, ThrowsOnly Q (k a)) -> ThrowsOnly Q (bind m k).
Proof.
  intros Hm Hk w e w'. unfold bind.
  destruct (m w) as [[a|e0|] w1] eqn:Hmw; intros Hr.
  - eapply Hk; eassumption.
  - injection Hr as <- <-. eapply Hm; eassumption.
  - discriminate.
Qed.

Lemma throws_catch Q {A} (m : M A) (h : Error -> M A) :
  (forall e, ThrowsOnly Q (h e)) -> ThrowsOnly Q (catch m h).
Proof.
  intros Hh w e w'. unfold catch.
  destruct (m w) as [[a|e0|] w1] eqn:Hmw; intros Hr; try discriminate.
  eapply (Hh e0); eassumption.
Qed.

Lemma throws_never_ret Q {A} (a : A) : ThrowsOnly Q (ret a).
Proof. intros w e w'. discriminate. Qed.

Lemma throws_never_gets Q {A} (f : World -> A) : ThrowsOnly Q (gets f).
Proof. intros w e w'. discriminate. Qed.

Lemma throws_never_modify Q f : ThrowsOnly Q (modify f).
Proof. intros w e w'. discriminate. Qed.

Lemma throws_throw (Q : Error -> Prop) {A} e : Q e -> ThrowsOnly Q (@throw A e).
Proof. now intros HQ w e' w' [= <- <-]. Qed.

Lemma throws_never_awaitStatus Q done : ThrowsOnly Q (awaitStatus done).
Proof.
  intros w e w' Hr. unfold awaitStatus in Hr.
  destruct (deliver_trace _ _ _ _ _ Hr) as (d & _ & [[? _]|[? _]]); discriminate.
Qed.

Lemma throws_never_getTunnelManager Q : ThrowsOnly Q getTunnelManager.
Proof.
  unfold getTunnelManager. apply throws_catch. intros. apply throws_never_ret.
Qed.

Lemma throws_never_stopSession Q manager : ThrowsOnly Q (stopSession manager).
Proof.
  unfold stopSession. apply throws_catch. intros. apply throws_never_ret.
Qed.

Lemma throws_never_start_stop_active Q : ThrowsOnly Q start_stop_active.
Proof.
  unfold start_stop_active. apply throws_bind; [apply throws_never_getTunnelManager|].
  intros [manager|]; [|apply throws_never_ret].
  apply throws_bind; [apply throws_never_gets|].
  intros st. destruct (isActiveSession (Some st));
    [apply throws_never_stopSession|apply throws_never_ret].
Qed.

(** *** Stopping *)

(** X4: when the preference store answers, a [stop] that has returned
    leaves the tunnel inactive: [isActive] with the same id is false right
    after, whether the stop had anything to do or not. *)
Theorem stop_then_isActive_false tunnelId w w' :
  (forall i description, (i < 2)%nat -> failures w !! i <> Some (Some description)) ->
  stop tunnelId w = (Returned tt, w') ->
  fst (isActive (Some tunnelId) w') = Returned false.
Proof.
  intros Hfails Hstop.
  assert (Hfact : isActiveSession (Some (status w')) = false
                  \/ getTunnelId (head (preferences w')) <> Some tunnelId).
  { revert Hstop. unfold stop, bind. rewrite getTunnelManager_eq.
    assert (Hfound : match failures w with
                     | Some _ :: _ => None
                     | _ => head (preferences w)
                     end = head (preferences w)).
    { destruct (failures w) as [|[description|] rest] eqn:Hf; try reflexivity.
      exfalso. apply (Hfails 0%nat description); [lia|]. reflexivity. }
    rewrite Hfound.
    destruct (preferences w) as [|manager others] eqn:Hp; cbn [head].
    { intros [= <-]. right. simpl. rewrite Hp. discriminate. }
    destruct (bool_decide (getTunnelId (Some manager) = Some tunnelId)) eqn:Hid.
    2:{ intros [= <-]. right. simpl. rewrite Hp. cbn [head].
        now apply bool_decide_eq_false in Hid. }
    unfold connection_status, gets. cbn [status set_failures emit].
    destruct (isActiveSession (Some (status w))) eqn:Hact.
    2:{ intros [= <-]. left. exact Hact. }
    intros Hsess. apply stopSession_trace in Hsess.
    - destruct Hsess as (d & _ & [[? _]|(_ & Hs & _)]); [discriminate|].
      left. now rewrite Hs.
    - intros description. simpl.
      destruct (failures w) as [|f0 rest] eqn:Hf; simpl; [discriminate|].
      intros Hhd. apply (Hfails 1%nat description); [lia|].
      simpl. destruct rest; simpl in *; congruence. }
  rewrite isActive_eq. cbn [fst]. f_equal.
  destruct (failures w') as [|[description|] rest]; try reflexivity.
  all: destruct (preferences w') as [|manager others]; cbn [head] in *; try reflexivity.
  all: destruct Hfact as [-> | Hne]; [apply andb_false_r|].
  all: apply andb_false_iff; left; now apply bool_decide_eq_false.
Qed.

Lemma stop_then_isActive_false_witness :
  let w := Scenario.device connected true [] [disconnecting; disconnected] [] in
  fst (isActive (Some "t1") w) = Returned true
  /\ fst (isActive (Some "t1") (snd (stop "t1" w))) = Returned false.
Proof.
  intros w. split; [vm_compute; reflexivity|].
  apply (stop_then_isActive_false "t1" w).
  - intros i description _. destruct i; discriminate.
  - vm_compute. reflexivity.
Defined.

(** X5: [stopActiveVpn] asks no question about id or status.  Whenever a
    tunnel manager is retrieved and its reload does not throw, it requests
    the teardown, also of a session that is not active, and it returns only
    once a notification has found the session disconnected; without such a
    notification it stays suspended. *)
Theorem stopActiveVpn_waits_for_disconnected w o w' :
  preferences w <> [] ->
  (forall i description, (i < 2)%nat -> failures w !! i <> Some (Some description)) ->
  stopActiveVpn w = (o, w') ->
  exists d, trace w' = trace w ++ d
    /\ ((o = Suspended /\ tunnel_events d = [EvStopVPNTunnel (status w)])
        \/ (o = Returned tt /\ status w' = disconnected
            /\ tunnel_events d = [EvStopVPNTunnel (status w); EvResume disconnected])).
Proof.
  intros Hprefs Hfails.
  unfold stopActiveVpn, bind. rewrite getTunnelManager_eq.
  assert (Hfound : match failures w with
                   | Some _ :: _ => None
                   | _ => head (preferences w)
                   end = head (preferences w)).
  { destruct (failures w) as [|[description|] rest] eqn:Hf; try reflexivity.
    exfalso. apply (Hfails 0%nat description); [lia|]. reflexivity. }
  rewrite Hfound.
  destruct (preferences w) as [|manager others] eqn:Hp; [contradiction|].
  cbn [head]. intros Hstop.
  apply stopSession_trace in Hstop.
  - destruct Hstop as (d & Ht & Hcases). simpl in Ht, Hcases.
    exists (EvLoadAll :: d). split; [rewrite Ht; now rewrite <- app_assoc|].
    exact Hcases.
  - intros description. simpl.
    destruct (failures w) as [|f0 rest] eqn:Hf; simpl; [discriminate|].
    intros Hhd. apply (Hfails 1%nat description); [lia|].
    simpl. destruct rest; simpl in *; congruence.
Qed.

Lemma stopActiveVpn_waits_for_disconnected_witness :
  let w := Scenario.device disconnected false [] [] [] in
  fst (stop "t1" w) = Returned tt
  /\ fst (stopActiveVpn w) = Suspended
  /\ tunnel_events (trace (snd (stopActiveVpn w))) = [EvStopVPNTunnel disconnected].
Proof.
  intros w. split; [vm_compute; reflexivity|].
  destruct (stopActiveVpn w) as [o w'] eqn:Hs.
  destruct (stopActiveVpn_waits_for_disconnected w o w') as (d & Ht & Hcases).
  - discriminate.
  - intros i description _. destruct i; discriminate.
  - exact Hs.
  - assert (Ho : o = Suspended) by (vm_compute in Hs; congruence).
    destruct Hcases as [[_ Hq]|(Hr & _)]; [|congruence].
    split; [exact Ho|]. simpl. rewrite Ht. exact Hq.
Defined.

(** *** What a start leaves behind *)

Lemma getTunnelId_set_isOnDemandEnabled b m :
  getTunnelId (Some (set_isOnDemandEnabled b m)) = getTunnelId (Some m).
Proof. reflexivity. Qed.

Lemma getTunnelId_set_onDemandRules rules m :
  getTunnelId (Some (set_onDemandRules rules m)) = getTunnelId (Some m).
Proof. reflexivity. Qed.

(** The first persisted configuration carries the tunnel id and has no
    on-demand rule. *)
Lemma configured_stable tunnelId :
  Stable (fun prefs => getTunnelId (head prefs) = Some tunnelId).
Proof.
  split; [discriminate|]. intros m rest b. cbn [head].
  now rewrite getTunnelId_set_isOnDemandEnabled.
Qed.

Lemma no_rules_stable :
  Stable (fun prefs => onDemandRules <$> head prefs = Some None).
Proof. split; [discriminate|]. now intros m rest b. Qed.

(** [setupVpn], when it returns: the manager handed back is the first
    persisted configuration, it carries the id, and its rules are nil. *)
Lemma setupVpn_returned id name transportConfig w manager w' :
  setupVpn id name transportConfig w = (Returned manager, w') ->
  getTunnelId (Some manager) = Some id
  /\ onDemandRules manager = None
  /\ head (preferences w') = Some manager.
Proof.
  destruct w as [prefs st obs fails notes resp tr tks dls].
  unfold setupVpn, loadAllFromPreferences, saveToPreferences, loadFromPreferences,
    bind, event, modify, gets, platformCall; simpl.
  destruct fails as [|[d1|] [|[d2|] [|[d3|] rest]]]; simpl; intros [= <- <-]; simpl.
  all: repeat split.
  all: unfold getTunnelId; simpl; now rewrite lookup_insert_eq.
Qed.

Lemma start_tunnel_configured tunnelId name transportConfig w o w' :
  start_tunnel tunnelId name transportConfig w = (o, w') ->
  match o with
  | Returned manager =>
      getTunnelId (Some manager) = Some tunnelId
      /\ getTunnelId (head (preferences w')) = Some tunnelId
      /\ onDemandRules <$> head (preferences w') = Some None
  | Thrown e =>
      (exists cause, e = vpnPermissionNotGranted cause)
      \/ ((exists cause, e = setupSystemVPNFailed cause)
          /\ getTunnelId (head (preferences w')) = Some tunnelId
          /\ onDemandRules <$> head (preferences w') = Some None)
  | Suspended => True
  end.
Proof.
  unfold start_tunnel, bind at 1. unfold catch at 1.
  destruct (setupVpn tunnelId (default "Outline Server" name) transportConfig w)
    as [[manager|e|] w1] eqn:H1.
  2:{ unfold throw. intros [= <- <-]. left. eauto. }
  2:{ now intros [= <- <-]. }
  destruct (setupVpn_returned _ _ _ _ _ _ H1) as (Hid & Hrules & Hhead).
  assert (Hid1 : getTunnelId (head (preferences w1)) = Some tunnelId)
    by now rewrite Hhead.
  assert (Hrules1 : onDemandRules <$> head (preferences w1) = Some None)
    by (rewrite Hhead; simpl; now rewrite Hrules).
  unfold bind at 1. unfold event, modify.
  unfold bind at 1. unfold catch at 1.
  destruct (startTunnel (emit EvAddObserver w1)) as [[[]|e|] w2] eqn:H2.
  2:{ unfold throw. intros [= <- <-]. right.
      assert (Hk : forall P, Keeps P startTunnel)
        by (intros P; unfold startTunnel, connection_status; keeps).
      split; [eauto|]. split.
      - exact (Hk (fun prefs => getTunnelId (head prefs) = Some tunnelId) _ _ _ H2 Hid1).
      - exact (Hk (fun prefs => onDemandRules <$> head prefs = Some None) _ _ _ H2 Hrules1). }
  2:{ now intros [= <- <-]. }
  assert (Hk : forall P, Keeps P startTunnel)
    by (intros P; unfold startTunnel, connection_status; keeps).
  pose proof (Hk (fun prefs => getTunnelId (head prefs) = Some tunnelId) _ _ _ H2 Hid1)
    as Hid2.
  pose proof (Hk (fun prefs => onDemandRules <$> head prefs = Some None) _ _ _ H2 Hrules1)
    as Hrules2.
  unfold bind.
  destruct (awaitStatus start_done w2) as [[[]|e|] w3] eqn:H3; intros [= <- <-];
    try exact I.
  - split; [exact Hid|]. split.
    + exact (keeps_awaitStatus _ _ (configured_stable tunnelId) _ _ _ H3 Hid2).
    + exact (keeps_awaitStatus _ _ no_rules_stable _ _ _ H3 Hrules2).
  - exfalso. exact (throws_never_awaitStatus (fun _ => False) _ _ _ _ H3).
Qed.

(** What [fetchExtensionLastDisconnectError] hands back is never a raw
    platform error. *)
Lemma fetchExtensionLastDisconnectError_returned w e w' :
  fetchExtensionLastDisconnectError w = (Returned (Some e), w') ->
  (exists message, e = internalError message)
  \/ (exists code json, e = detailedJsonError code json).
Proof.
  destruct w as [prefs st obs fails notes resp tr tks dls].
  unfold fetchExtensionLastDisconnectError, catch, sendProviderMessage, bind, event,
    modify, providerReply, ret, throw; simpl.
  destruct resp as [|[description|[response|]] rest]; simpl; try discriminate.
  - intros [= <- <-]. left. eauto.
  - destruct (decode_LastErrorIPCData response); simpl; intros [= <- <-]; eauto.
Qed.

(** When [start] throws past its [switch], the persisted configurations
    are as they were when the wait ended, and the error is an internal or
    a detailed one. *)
Lemma bind_thrown_inv {A B} (m : M A) (k : A -> M B) w e w' :
  bind m k w = (Thrown e, w') ->
  m w = (Thrown e, w')
  \/ exists a w1, m w = (Returned a, w1) /\ k a w1 = (Thrown e, w').
Proof.
  unfold bind. destruct (m w) as [[a|e0|] w1]; intros H.
  - right. eauto.
  - left. now injection H as <- <-.
  - discriminate.
Qed.

Lemma start_outcome_thrown manager w e w' :
  start_outcome manager w = (Thrown e, w') ->
  preferences w' = preferences w
  /\ ((exists message, e = internalError message)
      \/ (exists code json, e = detailedJsonError code json)).
Proof.
  unfold start_outcome. intros H.
  apply bind_thrown_inv in H as [H|(st & w0 & Hst & H)]; [discriminate|].
  injection Hst as <- <-.
  apply bind_thrown_inv in H as [H|(u & w1 & _ & H)].
  2:{ exfalso. revert H. apply (throws_bind (fun _ => False)).
      - apply throws_catch. intros. apply throws_never_ret.
      - intros a. apply throws_catch. intros. apply throws_never_ret. }
  assert (Hfetch :
    (let* err := fetchExtensionLastDisconnectError in
     match err with
     | Some err => throw err
     | None => throw (internalError "unexpected nil disconnect error")
     end : M unit) w = (Thrown e, w') ->
    preferences w' = preferences w
    /\ ((exists message, e = internalError message)
        \/ (exists code json, e = detailedJsonError code json))).
  { clear H. intros H.
    apply bind_thrown_inv in H as [H|(err & w1 & Hf & H)].
    - exfalso. revert H. unfold fetchExtensionLastDisconnectError.
      apply (throws_catch (fun _ => False)). intros. apply throws_never_ret.
    - assert (Hp : preferences w1 = preferences w)
        by exact (keeps_fetchExtensionLastDisconnectError
                    (fun p => p = preferences w) _ _ _ Hf eq_refl).
      destruct err as [err|]; injection H as <- <-.
      + split; [exact Hp|].
        eapply fetchExtensionLastDisconnectError_returned. exact Hf.
      + split; [exact Hp|]. left. eauto. }
  destruct (status w); try discriminate; try (now apply Hfetch).
  all: injection H as <- <-; split; [reflexivity|left; eauto].
Qed.

Lemma start_outcome_returned_keeps_id tunnelId manager w w' :
  start_outcome manager w = (Returned tt, w') ->
  getTunnelId (Some manager) = Some tunnelId ->
  getTunnelId (head (preferences w)) = Some tunnelId ->
  getTunnelId (head (preferences w')) = Some tunnelId.
Proof.
  intros H Hm Hp.
  pose proof (start_outcome_returned _ _ _ H) as Hst.
  revert H. destruct w as [prefs st obs fails notes resp tr tks dls]. simpl in Hst, Hp. subst st.
  unfold start_outcome, bind, connection_status, gets, catch, loadFromPreferences,
    saveToPreferences, bind, event, modify, gets, platformCall, ret; simpl.
  destruct prefs as [|first others]; [discriminate|]. cbn [head] in Hp.
  destruct fails as [|[d1|] [|[d2|] rest]]; simpl; intros [= <-]; simpl;
    rewrite ?getTunnelId_set_onDemandRules; assumption.
Qed.

(** X6: a [start] that returns has brought the session to connected with
    the tunnel id in the first persisted configuration, so that [isActive]
    with that id is true right after (when the load behind it does not
    throw). *)
Theorem start_returned_then_isActive tunnelId name transportConfig w w' :
  start tunnelId name transportConfig w = (Returned tt, w') ->
  status w' = connected
  /\ getTunnelId (head (preferences w')) = Some tunnelId
  /\ ((forall description, head (failures w') <> Some (Some description)) ->
      fst (isActive (Some tunnelId) w') = Returned true).
Proof.
  intros H.
  assert (Hstart : start tunnelId name transportConfig w
    = match start_stop_active w with
      | (Returned _, w1) =>
          match start_tunnel tunnelId name transportConfig w1 with
          | (Returned a, w2) => start_outcome a w2
          | (Thrown e, w2) => (Thrown e, w2)
          | (Suspended, w2) => (Suspended, w2)
          end
      | (Thrown e, w1) => (Thrown e, w1)
      | (Suspended, w1) => (Suspended, w1)
      end) by reflexivity.
  rewrite Hstart in H. clear Hstart.
  destruct (start_stop_active w) as [[[]|e|] w1]; try discriminate.
  destruct (start_tunnel tunnelId name transportConfig w1) as [[manager|e|] w2] eqn:H2;
    try discriminate.
  pose proof (start_tunnel_configured _ _ _ _ _ _ H2) as (Hm & Hid & _).
  pose proof (start_outcome_returned _ _ _ H) as Hst.
  destruct (quiet_start_outcome _ _ _ _ H) as (Hs & _).
  pose proof (start_outcome_returned_keeps_id _ _ _ _ H Hm Hid) as Hid'.
  assert (Hconn : status w' = connected) by congruence.
  split; [exact Hconn|]. split; [exact Hid'|].
  intros Hload. rewrite isActive_eq. cbn [fst]. f_equal.
  assert (Hfound : match failures w' with
                   | Some _ :: _ => None
                   | _ => head (preferences w')
                   end = head (preferences w')).
  { destruct (failures w') as [|[description|] rest] eqn:Hf; try reflexivity.
    now destruct (Hload description). }
  rewrite Hfound.
  destruct (preferences w') as [|first others]; [discriminate|]. cbn [head] in *.
  rewrite Hconn. apply andb_true_iff. split; [|reflexivity].
  now apply bool_decide_eq_true.
Qed.

Lemma start_returned_then_isActive_witness :
  let w := Scenario.fresh [connecting; connected] [] in
  fst (isActive (Some "t1") (snd (start "t1" (Some "Server") "cfgA" w))) = Returned true.
Proof.
  intros w.
  destruct (start_returned_then_isActive "t1" (Some "Server") "cfgA" w
              (snd (start "t1" (Some "Server") "cfgA" w))) as (_ & _ & H).
  - vm_compute. reflexivity.
  - apply H. intros description. vm_compute. discriminate.
Defined.

(** X7: [start] never lets a raw platform error through.  Whatever it
    throws is vpnPermissionNotGranted (the setup failed),
    setupSystemVPNFailed (the start request was refused), internalError or
    detailedJsonError; and unless the setup itself failed, the configuration
    it leaves behind carries the tunnel id and has its on-demand rules
    cleared, so that a failed start is not retried on demand. *)
Theorem start_throws_outline_errors tunnelId name transportConfig w e w' :
  start tunnelId name transportConfig w = (Thrown e, w') ->
  (exists cause, e = vpnPermissionNotGranted cause)
  \/ (((exists cause, e = setupSystemVPNFailed cause)
       \/ (exists message, e = internalError message)
       \/ (exists code json, e = detailedJsonError code json))
      /\ getTunnelId (head (preferences w')) = Some tunnelId
      /\ onDemandRules <$> head (preferences w') = Some None).
Proof.
  intros H.
  assert (Hstart : start tunnelId name transportConfig w
    = match start_stop_active w with
      | (Returned _, w1) =>
          match start_tunnel tunnelId name transportConfig w1 with
          | (Returned a, w2) => start_outcome a w2
          | (Thrown e, w2) => (Thrown e, w2)
          | (Suspended, w2) => (Suspended, w2)
          end
      | (Thrown e, w1) => (Thrown e, w1)
      | (Suspended, w1) => (Suspended, w1)
      end) by reflexivity.
  rewrite Hstart in H. clear Hstart.
  destruct (start_stop_active w) as [[[]|e1|] w1] eqn:H1; try discriminate.
  2:{ exfalso. exact (throws_never_start_stop_active (fun _ => False) _ _ _ H1). }
  destruct (start_tunnel tunnelId name transportConfig w1) as [[manager|e2|] w2] eqn:H2;
    try discriminate.
  - pose proof (start_tunnel_configured _ _ _ _ _ _ H2) as (_ & Hid & Hrules).
    destruct (start_outcome_thrown _ _ _ _ H) as (Hp & He).
    right. rewrite Hp. split; [right; exact He|]. split; assumption.
  - injection H as <- <-.
    pose proof (start_tunnel_configured _ _ _ _ _ _ H2) as [Hperm|(Hsys & Hid & Hrules)].
    + left. exact Hperm.
    + right. split; [left; exact Hsys|]. split; assumption.
Qed.

Lemma start_throws_outline_errors_witness :
  let w := Scenario.device disconnected true [None; None; None; None; Some "refused"] [] [] in
  fst (start "t2" None "cfgB" w) = Thrown (setupSystemVPNFailed "refused")
  /\ onDemandRules <$> head (preferences (snd (start "t2" None "cfgB" w))) = Some None.
Proof.
  intros w.
  assert (Hr : start "t2" None "cfgB" w
               = (Thrown (setupSystemVPNFailed "refused"), snd (start "t2" None "cfgB" w)))
    by (vm_compute; reflexivity).
  split; [now rewrite Hr|].
  destruct (start_throws_outline_errors "t2" None "cfgB" w _ _ Hr)
    as [[cause Hc]|(_ & _ & Hrules)]; [discriminate|exact Hrules].
Defined.

(** *** The comprehensive test *)

(** X8: when a tunnel manager is retrieved, that is, when a configuration
    is persisted and the load of the managers does not throw, the
    comprehensive test talks to the extension through it and leaves the
    persisted configurations alone, whatever the extension answers: the
    only requests are the load of the managers and the one provider
    message "comprehensiveTest:" followed by the transport configuration.
    (When the load throws, no manager is retrieved even if one is
    persisted, and the test runs on a temporary configuration.) *)
Theorem comprehensive_test_reuses_manager uuid transportConfig w o w' :
  preferences w <> [] ->
  (forall description, head (failures w) <> Some (Some description)) ->
  performComprehensiveTest uuid transportConfig w = (o, w') ->
  preferences w' = preferences w
  /\ trace w' = trace w ++ [EvLoadAll;
                            EvSendProviderMessage ("comprehensiveTest:" +:+ transportConfig)].
Proof.
  intros Hp Hload. unfold performComprehensiveTest, bind at 1.
  rewrite getTunnelManager_eq.
  assert (Hfound : match failures w with
                   | Some _ :: _ => None
                   | _ => head (preferences w)
                   end = head (preferences w)).
  { destruct (failures w) as [|[description|] rest] eqn:Hf; try reflexivity.
    now destruct (Hload description). }
  rewrite Hfound. clear Hfound Hload.
  destruct w as [prefs st obs fails notes resp tr tks dls]. simpl in *.
  destruct prefs as [|manager others]; [contradiction|]. cbn [head].
  unfold bind, ret, catch, performComprehensiveTestViaExtension, sendProviderMessage,
    bind, event, modify, providerReply, throw, emit, set_failures; simpl.
  destruct resp as [|[description|[data|]] rest]; simpl.
  1,2,4: intros [= <- <-]; simpl; rewrite <- app_assoc; auto.
  destruct (decode_ComprehensiveTestResult data); simpl;
    intros [= <- <-]; simpl; rewrite <- app_assoc; auto.
Qed.

Lemma comprehensive_test_reuses_manager_witness :
  let w := Scenario.device connected true [] [] [Reply None] in
  fst (performComprehensiveTest "U" "cfgB" w)
  = Thrown (internalError "Extension test returned no data")
  /\ preferences (snd (performComprehensiveTest "U" "cfgB" w)) = preferences w.
Proof.
  intros w. split; [vm_compute; reflexivity|].
  destruct (performComprehensiveTest "U" "cfgB" w) as [o w'] eqn:H.
  destruct (comprehensive_test_reuses_manager "U" "cfgB" w o w') as [Hp _].
  - discriminate.
  - discriminate.
  - exact H.
  - exact Hp.
Defined.

(** X9: when no tunnel manager is retrieved, the test runs on a temporary
    configuration with id "test-" followed by the UUID, and, the preference
    store not failing afterwards, that configuration is removed again on
    every path on which the extension answers or the send throws: the
    persisted configurations end as they began. *)
Theorem comprehensive_test_cleans_up uuid transportConfig w o w' :
  preferences w = [] \/ (exists description, head (failures w) = Some (Some description)) ->
  tl (failures w) = [] ->
  performComprehensiveTest uuid transportConfig w = (o, w') ->
  o <> Suspended ->
  preferences w' = preferences w
  /\ trace w' = trace w ++ [EvLoadAll;
                            EvSave (test_manager uuid transportConfig);
                            EvLoad;
                            EvSendProviderMessage ("comprehensiveTest:" +:+ transportConfig)].
Proof.
  intros Hnone Htl. unfold performComprehensiveTest, bind at 1.
  rewrite getTunnelManager_eq.
  assert (Hfound : match failures w with
                   | Some _ :: _ => None
                   | _ => head (preferences w)
                   end = None).
  { destruct Hnone as [Hp|[description Hd]].
    - rewrite Hp. now destruct (failures w) as [|[?|] ?].
    - destruct (failures w) as [|[?|] ?]; simpl in Hd; congruence. }
  rewrite Hfound. clear Hfound Hnone.
  destruct w as [prefs st obs fails notes resp tr tks dls]. simpl in *. rewrite Htl.
  unfold bind, ret, catch, setupTestVpn, addToPreferences, reloadAdded,
    removeAddedFromPreferences, performComprehensiveTestViaExtension,
    sendProviderMessage, bind, event, modify, gets, platformCall, providerReply,
    throw, emit, set_failures, set_preferences, set_responses; simpl.
  destruct resp as [|[description|[data|]] rest]; simpl.
  - intros [= <- <-] Ho. now destruct Ho.
  - intros [= <- <-] _. simpl. rewrite removelast_last, <- !app_assoc. auto.
  - destruct (decode_ComprehensiveTestResult data); simpl;
      intros [= <- <-] _; simpl; rewrite removelast_last, <- !app_assoc; auto.
  - intros [= <- <-] _. simpl. rewrite removelast_last, <- !app_assoc. auto.
Qed.

Lemma comprehensive_test_cleans_up_witness :
  let w := Scenario.fresh [] [SendThrows "no extension"] in
  fst (performComprehensiveTest "U" "cfgB" w) = Thrown (systemError "no extension")
  /\ preferences (snd (performComprehensiveTest "U" "cfgB" w)) = [].
Proof.
  intros w. split; [vm_compute; reflexivity|].
  destruct (performComprehensiveTest "U" "cfgB" w) as [o w'] eqn:H.
  destruct (comprehensive_test_cleans_up "U" "cfgB" w o w') as [Hp _].
  - left. reflexivity.
  - reflexivity.
  - exact H.
  - vm_compute in H. intros ->. discriminate H.
  - exact Hp.
Defined.

Lemma plist_bool_Some p key b :
  plist_bool p key = Some b -> p !! key = Some (PBoolean b).
Proof. unfold plist_bool. destruct (p !! key) as [[| |]|]; congruence. Qed.

Lemma plist_int_Some p key z :
  plist_int p key = Some z -> p !! key = Some (PInteger z).
Proof. unfold plist_int. destruct (p !! key) as [[| |]|]; congruence. Qed.

Lemma plist_optional_string_Some p key o :
  plist_optional_string p key = Some o ->
  o = match p !! key with Some (PString s) => Some s | _ => None end.
Proof. unfold plist_optional_string. destruct (p !! key) as [[| |]|]; congruence. Qed.

Lemma decode_ComprehensiveTestResult_Some p r :
  decode_ComprehensiveTestResult (plist p) = Some r ->
  (p !! "tcpSuccess" = Some (PBoolean (tcpSuccess r))
   /\ p !! "udpSuccess" = Some (PBoolean (udpSuccess r))
   /\ p !! "connectivitySuccess" = Some (PBoolean (connectivitySuccess r))
   /\ p !! "downloadTestSuccess" = Some (PBoolean (downloadTestSuccess r))
   /\ p !! "uploadTestSuccess" = Some (PBoolean (uploadTestSuccess r)))
  /\ (p !! "downloadSpeedKBps" = Some (PInteger (downloadSpeedKBps r))
      /\ p !! "uploadSpeedKBps" = Some (PInteger (uploadSpeedKBps r))
      /\ p !! "latencyMs" = Some (PInteger (latencyMs r)))
  /\ (tcpError r = match p !! "tcpError" with Some (PString s) => Some s | _ => None end
      /\ udpError r = match p !! "udpError" with Some (PString s) => Some s | _ => None end
      /\ downloadTestError r
         = match p !! "downloadTestError" with Some (PString s) => Some s | _ => None end
      /\ uploadTestError r
         = match p !! "uploadTestError" with Some (PString s) => Some s | _ => None end).
Proof.
  intros Hdec.
  unfold decode_ComprehensiveTestResult in Hdec. cbn [mbind option_bind] in Hdec.
  destruct (plist_bool p "tcpSuccess") as [b1|] eqn:H1; [|discriminate].
  destruct (plist_bool p "udpSuccess") as [b2|] eqn:H2; [|discriminate].
  destruct (plist_bool p "connectivitySuccess") as [b3|] eqn:H3; [|discriminate].
  destruct (plist_int p "downloadSpeedKBps") as [z1|] eqn:H4; [|discriminate].
  destruct (plist_int p "uploadSpeedKBps") as [z2|] eqn:H5; [|discriminate].
  destruct (plist_int p "latencyMs") as [z3|] eqn:H6; [|discriminate].
  destruct (plist_bool p "downloadTestSuccess") as [b4|] eqn:H7; [|discriminate].
  destruct (plist_bool p "uploadTestSuccess") as [b5|] eqn:H8; [|discriminate].
  destruct (plist_optional_string p "tcpError") as [o1|] eqn:H9; [|discriminate].
  destruct (plist_optional_string p "udpError") as [o2|] eqn:H10; [|discriminate].
  destruct (plist_optional_string p "downloadTestError") as [o3|] eqn:H11;
    [|discriminate].
  destruct (plist_optional_string p "uploadTestError") as [o4|] eqn:H12;
    [|discriminate].
  injection Hdec as <-. cbn.
  apply plist_bool_Some in H1, H2, H3, H7, H8.
  apply plist_int_Some in H4, H5, H6.
  apply plist_optional_string_Some in H9, H10, H11, H12.
  repeat split; assumption.
Qed.

Lemma resultDict_lookups r :
  size (resultDict r) = 12%nat
  /\ (resultDict r !! "tcpSuccess" = Some (DBool (tcpSuccess r))
      /\ resultDict r !! "udpSuccess" = Some (DBool (udpSuccess r))
      /\ resultDict r !! "connectivitySuccess" = Some (DBool (connectivitySuccess r))
      /\ resultDict r !! "downloadTestSuccess" = Some (DBool (downloadTestSuccess r))
      /\ resultDict r !! "uploadTestSuccess" = Some (DBool (uploadTestSuccess r)))
  /\ (resultDict r !! "downloadSpeedKBps" = Some (DInt (downloadSpeedKBps r))
      /\ resultDict r !! "uploadSpeedKBps" = Some (DInt (uploadSpeedKBps r))
      /\ resultDict r !! "latencyMs" = Some (DInt (latencyMs r)))
  /\ (resultDict r !! "tcpError" = Some (DOptionalString (tcpError r))
      /\ resultDict r !! "udpError" = Some (DOptionalString (udpError r))
      /\ resultDict r !! "downloadTestError" = Some (DOptionalString (downloadTestError r))
      /\ resultDict r !! "uploadTestError" = Some (DOptionalString (uploadTestError r))).
Proof. destruct r. vm_compute. repeat split. Qed.

(** X10: the dictionary returned by the comprehensive test mirrors the
    reply of the extension field by field.  It has exactly the twelve keys;
    each Bool and Int key holds the value the reply holds under the same
    key, each optional error key holds the reply's string or nil; and a
    reply in which a Bool or Int key is missing makes the call throw
    instead of returning a partial result. *)
Theorem comprehensive_result_mirrors_reply manager transportConfig w p rest :
  responses w = Reply (Some (plist p)) :: rest ->
  (forall dict w',
      performComprehensiveTestViaExtension manager transportConfig w = (Returned dict, w') ->
      size dict = 12%nat
      /\ (forall key,
            key ∈ ["tcpSuccess"; "udpSuccess"; "connectivitySuccess";
                   "downloadTestSuccess"; "uploadTestSuccess"] ->
            exists b, p !! key = Some (PBoolean b) /\ dict !! key = Some (DBool b))
      /\ (forall key,
            key ∈ ["downloadSpeedKBps"; "uploadSpeedKBps"; "latencyMs"] ->
            exists z, p !! key = Some (PInteger z) /\ dict !! key = Some (DInt z))
      /\ (forall key,
            key ∈ ["tcpError"; "udpError"; "downloadTestError"; "uploadTestError"] ->
            dict !! key
            = Some (DOptionalString
                      match p !! key with Some (PString s) => Some s | _ => None end)))
  /\ (forall key,
        key ∈ ["tcpSuccess"; "udpSuccess"; "connectivitySuccess";
               "downloadTestSuccess"; "uploadTestSuccess";
               "downloadSpeedKBps"; "uploadSpeedKBps"; "latencyMs"] ->
        p !! key = None ->
        exists e w', performComprehensiveTestViaExtension manager transportConfig w
                     = (Thrown e, w')).
Proof.
  intros Hresp.
  assert (Hcall : performComprehensiveTestViaExtension manager transportConfig w
    = match decode_ComprehensiveTestResult (plist p) with
      | Some testResult =>
          (Returned (resultDict testResult),
           set_responses rest
             (emit (EvSendProviderMessage ("comprehensiveTest:" +:+ transportConfig)) w))
      | None =>
          (Thrown (systemError "DecodingError"),
           set_responses rest
             (emit (EvSendProviderMessage ("comprehensiveTest:" +:+ transportConfig)) w))
      end).
  { unfold performComprehensiveTestViaExtension, sendProviderMessage, bind, event,
      modify, providerReply. cbn [responses emit]. rewrite Hresp.
    destruct (decode_ComprehensiveTestResult (plist p)); reflexivity. }
  rewrite Hcall. clear Hcall.
  destruct (decode_ComprehensiveTestResult (plist p)) as [r|] eqn:Hdec.
  2:{ split; [discriminate|]. eauto. }
  destruct (decode_ComprehensiveTestResult_Some p r Hdec)
    as ((B1 & B2 & B3 & B4 & B5) & (I1 & I2 & I3) & (O1 & O2 & O3 & O4)).
  destruct (resultDict_lookups r)
    as (Hsize & (DB1 & DB2 & DB3 & DB4 & DB5) & (DI1 & DI2 & DI3) & (DO1 & DO2 & DO3 & DO4)).
  split.
  - intros dict w' [= <- <-].
    split; [exact Hsize|]. split; [|split].
    + intros key Hk.
      apply elem_of_cons in Hk as [->|Hk]; [eauto|].
      apply elem_of_cons in Hk as [->|Hk]; [eauto|].
      apply elem_of_cons in Hk as [->|Hk]; [eauto|].
      apply elem_of_cons in Hk as [->|Hk]; [eauto|].
      apply elem_of_cons in Hk as [->|Hk]; [eauto|].
      now apply elem_of_nil in Hk.
    + intros key Hk.
      apply elem_of_cons in Hk as [->|Hk]; [eauto|].
      apply elem_of_cons in Hk as [->|Hk]; [eauto|].
      apply elem_of_cons in Hk as [->|Hk]; [eauto|].
      now apply elem_of_nil in Hk.
    + intros key Hk.
      apply elem_of_cons in Hk as [->|Hk]; [now rewrite DO1, O1|].
      apply elem_of_cons in Hk as [->|Hk]; [now rewrite DO2, O2|].
      apply elem_of_cons in Hk as [->|Hk]; [now rewrite DO3, O3|].
      apply elem_of_cons in Hk as [->|Hk]; [now rewrite DO4, O4|].
      now apply elem_of_nil in Hk.
  - intros key Hk Hmiss. exfalso.
    apply elem_of_cons in Hk as [->|Hk]; [congruence|].
    apply elem_of_cons in Hk as [->|Hk]; [congruence|].
    apply elem_of_cons in Hk as [->|Hk]; [congruence|].
    apply elem_of_cons in Hk as [->|Hk]; [congruence|].
    apply elem_of_cons in Hk as [->|Hk]; [congruence|].
    apply elem_of_cons in Hk as [->|Hk]; [congruence|].
    apply elem_of_cons in Hk as [->|Hk]; [congruence|].
    apply elem_of_cons in Hk as [->|Hk]; [congruence|].
    now apply elem_of_nil in Hk.
Qed.

Lemma comprehensive_result_mirrors_reply_witness :
  let w := Scenario.device connected true [] [] [Reply (Some (plist Scenario.test_reply))] in
  let call := performComprehensiveTestViaExtension
                (Scenario.tunnel "t1" "cfgA" true None) "cfgB" w in
  fst call = Returned (resultDict Scenario.test_result)
  /\ resultDict Scenario.test_result !! "latencyMs" = Some (DInt 42)
  /\ resultDict Scenario.test_result !! "udpError"
     = Some (DOptionalString (Some "udp blocked")).
Proof.
  intros w call.
  assert (Hdec : decode_ComprehensiveTestResult (plist Scenario.test_reply)
                 = Some Scenario.test_result) by (vm_compute; reflexivity).
  assert (Hcall : call
    = (Returned (resultDict Scenario.test_result),
       set_responses []
         (emit (EvSendProviderMessage ("comprehensiveTest:" +:+ "cfgB")) w))).
  { unfold call, performComprehensiveTestViaExtension, sendProviderMessage, bind, event,
      modify, providerReply. cbn [responses emit w Scenario.device].
    now rewrite Hdec. }
  split; [now rewrite Hcall|].
  destruct (comprehensive_result_mirrors_reply
              (Scenario.tunnel "t1" "cfgA" true None) "cfgB" w Scenario.test_reply []
              eq_refl) as [H _].
  destruct (H _ _ Hcall) as (_ & _ & Hint & Hopt).
  split.
  - destruct (Hint "latencyMs") as (z & Hz & Hd).
    + apply list_elem_of_In. simpl. auto.
    + assert (Hz' : Scenario.test_reply !! "latencyMs" = Some (PInteger 42))
        by (vm_compute; reflexivity).
      rewrite Hz' in Hz. injection Hz as <-. exact Hd.
  - rewrite (Hopt "udpError") by (apply list_elem_of_In; simpl; auto).
    assert (Hu : Scenario.test_reply !! "udpError" = Some (PString "udp blocked"))
      by (vm_compute; reflexivity).
    now rewrite Hu.
Defined.

End SessionManager.

(** ** Go: upload probe and combined tests *)

Section GoCombined.
Import GoClient.

Lemma postLoop_total testDuration since posts : forall k total,
  0 <= total ->
  total + chunkSize * Z.of_nat (length posts) < 2 ^ 63 ->
  exists n, (n <= length posts)%nat
    /\ fst (postLoop testDuration since k posts total) = total + chunkSize * Z.of_nat n.
Proof.
  induction posts as [|p rest IH]; intros k total H0 Hlt; simpl.
  - exists 0%nat. split; [lia|]. destruct (since k <? testDuration); simpl; lia.
  - destruct (since k <? testDuration); [|exists 0%nat; split; [lia|simpl; lia]].
    destruct p as [err|sc]; [exists 0%nat; split; [lia|simpl; lia]|].
    assert (Hc : chunkSize = 262144) by reflexivity.
    assert (Hadd : int64_add total chunkSize = total + chunkSize).
    { unfold int64_add. apply wrap64_small.
      change (2 ^ 63) with 9223372036854775808 in *. simpl length in Hlt. lia. }
    rewrite Hadd.
    destruct (IH (S k) (total + chunkSize)) as (n & Hn & Hfst).
    + lia.
    + simpl length in Hlt. lia.
    + exists (S n). split; [simpl; lia|]. rewrite Hfst. lia.
Qed.

(** X1: the upload probe returns -1 only when less than a millisecond has
    elapsed.  Otherwise it returns the speed computed from 262144 bytes per
    completed POST, a number that is never negative; in particular, when
    the very first POST fails it returns 0, not -1. *)
Theorem upload_failure_is_zero_not_minus_one posts since durationSeconds total ms :
  measureUpload posts since durationSeconds = (total, ms) ->
  Z.of_nat (length posts) < 2 ^ 35 ->
  (ms = 0 -> TestUploadSpeed posts since durationSeconds = -1)
  /\ (0 < ms ->
      exists n, (n <= length posts)%nat
        /\ total = chunkSize * Z.of_nat n
        /\ TestUploadSpeed posts since durationSeconds
           = chunkSize * Z.of_nat n / ms * 1000 / 1024
        /\ 0 <= TestUploadSpeed posts since durationSeconds)
  /\ (forall err rest, posts = PostError err :: rest -> 0 < ms ->
      TestUploadSpeed posts since durationSeconds = 0).
Proof.
  intros Hm Hlen.
  assert (Hcs : chunkSize = 262144) by reflexivity.
  change (2 ^ 35) with 34359738368 in Hlen.
  assert (Hspeed : ms <> 0 ->
            TestUploadSpeed posts since durationSeconds = speedKBps total ms).
  { intros Hms. unfold TestUploadSpeed. rewrite Hm.
    destruct (Z.eqb_spec ms 0); [contradiction|reflexivity]. }
  assert (Htotal : exists n, (n <= length posts)%nat /\ total = chunkSize * Z.of_nat n).
  { unfold measureUpload in Hm.
    destruct (postLoop_total (int64_mul durationSeconds Second) since posts 0%nat 0)
      as (n & Hn & Hfst).
    - lia.
    - change (2 ^ 63) with 9223372036854775808. lia.
    - destruct (postLoop _ since 0 posts 0) as [t k]. injection Hm as <- _.
      exists n. split; [exact Hn|]. simpl in Hfst. lia. }
  split; [|split].
  - intros ->. unfold TestUploadSpeed. rewrite Hm. reflexivity.
  - intros Hms. destruct Htotal as (n & Hn & Ht). exists n.
    split; [exact Hn|]. split; [exact Ht|].
    rewrite Hspeed by lia.
    rewrite speedKBps_plain; [|lia|change (2 ^ 53) with 9007199254740992; lia].
    rewrite Ht. split; [reflexivity|].
    apply Z.div_pos; [|lia]. apply Z.mul_nonneg_nonneg; [|lia].
    apply Z.div_pos; lia.
  - intros err rest -> Hms.
    rewrite Hspeed by lia.
    assert (total = 0).
    { unfold measureUpload in Hm. simpl in Hm.
      destruct (since 0%nat <? int64_mul durationSeconds Second);
        injection Hm as <- _; reflexivity. }
    subst total. rewrite speedKBps_plain; [|lia|change (2 ^ 53) with 9007199254740992; lia].
    rewrite Z.div_0_l by lia. reflexivity.
Qed.

Lemma upload_failure_is_zero_not_minus_one_witness :
  TestUploadSpeed [PostError ErrConnection] (fun k => 3000000 * Z.of_nat (S k)) 10 = 0
  /\ TestUploadSpeed [PostResponse 200; PostResponse 200; PostError ErrTimeout]
       (fun k => 500000000 * Z.of_nat (S k)) 10 = 255.
Proof.
  split.
  - destruct (upload_failure_is_zero_not_minus_one [PostError ErrConnection]
                (fun k => 3000000 * Z.of_nat (S k)) 10 0 6 eq_refl)
      as (_ & _ & H); [reflexivity|].
    apply (H ErrConnection []); [reflexivity|lia].
  - destruct (upload_failure_is_zero_not_minus_one
                [PostResponse 200; PostResponse 200; PostError ErrTimeout]
                (fun k => 500000000 * Z.of_nat (S k)) 10 524288 2000 eq_refl)
      as (_ & H & _); [reflexivity|].
    destruct (H ltac:(lia)) as (n & _ & Hn & Hr & _).
    rewrite Hr. replace (Z.of_nat n) with 2 by (change chunkSize with 262144 in Hn; lia).
    reflexivity.
Defined.

(** X2: the comprehensive test reports its three measurements all or
    nothing.  If any of download speed, upload speed and latency is -1 then
    all three are -1; a bandwidth error occurs only when TCP succeeded, and
    then all three are -1; a TCP error skips the bandwidth test, leaving
    all three at -1 and no bandwidth error.  The connectivity errors are
    passed through, and a UDP error alone changes nothing else. *)
Theorem comprehensive_test_all_or_nothing {PlatformErr : Type}
    (connectivityResult : TCPAndUDPConnectivityResult (PlatformErr := PlatformErr))
    (env : ProbeEnv) :
  let r := PerformComprehensiveTest connectivityResult env in
  (ct_DownloadSpeedKBps r = -1 \/ ct_UploadSpeedKBps r = -1 \/ ct_LatencyMs r = -1 ->
   ct_DownloadSpeedKBps r = -1 /\ ct_UploadSpeedKBps r = -1 /\ ct_LatencyMs r = -1)
  /\ (BandwidthError r <> None ->
      TCPError r = None
      /\ ct_DownloadSpeedKBps r = -1 /\ ct_UploadSpeedKBps r = -1 /\ ct_LatencyMs r = -1)
  /\ (TCPError r <> None ->
      BandwidthError r = None
      /\ ct_DownloadSpeedKBps r = -1 /\ ct_UploadSpeedKBps r = -1 /\ ct_LatencyMs r = -1)
  /\ TCPError r = conn_TCPError connectivityResult
  /\ UDPError r = conn_UDPError connectivityResult
  /\ (forall udp,
        let r' := PerformComprehensiveTest
                    {| conn_TCPError := conn_TCPError connectivityResult;
                       conn_UDPError := udp |} env in
        ct_DownloadSpeedKBps r' = ct_DownloadSpeedKBps r
        /\ ct_UploadSpeedKBps r' = ct_UploadSpeedKBps r
        /\ ct_LatencyMs r' = ct_LatencyMs r
        /\ BandwidthError r' = BandwidthError r).
Proof.
  unfold PerformComprehensiveTest.
  destruct connectivityResult as [tcp udp0]. cbn [conn_TCPError conn_UDPError].
  destruct tcp as [e|].
  { cbn. repeat split; auto; intros; congruence. }
  unfold PerformBandwidthTest. cbn [Error DownloadSpeedKBps UploadSpeedKBps LatencyMs].
  set (l := TestLatency _ _). set (d := TestDownloadSpeed _ _ _).
  set (u := TestUploadSpeed _ _ _).
  destruct (Z.eqb_spec l (-1)) as [Hl|Hl]; cbn.
  { repeat split; auto; intros; congruence. }
  destruct (Z.eqb_spec d (-1)) as [Hd|Hd]; cbn.
  { repeat split; auto; intros; congruence. }
  destruct (Z.eqb_spec u (-1)) as [Hu|Hu]; cbn.
  { repeat split; auto; intros; congruence. }
  repeat split; auto; try (intros; congruence).
  all: exfalso; intuition congruence.
Qed.

Lemma comprehensive_test_all_or_nothing_witness :
  let ok := PerformComprehensiveTest
              {| conn_TCPError := None; conn_UDPError := Some tt |}
              Scenario.probes_upload_refused in
  let broken := PerformComprehensiveTest
                  {| conn_TCPError := Some tt; conn_UDPError := None |}
                  Scenario.probes_upload_refused in
  (ct_LatencyMs ok = 37 /\ ct_DownloadSpeedKBps ok = 1659
   /\ ct_UploadSpeedKBps ok = 0 /\ BandwidthError ok = None)
  /\ (ct_LatencyMs broken = -1 /\ ct_DownloadSpeedKBps broken = -1
      /\ ct_UploadSpeedKBps broken = -1).
Proof.
  intros ok broken. split; [vm_compute; auto|].
  destruct (comprehensive_test_all_or_nothing
              {| conn_TCPError := Some tt; conn_UDPError := None |}
              Scenario.probes_upload_refused) as (_ & _ & H & _).
  destruct H as (_ & Hd & Hu & Hl); [discriminate|].
  repeat split; assumption.
Defined.

End GoCombined.

Section GoNewClientResult.
Import GoClient.
Context {ConfigNode ConnType GoError : Type} `{EqDecision ConnType}.
Variable ConnTypeDirect : ConnType.
Variable yaml_Unmarshal : string -> GoError + ConfigNode.
Variable errors_Is_ErrUnsupported : GoError -> bool.
Variable Parse : ConfigNode -> GoError + TransportPair (ConnType := ConnType).

Local Abbreviation NewClientWithBaseDialers :=
  (GoClient.NewClientWithBaseDialers
     ConnTypeDirect yaml_Unmarshal errors_Is_ErrUnsupported Parse).

(** X3: the constructor returns exactly one of a client and an error,
    and every error it returns, for invalid YAML and for a transport that
    cannot be built as well, carries the InvalidConfig code.  The error
    has no cause exactly when the transport was built and then rejected
    for connecting directly; otherwise the cause is the underlying
    error. *)
Theorem NewClient_client_xor_error text :
  (exists client, NewClientWithBaseDialers text = (Some client, None))
  \/ (exists e,
        NewClientWithBaseDialers text = (None, Some e)
        /\ Code e = InvalidConfig
        /\ (Cause e = None <->
            exists node pair, yaml_Unmarshal text = inr node /\ Parse node = inr pair)
        /\ (forall err, Cause e = Some err ->
            yaml_Unmarshal text = inl err
            \/ exists node, yaml_Unmarshal text = inr node /\ Parse node = inl err)).
Proof.
  unfold GoClient.NewClientWithBaseDialers.
  destruct (yaml_Unmarshal text) as [err|node] eqn:Hy.
  { right. eexists. split; [reflexivity|]. cbn. split; [reflexivity|]. split.
    - split; [discriminate|]. intros (n & p & Hn & _). discriminate.
    - intros err' [= <-]. now left. }
  destruct (Parse node) as [err|pair] eqn:Hp.
  { right. destruct (errors_Is_ErrUnsupported err);
      (eexists; split; [reflexivity|]; cbn; split; [reflexivity|]; split;
       [ split; [discriminate|]; intros (n & p & [= <-] & Hp'); congruence
       | intros err' [= <-]; right; eauto ]). }
  destruct (decide (ConnType_of (StreamDialer pair) = ConnTypeDirect)).
  { right. eexists. split; [reflexivity|]. cbn. split; [reflexivity|].
    split; [split; eauto|discriminate]. }
  destruct (decide (ConnType_of (PacketListener pair) = ConnTypeDirect)).
  { right. eexists. split; [reflexivity|]. cbn. split; [reflexivity|].
    split; [split; eauto|discriminate]. }
  left. eauto.
Qed.

End GoNewClientResult.

Lemma NewClient_client_xor_error_witness :
  exists e,
    GoClient.NewClientWithBaseDialers Scenario.SampleDirect Scenario.sample_unmarshal
      (fun _ => false) Scenario.sample_parse "" = (None, Some e)
    /\ GoClient.Code e = GoClient.InvalidConfig
    /\ GoClient.Cause e = Some tt.
Proof.
  destruct (NewClient_client_xor_error Scenario.SampleDirect Scenario.sample_unmarshal
              (fun _ => false) Scenario.sample_parse "")
    as [[client Hc]|(e & He & Hcode & _ & _)]; [discriminate|].
  exists e. split; [exact He|]. split; [exact Hcode|].
  injection He as <-. reflexivity.
Defined.

(** ** The web connectivity test *)

Section ConnectivityTest.
Import ApiServerRepository VPNManagementAPI.

Lemma nth_nonneg (l : list Q) k :
  Forall (fun x => 0 <= x)%Q l -> (0 <= nth k l 0)%Q.
Proof.
  intros H. revert k.
  induction H; intros [|k]; simpl; auto; apply Qle_refl.
Qed.

Lemma sample_nonneg p : Forall (fun x => 0 <= x)%Q (sample p).
Proof.
  destruct p as [| |byteLength t]; simpl; try constructor.
  destruct (Qlt_le_dec 0 t) as [Ht|]; [|constructor].
  destruct (0 <? byteLength) eqn:Hb; constructor; [|constructor].
  apply Z.ltb_lt in Hb.
  apply Qle_shift_div_l.
  - apply Qlt_shift_div_l; [reflexivity|]. now rewrite Qmult_0_l.
  - rewrite Qmult_0_l. apply Qle_shift_div_l; [reflexivity|].
    rewrite Qmult_0_l. unfold Qle. simpl. lia.
Qed.

Lemma medianBandwidth_nonneg l :
  Forall (fun x => 0 <= x)%Q l -> (0 <= medianBandwidth l)%Q.
Proof.
  intros H. unfold medianBandwidth. cbv zeta.
  destruct (Nat.even _); [|now apply nth_nonneg].
  apply Qle_shift_div_l; [reflexivity|]. rewrite Qmult_0_l.
  refine (Qplus_le_compat 0 _ 0 _ _ _); now apply nth_nonneg.
Qed.

Lemma Math_round_nonneg x : (0 <= x)%Q -> 0 <= Math_round x.
Proof.
  intros H. unfold Math_round. change 0 with (Qfloor 0).
  apply Qfloor_resp_le.
  refine (Qplus_le_compat 0 _ 0 _ H _). discriminate.
Qed.

Lemma performBandwidthTest_nonneg fetch bandwidth :
  performBandwidthTest fetch = Some bandwidth -> 0 <= bandwidth.
Proof.
  unfold performBandwidthTest, aggregate.
  set (results := flat_map _ _).
  assert (Hall : Forall (fun x => 0 <= x)%Q results).
  { apply Forall_flat_map, Forall_forall. intros t _. apply sample_nonneg. }
  destruct results as [|x rest] eqn:E; [discriminate|].
  intros [= <-]. apply Math_round_nonneg, medianBandwidth_nonneg.
  eapply Permutation_Forall; [apply (exact_sort_perm (x :: rest))|exact Hall].
Qed.

Lemma performBandwidthTest_None fetch :
  performBandwidthTest fetch = None
  <-> forall t, In t testSizes -> sample (fetch (snd t)) = [].
Proof.
  unfold performBandwidthTest, aggregate, testSizes. simpl.
  rewrite app_nil_r.
  split.
  - destruct (_ ++ _) eqn:E; [|discriminate]. intros _.
    apply app_eq_nil in E as [E1 E]. apply app_eq_nil in E as [E2 E3].
    intros t [<-|[<-|[<-|[]]]]; assumption.
  - intros H.
    pose proof (H (_, _) (or_introl eq_refl)) as H1.
    pose proof (H (_, _) (or_intror (or_introl eq_refl))) as H2.
    pose proof (H (_, _) (or_intror (or_intror (or_introl eq_refl)))) as H3.
    simpl in H1, H2, H3. now rewrite H1, H2, H3.
Qed.

Lemma performBandwidthTest_Some fetch :
  (exists bandwidth, performBandwidthTest fetch = Some bandwidth)
  <-> exists t, In t testSizes /\ sample (fetch (snd t)) <> [].
Proof.
  split.
  - intros [b Hb].
    destruct (sample (fetch "https://httpbin.org/bytes/102400")) eqn:E1;
      [|exists (100 * 1024, "https://httpbin.org/bytes/102400");
        split; [now left|simpl; now rewrite E1]].
    destruct (sample (fetch "https://httpbin.org/bytes/512000")) eqn:E2;
      [|exists (500 * 1024, "https://httpbin.org/bytes/512000");
        split; [right; now left|simpl; now rewrite E2]].
    destruct (sample (fetch "https://httpbin.org/bytes/1048576")) eqn:E3;
      [|exists (1024 * 1024, "https://httpbin.org/bytes/1048576");
        split; [right; right; now left|simpl; now rewrite E3]].
    exfalso.
    assert (Hnone : performBandwidthTest fetch = None).
    { apply performBandwidthTest_None. intros t [<-|[<-|[<-|[]]]]; assumption. }
    congruence.
  - intros (t & Hin & Hne).
    destruct (performBandwidthTest fetch) as [b|] eqn:E; [now exists b|].
    exfalso. apply Hne. now apply performBandwidthTest_None.
Qed.

(** X11: the connectivity test ([testConnectivity], first version)
    reports success exactly when the connectivity request got an ok
    response and at least one bandwidth probe delivered a sample.  A
    success carries no error, a bandwidth that is not negative and the
    time read after the connectivity response; a failure carries
    bandwidth 0, an error message and the time read in the catch block.
    The server id is always empty. *)
Theorem testConnectivity_success_iff ping elapsedPing elapsedCatch fetch :
  let r := testConnectivity ping elapsedPing elapsedCatch fetch in
  (test_success r = true
   <-> (exists status, ping = PingResolves true status)
       /\ exists t, In t testSizes /\ sample (fetch (snd t)) <> [])
  /\ (test_success r = true
      -> error r = None /\ 0 <= bandwidth r /\ responseTime r = Math_round elapsedPing)
  /\ (test_success r = false
      -> bandwidth r = 0 /\ responseTime r = Math_round elapsedCatch
         /\ exists message, error r = Some message)
  /\ serverId r = "".
Proof.
  intros r. subst r. unfold testConnectivity.
  destruct ping as [message|[|] status]; simpl.
  - split; [|split; [|split]]; try easy.
    + split; [discriminate|]. now intros [[? ?] _].
    + intros _. eauto.
  - destruct (performBandwidthTest fetch) as [b|] eqn:E; simpl.
    + split; [|split; [|split]]; try easy.
      * split; [|reflexivity]. intros _. split; [eauto|].
        apply performBandwidthTest_Some. eauto.
      * intros _. split; [reflexivity|]. split; [|reflexivity].
        eapply performBandwidthTest_nonneg, E.
    + split; [|split; [|split]]; try easy.
      * split; [discriminate|]. intros [_ H].
        apply performBandwidthTest_Some in H as [b Hb]. congruence.
      * intros _. eauto.
  - split; [|split; [|split]]; try easy.
    + split; [discriminate|]. now intros [[? ?] _].
    + intros _. eauto.
Qed.

Lemma testConnectivity_success_iff_witness :
  let fetch := fun url : string =>
    if bool_decide (url = "https://httpbin.org/bytes/512000")
    then ProbeFetched 512000 250%Q else ProbeThrows in
  let r := testConnectivity (PingResolves true 200) 41.6%Q 9000%Q fetch in
  test_success r = true /\ error r = None /\ 0 <= bandwidth r /\ responseTime r = 42.
Proof.
  intros fetch r.
  destruct (testConnectivity_success_iff (PingResolves true 200) 41.6%Q 9000%Q fetch)
    as (Hiff & Hok & _ & _).
  assert (Hs : test_success r = true).
  { apply Hiff. split; [eauto|].
    exists (500 * 1024, "https://httpbin.org/bytes/512000").
    split; [right; now left|]. vm_compute. discriminate. }
  destruct (Hok Hs) as (He & Hb & Ht).
  split; [exact Hs|]. split; [exact He|]. split; [exact Hb|].
  exact (eq_trans Ht eq_refl).
Defined.

Lemma round_four_fifths_bounds b :
  0 <= b -> 0 <= Math_round (inject_Z b * (8 # 10))%Q <= b.
Proof.
  intros Hb. unfold Math_round, Qfloor, Qplus, Qmult, inject_Z.
  cbn [Qnum Qden].
  change (Z.pos (1 * 10 * 2)) with 20.
  change (Z.pos (1 * 10)) with 10. change (Z.pos 2) with 2.
  split.
  - apply Z.div_pos; lia.
  - apply Z.lt_succ_r, Z.div_lt_upper_bound; lia.
Qed.

(** X12: the later connectivity test ([testConnectivity], second
    version) reports success exactly when the ping got an ok response and
    a bandwidth probe delivered a sample; it carries an error exactly when
    it is not a success; the upload flag always equals the download flag;
    the upload speed is the download speed times 0.8 rounded, between 0
    and the download speed; a failure has both speeds 0. *)
Theorem testConnectivity_v2_consistent ping elapsed fetch :
  let r := VPNManagementAPI_v2.testConnectivity ping elapsed fetch in
  (VPNManagementAPI_v2.success r = true
   <-> (exists status, ping = PingResolves true status)
       /\ exists t, In t testSizes /\ sample (fetch (snd t)) <> [])
  /\ (VPNManagementAPI_v2.error r = None <-> VPNManagementAPI_v2.success r = true)
  /\ VPNManagementAPI_v2.uploadTestSuccess r = VPNManagementAPI_v2.downloadTestSuccess r
  /\ VPNManagementAPI_v2.downloadTestSuccess r = Some (VPNManagementAPI_v2.success r)
  /\ (exists down up,
        VPNManagementAPI_v2.downloadSpeedKBps r = inject_Z down
        /\ VPNManagementAPI_v2.uploadSpeedKBps r = inject_Z up
        /\ up = Math_round (inject_Z down * (8 # 10))%Q
        /\ 0 <= up <= down
        /\ (VPNManagementAPI_v2.success r = false -> down = 0 /\ up = 0))
  /\ VPNManagementAPI_v2.latencyMs r = inject_Z (Math_round elapsed).
Proof.
  intros r. subst r. unfold VPNManagementAPI_v2.testConnectivity.
  destruct ping as [message|[|] status]; simpl.
  - split; [|split; [|split; [|split; [|split]]]]; try easy.
    + split; [discriminate|]. now intros [[? ?] _].
    + exists 0, 0. repeat split; try reflexivity; lia.
  - destruct (performBandwidthTest fetch) as [b|] eqn:E; simpl.
    + split; [|split; [|split; [|split; [|split]]]]; try easy.
      * split; [|reflexivity]. intros _. split; [eauto|].
        apply performBandwidthTest_Some. eauto.
      * exists b, (Math_round (inject_Z b * (8 # 10))%Q).
        split; [reflexivity|]. split; [reflexivity|]. split; [reflexivity|].
        split; [|discriminate].
        apply round_four_fifths_bounds. eapply performBandwidthTest_nonneg, E.
    + split; [|split; [|split; [|split; [|split]]]]; try easy.
      * split; [discriminate|]. intros [_ H].
        apply performBandwidthTest_Some in H as [b Hb]. congruence.
      * exists 0, 0. repeat split; try reflexivity; lia.
  - split; [|split; [|split; [|split; [|split]]]]; try easy.
    + split; [discriminate|]. now intros [[? ?] _].
    + exists 0, 0. repeat split; try reflexivity; lia.
Qed.

Lemma testConnectivity_v2_consistent_witness :
  let fetch := fun url : string =>
    if bool_decide (url = "https://httpbin.org/bytes/512000")
    then ProbeFetched 512000 250%Q else ProbeThrows in
  let r := VPNManagementAPI_v2.testConnectivity (PingResolves true 200) 41.6%Q fetch in
  VPNManagementAPI_v2.success r = true /\ VPNManagementAPI_v2.error r = None.
Proof.
  intros fetch r.
  destruct (testConnectivity_v2_consistent (PingResolves true 200) 41.6%Q fetch)
    as (Hiff & Herr & _).
  assert (Hs : VPNManagementAPI_v2.success r = true).
  { apply Hiff. split; [eauto|].
    exists (500 * 1024, "https://httpbin.org/bytes/512000").
    split; [right; now left|]. vm_compute. discriminate. }
  split; [exact Hs|]. now apply Herr.
Defined.

End ConnectivityTest.

(** ** The logs handler *)

Section LogsHandler.
Import VPNManagementAPI ServerLogsHandler.

Lemma LogType_value_truthy t : truthy (LogType_value t) = true.
Proof. now destruct t. Qed.

Lemma setISPInfo_truthy info h name :
  ispInfo (setISPInfo info h) = Some name -> truthy name = true.
Proof.
  unfold setISPInfo. simpl. intros [= <-].
  destruct (truthy_opt (info_error info)); [reflexivity|].
  destruct (info_isp info) as [s|] eqn:Es; simpl.
  - destruct (truthy s) eqn:Ts; [exact Ts|].
    destruct (info_org info) as [o|]; simpl; [|reflexivity].
    destruct (truthy o) eqn:To; [exact To|reflexivity].
  - destruct (info_org info) as [o|]; simpl; [|reflexivity].
    destruct (truthy o) eqn:To; [exact To|reflexivity].
Qed.

Lemma not_sending_no_batch (inflight : option (list ServerLog)) :
  false = bool_decide (inflight <> None) -> inflight = None.
Proof.
  destruct inflight; [|reflexivity]. intros H. symmetry in H.
  apply bool_decide_eq_false in H. exfalso. apply H. discriminate.
Qed.

Lemma sending_has_batch (inflight : option (list ServerLog)) :
  true = bool_decide (inflight <> None) -> exists batch, inflight = Some batch.
Proof.
  destruct inflight; [eauto|]. intros H. symmetry in H.
  apply bool_decide_eq_true in H. congruence.
Qed.

Lemma addLog_pushes sid logType succ now h name :
  ispInfo h = Some name ->
  logs (addLog sid logType succ now h)
  = logs h ++ [ {| server_id := sid; type := LogType_value <$> logType; isp := name;
                   success := succ; timestamp := now |} ]
  /\ ispInfo (addLog sid logType succ now h) = Some name
  /\ isSendingLogs (addLog sid logType succ now h) = isSendingLogs h.
Proof.
  intros Hi. unfold addLog. rewrite Hi.
  destruct (Nat.leb _ _); [|now cbn].
  unfold triggerLogSending. cbn [isSendingLogs].
  destruct (isSendingLogs h) eqn:Hs; cbn; auto.
Qed.

Lemma addLog_ignored sid logType succ now h :
  ispInfo h = None -> addLog sid logType succ now h = h.
Proof. intros Hi. unfold addLog. now rewrite Hi. Qed.

Lemma take_batch_consistent h l :
  Consistent (with_handler h l) ->
  Consistent (take_batch (sendLogsBatch_begin h) l).
Proof.
  destruct h as [lg ispn rn sending tm sch], l as [h0 infl acc del].
  unfold Consistent, sendLogsBatch_begin, take_batch, with_handler. simpl.
  intros (Hacc & Hsend & Hvalid & Hdel & Hisp).
  destruct sending; simpl; [now repeat split|].
  apply not_sending_no_batch in Hsend. subst infl. simpl in Hacc.
  destruct (bool_decide (lg = [])); simpl; [now repeat split|].
  repeat split; auto. now rewrite app_nil_r.
Qed.

(** A batch that [storeLogs] lets through holds no log without a type. *)
Lemma storeLogs_outcome_typed api batch net response :
  storeLogs_outcome api batch net = inr response ->
  Forall (fun log => type log <> None) batch.
Proof.
  unfold storeLogs_outcome, storeLogs.
  destruct (forallb _ batch) eqn:Hall; [|discriminate]. intros _.
  apply Forall_forall. intros log Hin.
  rewrite forallb_forall in Hall.
  specialize (Hall log (proj1 (list_elem_of_In _ _) Hin)).
  apply andb_true_iff in Hall as [Ht _].
  destruct (type log); [discriminate|discriminate Ht].
Qed.

Lemma step_consistent api s l : Consistent l -> Consistent (step api s l).
Proof.
  intros H. destruct s as [info|sid logType succ now| | | |net]; simpl.
  - destruct l as [h infl acc del], H as (Hacc & Hsend & Hvalid & Hdel & Hisp).
    unfold Consistent, with_handler. simpl in *.
    repeat split; auto. intros name Hn. exact (setISPInfo_truthy info h name Hn).
  - destruct l as [h infl acc del], H as (Hacc & Hsend & Hvalid & Hdel & Hisp).
    unfold Consistent. cbn [handler inflight accepted delivered] in *.
    destruct (ispInfo h) as [name|] eqn:Hi.
    + destruct (addLog_pushes sid logType succ now h name Hi) as (Hl & Hi' & Hs').
      rewrite Hl, Hi', Hs'.
      split; [rewrite Hacc; now rewrite <- !app_assoc|].
      split; [exact Hsend|]. split; [|split; [exact Hdel|exact Hisp]].
      apply Forall_app; split; [exact Hvalid|].
      constructor; [|constructor]. simpl. split; [exact (Hisp name eq_refl)|].
      destruct logType as [t|]; [right|now left].
      simpl. apply LogType_value_truthy.
    + rewrite (addLog_ignored sid logType succ now h Hi), Hi. now repeat split.
  - destruct l as [[lg ispn rn sending tm sch] infl acc del]. simpl.
    destruct tm; [|exact H]. unfold periodicTick, triggerLogSending. simpl.
    destruct rn; simpl; [|exact H]. destruct sending; exact H.
  - destruct (scheduled (handler l)) as [|n] eqn:Hs; [exact H|].
    apply take_batch_consistent.
    destruct l as [[lg ispn rn sending tm sch] infl acc del]. exact H.
  - unfold stop_begin. destruct (isRunning (handler l)) eqn:Hr.
    + apply take_batch_consistent.
      destruct l as [[lg ispn rn sending tm sch] infl acc del]. exact H.
    + destruct l as [h infl acc del]. exact H.
  - destruct l as [[lg ispn rn sending tm sch] infl acc del],
      H as (Hacc & Hsend & Hvalid & Hdel & Hisp).
    unfold Consistent. simpl in *.
    destruct infl as [batch|]; simpl in *; [|now repeat split].
    destruct (storeLogs_outcome api batch net) as [message|response] eqn:Hout; simpl.
    + now repeat split.
    + destruct (bool_decide (status response = 200)); simpl.
      * repeat split; auto; [now rewrite <- app_assoc|].
        apply Forall_app. split; [exact Hdel|].
        exact (storeLogs_outcome_typed api batch net response Hout).
      * now repeat split.
Qed.

Lemma fold_consistent api steps l :
  Consistent l -> Consistent (fold_left (fun l s => step api s l) steps l).
Proof.
  revert l. induction steps as [|s steps IH]; intros l H; simpl; [exact H|].
  apply IH, step_consistent, H.
Qed.

Lemma run_consistent api steps : Consistent (run api steps).
Proof.
  apply fold_consistent. unfold Consistent, start_loop. simpl.
  repeat split; [constructor|constructor|discriminate].
Qed.

Lemma run_snoc api steps s : run api (steps ++ [s]) = step api s (run api steps).
Proof. unfold run. now rewrite fold_left_app. Qed.

(** X13: no log is lost, duplicated or reordered by the handler: after
    any sequence of calls, timer callbacks and answers of the API, the
    logs pushed by [addLog] are exactly the logs of the batches answered
    with status 200, followed by the batch in flight, followed by the
    queue, in this order.  A batch is in flight exactly while
    [isSendingLogs] is set, so there is never more than one. *)
Theorem logs_never_lost api steps :
  let l := run api steps in
  accepted l = delivered l ++ default [] (inflight l) ++ logs (handler l)
  /\ (isSendingLogs (handler l) = true <-> exists batch, inflight l = Some batch).
Proof.
  intros l. destruct (run_consistent api steps) as (Hacc & Hsend & _ & _).
  split; [exact Hacc|]. fold l in Hsend. rewrite Hsend.
  split.
  - intros H. symmetry in H. now apply sending_has_batch.
  - intros [batch ->]. apply bool_decide_eq_true. discriminate.
Qed.

Lemma logs_never_lost_witness :
  let api := {| baseUrl := "https://api.example"; apiPassword := "secret" |} in
  let l := run api
             [StepSetISPInfo {| info_isp := Some "ISP-1"; info_org := None;
                                info_error := None |};
              StepAddLog "7" (Some CONNECTED) true 1000;
              StepStop;
              StepAddLog "7" (Some DISCONNECTED) true 2000] in
  isSendingLogs (handler l) = true
  /\ exists batch, inflight l = Some batch
       /\ accepted l = delivered l ++ batch ++ logs (handler l).
Proof.
  intros api l.
  destruct (logs_never_lost api
              [StepSetISPInfo {| info_isp := Some "ISP-1"; info_org := None;
                                 info_error := None |};
               StepAddLog "7" (Some CONNECTED) true 1000;
               StepStop;
               StepAddLog "7" (Some DISCONNECTED) true 2000]) as (Hacc & Hiff).
  assert (Hs : isSendingLogs (handler l) = true) by reflexivity.
  split; [exact Hs|].
  destruct (proj1 Hiff Hs) as [batch Hb]. exists batch. split; [exact Hb|].
  unfold l in Hb |- *. now rewrite Hb in Hacc.
Defined.

(** For a batch of the handler, the validation of [storeLogs] only
    depends on the log types: the batch passes exactly when none is
    undefined. *)
Lemma inflight_batch_valid api steps batch :
  inflight (run api steps) = Some batch ->
  forallb (fun log => truthy_opt (type log) && truthy (isp log)) batch
  = forallb (fun log => bool_decide (type log <> None)) batch.
Proof.
  intros Hb. destruct (run_consistent api steps) as (Hacc & _ & Hvalid & _).
  rewrite Hb in Hacc. simpl in Hacc. rewrite Hacc in Hvalid.
  apply Forall_app in Hvalid as [_ Hvalid].
  apply Forall_app in Hvalid as [Hvalid _].
  clear Hb Hacc.
  induction Hvalid as [|log rest [Hisp Htype] _ IH]; [reflexivity|].
  cbn [forallb]. rewrite IH, Hisp, andb_true_r. f_equal.
  destruct (type log) as [t|].
  - destruct Htype as [Hnone|Hsome]; [discriminate|].
    rewrite Hsome. symmetry. apply bool_decide_eq_true. discriminate.
  - symmetry. apply bool_decide_eq_false. tauto.
Qed.

Lemma prefix_before_untyped (delivered rest before after : list ServerLog) log :
  delivered ++ rest = before ++ log :: after ->
  Forall (fun log => type log <> None) delivered ->
  type log = None ->
  delivered `prefix_of` before.
Proof.
  revert before. induction delivered as [|d delivered IH]; intros before Heq Hall Hnone.
  - apply prefix_nil.
  - inversion Hall as [|? ? Hd Hrest]; subst.
    destruct before as [|b before]; simpl in Heq.
    + injection Heq as -> _. contradiction.
    + injection Heq as -> Heq. apply prefix_cons. now apply IH.
Qed.

(** X14: the validation of [storeLogs] rejects a batch of the handler
    exactly when the batch holds a log pushed with an undefined log type.
    Every log delivered has a type; so from the first log pushed with an
    undefined type on, as [logTestResults] pushes for the download and
    upload tests, nothing is delivered any more: what is delivered is a
    part of the logs pushed before it. *)
Theorem undefined_log_type_blocks_delivery api steps :
  let l := run api steps in
  (forall batch net,
      inflight l = Some batch ->
      ((exists message, storeLogs api batch net = inl message)
       <-> exists log, In log batch /\ type log = None))
  /\ Forall (fun log => type log <> None) (delivered l)
  /\ (forall before log after,
        accepted l = before ++ log :: after ->
        type log = None ->
        delivered l `prefix_of` before).
Proof.
  intros l. destruct (run_consistent api steps) as (Hacc & _ & _ & Hdel & _).
  fold l in Hacc, Hdel. split; [|split; [exact Hdel|]].
  - intros batch net Hb. unfold storeLogs.
    rewrite (inflight_batch_valid api steps batch Hb).
    destruct (forallb _ batch) eqn:Hall.
    + split; [intros [message [=]]|].
      intros (log & Hin & Hnone). rewrite forallb_forall in Hall.
      apply Hall in Hin. apply bool_decide_eq_true in Hin. contradiction.
    + split; [|eauto]. intros _.
      assert (Hex : existsb (fun log => negb (bool_decide (type log <> None))) batch = true).
      { clear -Hall. induction batch as [|log rest IH]; [discriminate|].
        cbn in Hall |- *. apply andb_false_iff in Hall as [H|H].
        - now rewrite H.
        - rewrite (IH H). apply orb_true_r. }
      apply existsb_exists in Hex as (log & Hin & Hneg).
      exists log. split; [exact Hin|].
      apply negb_true_iff, bool_decide_eq_false in Hneg.
      destruct (type log); [|reflexivity]. exfalso. apply Hneg. discriminate.
  - intros before log after Heq Hnone.
    rewrite Hacc in Heq. exact (prefix_before_untyped _ _ _ _ _ Heq Hdel Hnone).
Qed.

Lemma undefined_log_type_blocks_delivery_witness :
  let api := {| baseUrl := "https://api.example"; apiPassword := "secret" |} in
  let ok := FetchResolves true 200 (inr {| status := 200; message := "stored" |}) in
  let ping := {| server_id := "row-1"; type := Some "ping_test"; isp := "ISP-1";
                 success := true; timestamp := 1000 |} in
  let download := {| server_id := "row-1"; type := None; isp := "ISP-1";
                     success := true; timestamp := 1001 |} in
  let tested := [StepSetISPInfo {| info_isp := Some "ISP-1"; info_org := None;
                                   info_error := None |};
                 ServerTestService.addLog_step 1000 "row-1"
                   ServerTestService.LOG_PING_TEST true;
                 ServerTestService.addLog_step 1001 "row-1"
                   ServerTestService.LOG_DOWNLOAD_TEST true;
                 StepStop] in
  let later := tested ++ [StepAnswer ok;
                          StepAddLog "row-1" (Some CONNECTED) true 2000;
                          StepTimeout; StepAnswer ok] in
  inflight (run api tested) = Some [ping; download]
  /\ (exists message, storeLogs api [ping; download] ok = inl message)
  /\ delivered (run api later) `prefix_of` [ping].
Proof.
  intros api ok ping download tested later.
  assert (Hb : inflight (run api tested) = Some [ping; download]) by reflexivity.
  split; [exact Hb|]. split.
  - destruct (undefined_log_type_blocks_delivery api tested) as (Hrejects & _).
    apply (Hrejects [ping; download] ok Hb).
    exists download. split; [right; now left|reflexivity].
  - destruct (undefined_log_type_blocks_delivery api later) as (_ & _ & Hprefix).
    apply (Hprefix [ping] download
             [ {| server_id := "row-1"; type := Some "connected"; isp := "ISP-1";
                  success := true; timestamp := 2000 |} ]);
      reflexivity.
Defined.

(** X15: when the answer to a batch arrives, the batch is counted as
    delivered exactly when no log in it has an undefined type, the API is
    configured, the HTTP response is ok and its body parses to a response
    with status 200; in every other case (a log without a type, missing
    configuration, rejected fetch, HTTP error, unreadable body, another
    status) the whole batch is put back in front of the queue.  Either
    way nothing is in flight afterwards. *)
Theorem batch_delivered_iff_status_200 api steps batch net :
  let l := run api steps in
  let l' := step api (StepAnswer net) l in
  inflight l = Some batch ->
  inflight l' = None
  /\ isSendingLogs (handler l') = false
  /\ ((Forall (fun log => type log <> None) batch
       /\ truthy (apiPassword api) && truthy (baseUrl api) = true
       /\ (exists code body, net = FetchResolves true code (inr body) /\ status body = 200)
       /\ delivered l' = delivered l ++ batch
       /\ logs (handler l') = logs (handler l))
      \/ (~ (Forall (fun log => type log <> None) batch
             /\ truthy (apiPassword api) && truthy (baseUrl api) = true
             /\ exists code body,
                  net = FetchResolves true code (inr body) /\ status body = 200)
          /\ delivered l' = delivered l
          /\ logs (handler l') = batch ++ logs (handler l))).
Proof.
  intros l l' Hb.
  subst l'. simpl. fold l. rewrite Hb. simpl.
  split; [reflexivity|]. split; [reflexivity|].
  destruct (storeLogs_outcome api batch net) as [message|response] eqn:Hout.
  { right. split; [|easy]. intros (Htyped & _).
    unfold storeLogs_outcome, storeLogs in Hout.
    rewrite (inflight_batch_valid api steps batch Hb) in Hout.
    assert (Hall : forallb (fun log => bool_decide (type log <> None)) batch = true).
    { apply forallb_forall. intros log Hin. apply bool_decide_eq_true.
      rewrite Forall_forall in Htyped. apply Htyped. now apply list_elem_of_In. }
    rewrite Hall in Hout.
    now destruct (postRequest api "store_logs" _ net). }
  pose proof (storeLogs_outcome_typed api batch net response Hout) as Htyped.
  unfold storeLogs_outcome, storeLogs in Hout.
  destruct (forallb _ batch); [|discriminate].
  destruct (postRequest api "store_logs" _ net) as [response' forms] eqn:Hpost.
  injection Hout as ->. unfold postRequest in Hpost.
  destruct (truthy (apiPassword api)) eqn:Hp; simpl in Hpost |- *.
  2:{ injection Hpost as <- <-. simpl. right. split; [|easy]. now intros (_ & ? & _). }
  destruct (truthy (baseUrl api)) eqn:Hu; simpl in Hpost |- *.
  2:{ injection Hpost as <- <-. simpl. right. split; [|easy]. now intros (_ & ? & _). }
  injection Hpost as <- <-.
  destruct net as [message|[|] code [message|body]]; simpl.
  - right. split; [|easy]. now intros (_ & _ & ? & ? & ? & _).
  - right. split; [|easy]. now intros (_ & _ & ? & ? & ? & _).
  - destruct (bool_decide (status body = 200)) eqn:Hst.
    + apply bool_decide_eq_true in Hst. left. split; [exact Htyped|].
      split; [reflexivity|]. split; [eauto|]. easy.
    + apply bool_decide_eq_false in Hst. right. split; [|easy].
      intros (_ & _ & c & b & Heq & Hs). injection Heq as <- <-. contradiction.
  - right. split; [|easy]. now intros (_ & _ & ? & ? & ? & _).
  - right. split; [|easy]. now intros (_ & _ & ? & ? & ? & _).
Qed.

Lemma batch_delivered_iff_status_200_witness :
  let api := {| baseUrl := "https://api.example"; apiPassword := "secret" |} in
  let steps := [StepSetISPInfo {| info_isp := Some "ISP-1"; info_org := None;
                                  info_error := None |};
                StepAddLog "7" (Some CONNECTED) true 1000;
                StepAddLog "7" None true 1001;
                StepStop] in
  let batch := [ {| server_id := "7"; type := Some "connected"; isp := "ISP-1";
                    success := true; timestamp := 1000 |};
                 {| server_id := "7"; type := None; isp := "ISP-1";
                    success := true; timestamp := 1001 |} ] in
  let answered :=
    step api (StepAnswer (FetchResolves true 200 (inr {| status := 200; message := "ok" |})))
      (run api steps) in
  inflight (run api steps) = Some batch
  /\ delivered answered = []
  /\ logs (handler answered) = batch.
Proof.
  intros api steps batch answered.
  assert (Hb : inflight (run api steps) = Some batch) by reflexivity.
  split; [exact Hb|].
  destruct (batch_delivered_iff_status_200 api steps batch
              (FetchResolves true 200 (inr {| status := 200; message := "ok" |})) Hb)
    as (_ & _ & [(Htyped & _)|(_ & Hd & Hl)]).
  - exfalso. inversion Htyped as [|? ? _ Hrest]; subst.
    inversion Hrest as [|? ? Hn _]; subst. now apply Hn.
  - split; [exact Hd|exact Hl].
Defined.

Lemma unconfigured_storeLogs api batch net :
  truthy (apiPassword api) && truthy (baseUrl api) = false ->
  match storeLogs api batch net with
  | inr (response, forms) => status response = 400 /\ forms = []
  | inl _ => True
  end.
Proof.
  intros Hc. unfold storeLogs, postRequest.
  destruct (forallb _ batch); [|exact I].
  destruct (truthy (apiPassword api)), (truthy (baseUrl api));
    try discriminate; now cbn.
Qed.

Lemma unconfigured_step_delivers_nothing api s l :
  truthy (apiPassword api) && truthy (baseUrl api) = false ->
  delivered (step api s l) = delivered l.
Proof.
  intros Hc.
  destruct s as [info|sid logType succ now| | | |net]; simpl; try reflexivity.
  - now destruct (periodicTimer (handler l)).
  - destruct (scheduled (handler l)); [reflexivity|].
    now destruct (sendLogsBatch_begin _) as [[batch|] h].
  - now destruct (stop_begin _) as [[batch|] h].
  - destruct (inflight l) as [batch|]; [|reflexivity]. simpl.
    unfold storeLogs_outcome.
    pose proof (unconfigured_storeLogs api batch net Hc) as H.
    destruct (storeLogs api batch net) as [message|[response forms]]; [reflexivity|].
    destruct H as [H _]. rewrite H. reflexivity.
Qed.

(** X16: while the API URL or the password is missing, [storeLogs] posts
    nothing and answers 400, so the handler never counts a log as
    delivered: every log pushed stays in the batch in flight or in the
    queue, in order. *)
Theorem unconfigured_api_keeps_all_logs api steps :
  truthy (apiPassword api) && truthy (baseUrl api) = false ->
  let l := run api steps in
  delivered l = []
  /\ accepted l = default [] (inflight l) ++ logs (handler l)
  /\ forall batch net,
       match storeLogs api batch net with
       | inr (response, forms) => status response = 400 /\ forms = []
       | inl _ => True
       end.
Proof.
  intros Hc l.
  assert (Hd : delivered l = []).
  { subst l. induction steps as [|s steps IH] using rev_ind; [reflexivity|].
    rewrite run_snoc, unconfigured_step_delivers_nothing by exact Hc. exact IH. }
  split; [exact Hd|]. split.
  - destruct (run_consistent api steps) as (Hacc & _). fold l in Hacc.
    now rewrite Hd in Hacc.
  - intros batch net. now apply unconfigured_storeLogs.
Qed.

Lemma unconfigured_api_keeps_all_logs_witness :
  let api := {| baseUrl := "https://api.example"; apiPassword := "" |} in
  let l := run api
             [StepSetISPInfo {| info_isp := None; info_org := Some "Org-1";
                                info_error := None |};
              StepAddLog "7" (Some CONNECTED) true 1000;
              StepStop;
              StepAnswer (FetchResolves true 200 (inr {| status := 200; message := "ok" |}))] in
  delivered l = []
  /\ logs (handler l)
     = [ {| server_id := "7"; type := Some "connected"; isp := "Org-1";
            success := true; timestamp := 1000 |} ].
Proof.
  intros api l.
  split; [|reflexivity].
  apply (unconfigured_api_keeps_all_logs api). reflexivity.
Defined.

End LogsHandler.

(** ** The server test service *)

Section TestService.
Import VPNManagementAPI VPNManagementAPI_v2 ServerTestService.

(** X17: [testServerViaVPN] only disconnects a server it connected
    itself: a server found running is tested as it is, with no connect or
    disconnect call; the disconnect call is made exactly when the test's
    own connect call succeeded, whether or not the connectivity test
    succeeded; the interface is told that the connection ended only when
    the disconnect call succeeded too.  A result is returned exactly when
    the server was running or could be connected (a failing disconnect
    does not change it), and it is the result of the connectivity test
    with the server id filled in. *)
Theorem testServerViaVPN_disconnects_what_it_connected env serverId server :
  let r := testServerViaVPN env serverId server in
  (checkRunning server = inr true
   -> snd r = [server_checkRunning (id server); vpnApi_testConnectivity])
  /\ (In (server_disconnect (id server)) (snd r)
      <-> checkRunning server = inr false /\ connect server = None)
  /\ (In (onServerConnectionChange serverId true) (snd r)
      <-> checkRunning server = inr false /\ connect server = None)
  /\ (In (onServerConnectionChange serverId false) (snd r)
      <-> checkRunning server = inr false /\ connect server = None
          /\ disconnect server = None)
  /\ ((exists result, fst r = inr result)
      <-> checkRunning server = inr true
          \/ (checkRunning server = inr false /\ connect server = None))
  /\ (forall result, fst r = inr result
      -> result = set_serverId serverId (vpnApi_result env server)
         /\ In vpnApi_testConnectivity (snd r)).
Proof.
  intros r. subst r. unfold testServerViaVPN.
  destruct (checkRunning server) as [message|[|]];
    [| |destruct (connect server) as [message|];
        [|destruct (disconnect server) as [message|]]];
    cbn;
    repeat match goal with
           | |- _ /\ _ => split
           | |- _ <-> _ => split
           end;
    intros;
    repeat match goal with
           | H : _ \/ _ |- _ => destruct H
           | H : _ /\ _ |- _ => destruct H
           | H : exists _, _ |- _ => destruct H
           | H : False |- _ => contradiction
           end;
    try discriminate; try congruence; simplify_eq; eauto 12.
Qed.

Lemma testServerViaVPN_disconnects_what_it_connected_witness :
  let server := Scenario.server "s1" (inr false) None (Some "busy") in
  let r := testServerViaVPN (Scenario.test_env [server] false) "s1" server in
  In (server_disconnect "s1") (snd r)
  /\ ~ In (onServerConnectionChange "s1" false) (snd r)
  /\ fst r = inr (set_serverId "s1" Scenario.web_result).
Proof.
  intros server r.
  destruct (testServerViaVPN_disconnects_what_it_connected
              (Scenario.test_env [server] false) "s1" server)
    as (_ & Hd & _ & Hoff & Hres & Hval).
  split; [apply Hd; now split|].
  split.
  - intros H. apply Hoff in H as (_ & _ & H). discriminate H.
  - destruct (proj2 Hres (or_intror (conj eq_refl eq_refl))) as [result Hr].
    fold r in Hr. rewrite Hr. f_equal. now apply Hval.
Defined.

Lemma testing_restored (testing : gset string) (serverId : string) :
  serverId ∉ testing -> (testing ∪ {[serverId]}) ∖ {[serverId]} = testing.
Proof.
  intros Hin. apply set_eq. intros x.
  rewrite elem_of_difference, elem_of_union, elem_of_singleton.
  split; [now intros [[?|?] ?]|].
  intros Hx. split; [now left|]. now intros ->.
Qed.

Lemma testing_untouched (testing : gset string) (serverId : string) :
  serverId ∉ testing -> testing ∖ {[serverId]} = testing.
Proof.
  intros Hin. apply set_eq. intros x.
  rewrite elem_of_difference, elem_of_singleton.
  split; [now intros [? ?]|].
  intros Hx. split; [exact Hx|]. now intros ->.
Qed.

Lemma testing_removed (testing : gset string) (serverId : string) (ids : list string) :
  testing ∖ {[serverId]} ∖ list_to_set ids
  = testing ∖ list_to_set (serverId :: ids).
Proof.
  apply set_eq. intros x. cbn [list_to_set foldr].
  rewrite !elem_of_difference, elem_of_union, elem_of_singleton.
  tauto.
Qed.

#[local] Arguments logTestResults : simpl never.

Lemma logTestResults_filters serverRowId result :
  List.filter is_report (logTestResults serverRowId result) = []
  /\ List.filter is_server_call (logTestResults serverRowId result) = []
  /\ List.filter is_native_call (logTestResults serverRowId result) = [].
Proof.
  unfold logTestResults.
  now destruct (pingSuccess result), (downloadTestSuccess result),
    (uploadTestSuccess result).
Qed.

Lemma testServerNative_events env serverId server :
  let r := testServerNative env serverId server in
  List.filter is_report (snd r) = []
  /\ List.filter is_server_call (snd r) = []
  /\ forall result, fst r = inr result -> VPNManagementAPI_v2.serverId result = serverId.
Proof.
  unfold testServerNative, performNativeConnectivityTest.
  destruct (isNativeTestingAvailable env); [|now cbn].
  destruct (getServerAccessKey env server) as [key|]; [|now cbn].
  destruct (pluginExec env key) as [message|[parsed|[parseError|parsed]]]; cbn;
    repeat split; try discriminate; now intros ? [= <-].
Qed.

Lemma testServerViaVPN_events env serverId server :
  let r := testServerViaVPN env serverId server in
  List.filter is_report (snd r) = []
  /\ List.filter is_native_call (snd r) = []
  /\ forall result, fst r = inr result -> VPNManagementAPI_v2.serverId result = serverId.
Proof.
  unfold testServerViaVPN.
  destruct (checkRunning server) as [message|[|]];
    [| |destruct (connect server) as [message|];
        [|destruct (disconnect server) as [message|]]];
    cbn; repeat split; try discriminate; now intros ? [= <-].
Qed.

(** X18: [testServerSpeed] leaves the set of servers under test as it
    found it, in every case.  For a server already under test it does
    nothing.  Otherwise it reports the end of the test exactly once:
    either [onTestComplete] with a result that bears the server's id and
    is stored under that id, or [onTestError] with the stored results
    unchanged.  In mode DIRECT it makes no call on the server's connection
    (there is no fall-back to the test through the VPN), and in mode VPN
    it makes no call to the native test. *)
Theorem testServerSpeed_reports_once env serverId mode s :
  let r := testServerSpeed env serverId mode s in
  serversCurrentlyTesting (fst r) = serversCurrentlyTesting s
  /\ (serverId ∈ serversCurrentlyTesting s -> r = (s, []))
  /\ (serverId ∉ serversCurrentlyTesting s ->
      (exists result,
          List.filter is_report (snd r) = [onTestComplete serverId result]
          /\ VPNManagementAPI_v2.serverId result = serverId
          /\ serverTestResults (fst r) = <[serverId := result]> (serverTestResults s))
      \/ (exists message,
          List.filter is_report (snd r) = [onTestError serverId message]
          /\ serverTestResults (fst r) = serverTestResults s))
  /\ (mode = DIRECT -> List.filter is_server_call (snd r) = [])
  /\ (mode = VPN -> List.filter is_native_call (snd r) = []).
Proof.
  intros r. subst r. unfold testServerSpeed.
  destruct (bool_decide (serverId ∈ serversCurrentlyTesting s)) eqn:Hin.
  { apply bool_decide_eq_true in Hin. cbn. repeat split; try easy. }
  apply bool_decide_eq_false in Hin.
  destruct (getById env serverId) as [server|].
  2:{ cbn. split; [now apply testing_untouched|]. split; [easy|]. split; [|easy].
      intros _. right. eauto. }
  set (native := match mode with DIRECT => true | AUTO => _ | VPN => false end).
  pose proof (testServerNative_events env serverId server) as (Hn1 & Hn2 & Hn3).
  pose proof (testServerViaVPN_events env serverId server) as (Hv1 & Hv2 & Hv3).
  assert (Hmode : (mode = DIRECT -> native = true) /\ (mode = VPN -> native = false)).
  { split; intros ->; reflexivity. }
  clearbody native.
  destruct native.
  - destruct (testServerNative env serverId server) as [[message|result] calls];
      cbn in Hn1, Hn2, Hn3 |- *.
    + split; [now apply testing_restored|]. split; [easy|]. split.
      * intros _. right. exists message.
        rewrite List.filter_app, Hn1. cbn. easy.
      * split; [intros _; now rewrite List.filter_app, Hn2|].
        intros Hm. apply Hmode in Hm. discriminate.
    + split; [now apply testing_restored|]. split; [easy|]. split.
      * intros _. left. exists result.
        rewrite !List.filter_app, Hn1.
        destruct (truthy_opt (rowId server)); cbv iota;
          [rewrite (proj1 (logTestResults_filters _ _))|]; cbn; auto.
      * split; [|intros Hm; apply Hmode in Hm; discriminate].
        intros _. rewrite !List.filter_app, Hn2.
        destruct (truthy_opt (rowId server)); cbv iota;
          [rewrite (proj1 (proj2 (logTestResults_filters _ _)))|]; reflexivity.
  - destruct (testServerViaVPN env serverId server) as [[message|result] calls];
      cbn in Hv1, Hv2, Hv3 |- *.
    + split; [now apply testing_restored|]. split; [easy|]. split.
      * intros _. right. exists message.
        rewrite List.filter_app, Hv1. cbn. easy.
      * split; [intros Hm; apply Hmode in Hm; discriminate|].
        intros _. now rewrite List.filter_app, Hv2.
    + split; [now apply testing_restored|]. split; [easy|]. split.
      * intros _. left. exists result.
        rewrite !List.filter_app, Hv1.
        destruct (truthy_opt (rowId server)); cbv iota;
          [rewrite (proj1 (logTestResults_filters _ _))|]; cbn; auto.
      * split; [intros Hm; apply Hmode in Hm; discriminate|].
        intros _. rewrite !List.filter_app, Hv2.
        destruct (truthy_opt (rowId server)); cbv iota;
          [rewrite (proj2 (proj2 (logTestResults_filters _ _)))|]; reflexivity.
Qed.

Lemma testServerSpeed_reports_once_witness :
  let server := Scenario.server "s1" (inr false) None None in
  let r := testServerSpeed (Scenario.test_env [server] false) "s1" DIRECT
             Scenario.idle_service in
  List.filter is_server_call (snd r) = []
  /\ List.filter is_report (snd r)
     = [onTestError "s1" "Native testing not available on this platform"].
Proof.
  intros server r.
  destruct (testServerSpeed_reports_once (Scenario.test_env [server] false) "s1" DIRECT
              Scenario.idle_service) as (_ & _ & _ & Hdirect & _).
  split; [now apply Hdirect|]. reflexivity.
Defined.

Lemma testAllServersViaVPN_cons env server servers s :
  testAllServersViaVPN env (server :: servers) s
  = let r := testServerViaVPN env (id server) server in
    let result :=
      match fst r with
      | inr result => result
      | inl message => failedResult (id server) message
      end in
    let report :=
      match fst r with
      | inr result => onTestComplete (id server) result
      | inl message => onTestError (id server) message
      end in
    let rest := testAllServersViaVPN env servers
                  (with_testing (serversCurrentlyTesting s ∖ {[id server]}) s) in
    (result :: fst (fst rest), snd (fst rest), snd r ++ [report] ++ snd rest).
Proof.
  cbn [testAllServersViaVPN].
  destruct (testServerViaVPN env (id server) server) as [[message|result] calls];
    cbn; now destruct (testAllServersViaVPN _ _ _) as [[results s2] events].
Qed.

(** X19: [testAllServersViaVPN] never throws and returns one result per
    server, in the order of the servers, each bearing its server's id; it
    reports once per server, removes every tested server from the set of
    servers under test, makes no call to the native test, and does not
    store any result in [serverTestResults]. *)
Theorem testAllServersViaVPN_one_result_per_server env servers s :
  let r := testAllServersViaVPN env servers s in
  map VPNManagementAPI_v2.serverId (fst (fst r)) = map id servers
  /\ length (List.filter is_report (snd r)) = length servers
  /\ List.filter is_native_call (snd r) = []
  /\ serversCurrentlyTesting (snd (fst r))
     = serversCurrentlyTesting s ∖ list_to_set (map id servers)
  /\ serverTestResults (snd (fst r)) = serverTestResults s.
Proof.
  revert s. induction servers as [|server servers IH]; intros s r; subst r.
  { cbn. repeat split; try reflexivity. apply set_eq. intros x.
    rewrite elem_of_difference, elem_of_empty. tauto. }
  rewrite testAllServersViaVPN_cons. cbv zeta. cbn [fst snd].
  specialize (IH (with_testing (serversCurrentlyTesting s ∖ {[id server]}) s)).
  cbv zeta in IH. destruct IH as (IH1 & IH2 & IH3 & IH4 & IH5).
  pose proof (testServerViaVPN_events env (id server) server) as (Hv1 & Hv2 & Hv3).
  cbv zeta in Hv1, Hv2, Hv3.
  split; [|split; [|split; [|split]]].
  - cbn [map]. rewrite IH1. f_equal.
    destruct (fst (testServerViaVPN env (id server) server)) as [message|result] eqn:E;
      [reflexivity|]. now apply Hv3.
  - rewrite !List.filter_app, Hv1, length_app.
    destruct (fst (testServerViaVPN env (id server) server)); cbn; now rewrite IH2.
  - rewrite !List.filter_app, Hv2, IH3.
    now destruct (fst (testServerViaVPN env (id server) server)).
  - rewrite IH4. cbn [with_testing serversCurrentlyTesting map].
    apply testing_removed.
  - rewrite IH5. reflexivity.
Qed.

Lemma testAllServersViaVPN_one_result_per_server_witness :
  let servers := [Scenario.server "s1" (inr true) None None;
                  Scenario.server "s2" (inr false) (Some "no route") None] in
  let r := testAllServersViaVPN (Scenario.test_env servers false) servers
             Scenario.idle_service in
  map VPNManagementAPI_v2.serverId (fst (fst r)) = ["s1"; "s2"]
  /\ map VPNManagementAPI_v2.success (fst (fst r)) = [true; false]
  /\ serverTestResults (snd (fst r)) = ∅.
Proof.
  intros servers r.
  destruct (testAllServersViaVPN_one_result_per_server
              (Scenario.test_env servers false) servers Scenario.idle_service)
    as (Hids & _ & _ & _ & Hstore).
  split; [exact Hids|]. split; [reflexivity|exact Hstore].
Defined.

End TestService.
